(** * Verification of the fitness backend services (health, food, feed)

    Shallow embedding of the TypeScript services in [src/]: the Prisma
    store is an explicit state (lists of rows), every service method is a
    state-and-error computation over it, and numbers are [Z] (integer
    columns, millisecond timestamps) or [Q] (the JS numbers that carry
    fractions: durations in hours, nutrition totals). *)

From Stdlib Require Import ZArith QArith Qround String List Bool Lia.
From Stdlib Require Import Sorting.Sorted Sorting.Permutation.
Import ListNotations.
Open Scope Z_scope.

(** ** A state monad with failure, the shape of every [async] method:
    a thrown [Error] carries its message. *)
Definition St (S A : Type) : Type := S -> (string + (A * S)).

Definition ret {S A} (a : A) : St S A := fun s => inr (a, s).
Definition bind {S A B} (m : St S A) (k : A -> St S B) : St S B :=
  fun s => match m s with
           | inl e => inl e
           | inr (a, s') => k a s'
           end.
Definition throw {S A} (msg : string) : St S A := fun _ => inl msg.
Definition get {S} : St S S := fun s => inr (s, s).
Definition put {S} (s : S) : St S unit := fun _ => inr (tt, s).

Notation "x <- m ;; k" := (bind m (fun x => k))
  (at level 61, m at next level, right associativity).
Notation "m ;;; k" := (bind m (fun _ => k))
  (at level 61, right associativity).

(** Replace the rows satisfying [p] by [f row] (Prisma [update]). *)
Definition update_where {A} (p : A -> bool) (f : A -> A) (l : list A) : list A :=
  map (fun r => if p r then f r else r) l.

(** ** Daily aggregate and meal bookkeeping
    ([HealthService.addMeal], [updateMeal], [deleteMeal]). *)
Module Meals.

Record DailyHealthData := mkDaily {
  d_id : nat; d_userId : string; d_date : string; d_caloriesConsumed : Z }.

Record Meal := mkMeal { m_id : nat; m_dailyHealthDataId : nat; m_calories : Z }.

Record DB := mkDB {
  dailyHealthData : list DailyHealthData; meals : list Meal; next_id : nat }.

Definition set_cc (c : Z) (d : DailyHealthData) : DailyHealthData :=
  mkDaily (d_id d) (d_userId d) (d_date d) c.

Definition find_daily (userId date : string) (db : DB) : option DailyHealthData :=
  find (fun d => String.eqb (d_userId d) userId && String.eqb (d_date d) date)
       (dailyHealthData db).

Definition find_daily_by_id (id : nat) (db : DB) : option DailyHealthData :=
  find (fun d => Nat.eqb (d_id d) id) (dailyHealthData db).

Definition find_meal (id : nat) (db : DB) : option Meal :=
  find (fun m => Nat.eqb (m_id m) id) (meals db).

(** [dailyHealthData.update({ where: { id }, data })] with [data] a function. *)
Definition update_daily (id : nat) (f : Z -> Z) : St DB unit :=
  fun db => inr (tt, mkDB (update_where (fun d => Nat.eqb (d_id d) id)
                             (fun d => set_cc (f (d_caloriesConsumed d)) d)
                             (dailyHealthData db))
                          (meals db) (next_id db)).

(** get-or-create of the aggregate, as at the top of [addMeal]. *)
Definition get_or_create (userId date : string) : St DB DailyHealthData :=
  db <- get ;;
  match find_daily userId date db with
  | Some d => ret d
  | None =>
      let d := mkDaily (next_id db) userId date 0 in
      put (mkDB (dailyHealthData db ++ [d]) (meals db) (S (next_id db))) ;;;
      ret d
  end.

(** [addMeal(userId, date, { calories })]: creates the meal, then
    [caloriesConsumed: { increment: calories }]; returns the meal. *)
Definition addMeal (userId date : string) (calories : Z) : St DB Meal :=
  dailyData <- get_or_create userId date ;;
  db <- get ;;
  let meal := mkMeal (next_id db) (d_id dailyData) calories in
  put (mkDB (dailyHealthData db) (meals db ++ [meal]) (S (next_id db))) ;;;
  update_daily (d_id dailyData) (fun c => c + calories) ;;;
  ret meal.

(** [updateMeal(mealId, { calories })]: [calories] is [None] when the field
    is absent ([undefined]).  [newCalories = mealData.calories || oldCalories]
    (0 is falsy), while the row itself receives [mealData.calories]. *)
Definition updateMeal (mealId : nat) (calories : option Z) : St DB Meal :=
  db <- get ;;
  match find_meal mealId db with
  | None => throw "Meal not found"
  | Some meal =>
      let oldCalories := m_calories meal in
      let newCalories :=
        match calories with
        | Some c => if Z.eqb c 0 then oldCalories else c
        | None => oldCalories
        end in
      let stored := match calories with Some c => c | None => oldCalories end in
      let updated := mkMeal (m_id meal) (m_dailyHealthDataId meal) stored in
      put (mkDB (dailyHealthData db)
                (update_where (fun m => Nat.eqb (m_id m) mealId)
                              (fun _ => updated) (meals db))
                (next_id db)) ;;;
      (if negb (Z.eqb oldCalories newCalories) then
         db' <- get ;;
         match find_daily_by_id (m_dailyHealthDataId meal) db' with
         | Some dailyData =>
             update_daily (m_dailyHealthDataId meal)
               (fun _ => d_caloriesConsumed dailyData - oldCalories + newCalories)
         | None => ret tt
         end
       else ret tt) ;;;
      ret updated
  end.

(** [deleteMeal(mealId)]: deletes the row, then
    [caloriesConsumed: Math.max(0, caloriesConsumed - meal.calories)]. *)
Definition deleteMeal (mealId : nat) : St DB bool :=
  db <- get ;;
  match find_meal mealId db with
  | None => throw "Meal not found"
  | Some meal =>
      put (mkDB (dailyHealthData db)
                (filter (fun m => negb (Nat.eqb (m_id m) mealId)) (meals db))
                (next_id db)) ;;;
      db' <- get ;;
      match find_daily_by_id (m_dailyHealthDataId meal) db' with
      | Some dailyData =>
          update_daily (m_dailyHealthDataId meal)
            (fun _ => Z.max 0 (d_caloriesConsumed dailyData - m_calories meal))
      | None => ret tt
      end ;;;
      ret true
  end.

(** Sum of the calories of the meals attached to aggregate [id]. *)
Definition meal_sum (id : nat) (db : DB) : Z :=
  fold_right Z.add 0
    (map m_calories (filter (fun m => Nat.eqb (m_dailyHealthDataId m) id) (meals db))).

Definition empty_db : DB := mkDB [] [] 0.

(** Run a computation, keeping the final store. *)
Definition exec {A} (m : St DB A) (db : DB) : DB :=
  match m db with inl _ => db | inr (_, db') => db' end.

End Meals.

(** ** JS number helpers shared by the fasting and basket code. *)

(** [Math.round]: nearest integer, halves towards +infinity. *)
Definition js_round (q : Q) : Z := Qfloor (q + (1 # 2)).

Definition Qltb (x y : Q) : bool := negb (Qle_bool y x).

(** JS truthiness of an optional number: absent and [0] are falsy. *)
Definition truthyQ (o : option Q) : bool :=
  match o with Some q => negb (Qeq_bool q 0) | None => false end.
Definition truthyZ (o : option Z) : bool :=
  match o with Some z => negb (Z.eqb z 0) | None => false end.

(** [(now.getTime() - startTime.getTime()) / (1000 * 60 * 60)], timestamps
    in milliseconds. *)
Definition elapsedHours (now startTime : Z) : Q := Qmake (now - startTime) 3600000.

(** Stable insertion sort, the [orderBy ... 'asc'] of the queries. *)
Fixpoint insert_sorted {A} (leb : A -> A -> bool) (x : A) (l : list A) : list A :=
  match l with
  | [] => [x]
  | y :: r => if leb y x then y :: insert_sorted leb x r else x :: l
  end.
Definition sort_by {A} (leb : A -> A -> bool) (l : list A) : list A :=
  fold_right (insert_sorted leb) [] (rev l).

(** [s.includes(sub)]. *)
Definition string_includes (s sub : string) : bool :=
  match String.index 0 sub s with Some _ => true | None => false end.

(** ** Fasting state machine
    ([getDailyHealthData], [getWeeklyHealthData], [startFastingSession],
    [saveFastingSession]).  Times are millisecond timestamps; [now] is the
    value of [new Date()] during the call. *)
Module Fasting.

Record FastingSession := mkSession {
  fs_id : nat; fs_type : string; fs_startTime : Z; fs_endTime : option Z;
  fs_duration : Z; fs_targetDuration : option Z;
  fs_eatingWindowStart : option Z; fs_eatingWindowEnd : option Z }.

(** A [DailyHealthData] row with its [fastingSession] relation included
    (one-to-one: at most one session). *)
Record Daily := mkDaily {
  dd_id : nat; dd_userId : string; dd_date : string;
  dd_fastingSession : option FastingSession }.

Record DB := mkDB { days : list Daily; next_id : nat }.

Definition with_session (o : option FastingSession) (d : Daily) : Daily :=
  mkDaily (dd_id d) (dd_userId d) (dd_date d) o.

Definition find_daily (userId date : string) (db : DB) : option Daily :=
  find (fun d => String.eqb (dd_userId d) userId && String.eqb (dd_date d) date)
       (days db).

(** The guard shared by both read paths:
    [fastingSession && !fastingSession.endTime && fastingSession.targetDuration]
    and then [elapsedHours >= targetDuration]. *)
Definition should_autocomplete (now : Z) (s : FastingSession) : bool :=
  match fs_endTime s, fs_targetDuration s with
  | None, Some t =>
      negb (Z.eqb t 0) && Qle_bool (inject_Z t) (elapsedHours now (fs_startTime s))
  | _, _ => false
  end.

(** [fastingSession.update({ where: { id }, data: { endTime: now,
    duration: targetDuration } })]. *)
Definition completed (s : FastingSession) (now t : Z) : FastingSession :=
  mkSession (fs_id s) (fs_type s) (fs_startTime s) (Some now) t (fs_targetDuration s)
            (fs_eatingWindowStart s) (fs_eatingWindowEnd s).

Definition complete_day (sid : nat) (now t : Z) (d : Daily) : Daily :=
  match dd_fastingSession d with
  | Some s => if Nat.eqb (fs_id s) sid then with_session (Some (completed s now t)) d else d
  | None => d
  end.

Definition complete_session (sid : nat) (now t : Z) (db : DB) : DB :=
  mkDB (map (complete_day sid now t) (days db)) (next_id db).

Definition getDailyHealthData (userId date : string) (now : Z) : St DB (option Daily) :=
  db <- get ;;
  match find_daily userId date db with
  | Some d =>
      match dd_fastingSession d with
      | Some s =>
          match fs_targetDuration s with
          | Some t =>
              if should_autocomplete now s then
                put (complete_session (fs_id s) now t db) ;;;
                db' <- get ;;
                ret (find_daily userId date db')
              else ret (Some d)
          | None => ret (Some d)
          end
      | None => ret (Some d)
      end
  | None => ret None
  end.

Definition find_week (userId : string) (dates : list string) (db : DB) : list Daily :=
  sort_by (fun a b => String.ltb (dd_date a) (dd_date b) || String.eqb (dd_date a) (dd_date b))
   (filter (fun d => String.eqb (dd_userId d) userId &&
                                 existsb (String.eqb (dd_date d)) dates) (days db)).

(** [getWeeklyHealthData(userId, startDate)]; [dates] are the seven ISO day
    strings the method computes from [startDate]. *)
Definition getWeeklyHealthData (userId : string) (dates : list string) (now : Z)
  : St DB (list Daily) :=
  db <- get ;;
  let data := find_week userId dates db in
  let updates :=
    flat_map (fun d => match dd_fastingSession d with
                       | Some s =>
                           match fs_targetDuration s with
                           | Some t => if should_autocomplete now s then [(fs_id s, t)] else []
                           | None => []
                           end
                       | None => []
                       end) data in
  match updates with
  | [] => ret data
  | _ :: _ =>
      put (fold_left (fun db' '(sid, t) => complete_session sid now t db') updates db) ;;;
      db' <- get ;;
      ret (find_week userId dates db')
  end.

(** get-or-create of the aggregate (zeroed totals, no session). *)
Definition get_or_create (userId date : string) (now : Z) : St DB Daily :=
  o <- getDailyHealthData userId date now ;;
  match o with
  | Some d => ret d
  | None =>
      db <- get ;;
      let d := mkDaily (next_id db) userId date None in
      put (mkDB (days db ++ [d]) (S (next_id db))) ;;;
      ret d
  end.

Definition msg_active_exists : string :=
  "An active fasting session already exists. Please end the current session before starting a new one.".
Definition msg_start_failed : string :=
  "Failed to start fasting session: Unique constraint failed on the fields: (dailyHealthDataId)".

(** Modelled from the spec: the one-to-one [FastingSession] relation of the
    Prisma schema (not under src/; "at most one per DailyAggregate").
    [fastingSession.create] for an aggregate that already owns a session row
    violates the uniqueness of [dailyHealthDataId] and throws; the service
    rethrows it as "Failed to start fasting session: ...". *)
Definition fastingSession_create (dailyId : nat) (mk : nat -> FastingSession)
  : St DB FastingSession :=
  db <- get ;;
  match find (fun d => Nat.eqb (dd_id d) dailyId) (days db) with
  | Some d =>
      match dd_fastingSession d with
      | Some _ => throw msg_start_failed
      | None =>
          let s := mk (next_id db) in
          put (mkDB (map (fun d' => if Nat.eqb (dd_id d') dailyId
                                    then with_session (Some s) d' else d') (days db))
                    (S (next_id db))) ;;;
          ret s
      end
  | None => throw msg_start_failed
  end.

(** [startFastingSession(userId, date, type, targetDuration?, ...)]. *)
Definition startFastingSession (userId date type : string) (targetDuration : option Q)
  (eatingWindowStart eatingWindowEnd : option Z) (now : Z) : St DB FastingSession :=
  dailyData <- get_or_create userId date now ;;
  match dd_fastingSession dailyData with
  | Some s =>
      match fs_endTime s with
      | None => throw msg_active_exists
      | Some _ => ret tt
      end
  | None => ret tt
  end ;;;
  let targetDurationValue :=
    match targetDuration with
    | Some t => if truthyQ targetDuration then Some (js_round t) else None
    | None => None
    end in
  fastingSession_create (dd_id dailyData)
    (fun id => mkSession id type now None 0 targetDurationValue
                 eatingWindowStart eatingWindowEnd).

(** The body of [saveFastingSession]; [None] stands for an absent
    (or empty) field. *)
Record SessionData := mkSessionData {
  sd_type : option string; sd_startTime : option Z; sd_endTime : option Z;
  sd_duration : option Q; sd_targetDuration : option Q;
  sd_eatingWindowStart : option Z; sd_eatingWindowEnd : option Z }.

(** Lines 831-851: the pair [(endTime, duration)] before rounding. *)
Definition compute_duration (sd : SessionData) (startTime now : Z) : option Z * Q :=
  let duration := match sd_duration sd with
                  | Some d => if Qeq_bool d 0 then 0%Q else d
                  | None => 0%Q
                  end in
  let endTime := sd_endTime sd in
  match endTime, sd_targetDuration sd with
  | None, Some t =>
      if truthyQ (sd_targetDuration sd) then
        let elapsed := elapsedHours now startTime in
        if Qle_bool t elapsed then (Some now, t) else (None, elapsed)
      else (endTime, duration)
  | _, Some t =>
      if truthyQ (sd_targetDuration sd) && Qltb t duration
      then (endTime, t) else (endTime, duration)
  | _, None => (endTime, duration)
  end.

(** Line 856: [duration < 0.5 ? 1 : Math.round(duration)]. *)
Definition durationValue (duration : Q) : Z :=
  if Qltb duration (1 # 2) then 1 else js_round duration.

Definition msg_missing_fields : string :=
  "Missing required fields: type and startTime are required".

(** [saveFastingSession(userId, date, sessionData)]: validation, get-or-create,
    the duration computation, then [fastingSession.upsert] keyed by
    [dailyHealthDataId]. *)
Definition saveFastingSession (userId date : string) (sd : SessionData) (now : Z)
  : St DB FastingSession :=
  match sd_type sd, sd_startTime sd with
  | Some type, Some startTime =>
      if String.eqb type "" then throw msg_missing_fields else
      dailyData <- get_or_create userId date now ;;
      let '(endTime, duration) := compute_duration sd startTime now in
      let targetDurationValue :=
        match sd_targetDuration sd with
        | Some t => if truthyQ (sd_targetDuration sd) then Some (js_round t) else None
        | None => None
        end in
      db <- get ;;
      let sid := match dd_fastingSession dailyData with
                 | Some s => fs_id s
                 | None => next_id db
                 end in
      let s := mkSession sid type startTime endTime (durationValue duration)
                 targetDurationValue (sd_eatingWindowStart sd) (sd_eatingWindowEnd sd) in
      put (mkDB (map (fun d' => if Nat.eqb (dd_id d') (dd_id dailyData)
                                then with_session (Some s) d' else d') (days db))
                (match dd_fastingSession dailyData with
                 | Some _ => next_id db
                 | None => S (next_id db)
                 end)) ;;;
      ret s
  | _, _ => throw msg_missing_fields
  end.

End Fasting.

(** ** Daily aggregate upsert and duplicate-row self-healing
    ([HealthService.saveDailyHealthData]). *)
Module Daily.

(** An optional field of the request body as Prisma receives it: left out
    ([undefined], which Prisma skips), [null], or a number. *)
Inductive Field := Undef | Null | Val (z : Z).

(** The written fields ([caloriesConsumed = 0], [steps = 0], ... defaults
    applied by the destructuring). *)
Record Payload := mkPayload {
  p_caloriesConsumed : Z; p_caloriesBurned : Z; p_activeEnergyBurned : Field;
  p_dietaryEnergyConsumed : Field; p_heartRate : Field;
  p_restingHeartRate : Field; p_steps : Z; p_waterIntake : Z }.

(** The stored columns ([None] is SQL NULL). *)
Record Data := mkData {
  d_caloriesConsumed : Z; d_caloriesBurned : Z; d_activeEnergyBurned : option Z;
  d_dietaryEnergyConsumed : option Z; d_heartRate : option Z;
  d_restingHeartRate : option Z; d_steps : Z; d_waterIntake : Z }.

(** How one optional field of an [update] changes a column. *)
Definition set_field (old : option Z) (f : Field) : option Z :=
  match f with
  | Undef => old
  | Null => None
  | Val z => Some z
  end.

(** The [data] of an [update] applied to a stored row. *)
Definition apply_update (old : Data) (p : Payload) : Data :=
  mkData (p_caloriesConsumed p) (p_caloriesBurned p)
         (set_field (d_activeEnergyBurned old) (p_activeEnergyBurned p))
         (set_field (d_dietaryEnergyConsumed old) (p_dietaryEnergyConsumed p))
         (set_field (d_heartRate old) (p_heartRate p))
         (set_field (d_restingHeartRate old) (p_restingHeartRate p))
         (p_steps p) (p_waterIntake p).

(** The [create] branch: an omitted optional field is stored as NULL. *)
Definition create_data (p : Payload) : Data :=
  mkData (p_caloriesConsumed p) (p_caloriesBurned p)
         (set_field None (p_activeEnergyBurned p))
         (set_field None (p_dietaryEnergyConsumed p))
         (set_field None (p_heartRate p))
         (set_field None (p_restingHeartRate p))
         (p_steps p) (p_waterIntake p).

Record Row := mkRow {
  r_id : nat; r_userId : string; r_date : string; r_createdAt : Z; r_data : Data }.

Record DB := mkDB { rows : list Row; next_id : nat }.

(** A Prisma error as the [catch] sees it. *)
Record PrismaError := mkPrismaError { err_code : string; err_message : string }.

Definition key_matches (userId date : string) (r : Row) : bool :=
  String.eqb (r_userId r) userId && String.eqb (r_date r) date.

(** [findUnique({ where: { userId_date } })]: a single-row read, the first
    matching row ([LIMIT 1]). *)
Definition findUnique (userId date : string) (db : DB) : option Row :=
  find (key_matches userId date) (rows db).

(** [findMany({ where: { userId, date }, orderBy: { createdAt: 'asc' } })]. *)
Definition findMany_by_created (userId date : string) (db : DB) : list Row :=
  sort_by (fun a b => Z.leb (r_createdAt a) (r_createdAt b))
          (filter (key_matches userId date) (rows db)).

Definition update_row (id : nat) (data : Payload) (db : DB) : DB :=
  mkDB (update_where (fun r => Nat.eqb (r_id r) id)
          (fun r => mkRow (r_id r) (r_userId r) (r_date r) (r_createdAt r)
                          (apply_update (r_data r) data))
          (rows db))
       (next_id db).

Definition deleteMany_ids (ids : list nat) (db : DB) : DB :=
  mkDB (filter (fun r => negb (existsb (Nat.eqb (r_id r)) ids)) (rows db)) (next_id db).

Definition is_unique_violation (e : PrismaError) : bool :=
  String.eqb (err_code e) "P2002" || string_includes (err_message e) "Unique constraint".

(** The [catch] block of [saveDailyHealthData] (lines 222-321), entered with
    the error [e] raised by the upsert. *)
Definition on_upsert_error (userId date : string) (data : Payload) (e : PrismaError)
  : St DB Row :=
  if is_unique_violation e then
    db <- get ;;
    match findUnique userId date db with
    | Some existing =>
        put (update_row (r_id existing) data db) ;;;
        db' <- get ;;
        match find (fun r => Nat.eqb (r_id r) (r_id existing)) (rows db') with
        | Some r => ret r
        | None => throw (err_message e)
        end
    | None =>
        match findMany_by_created userId date db with
        | toKeep :: toDelete =>
            (match toDelete with
             | [] => ret tt
             | _ :: _ => db1 <- get ;; put (deleteMany_ids (map r_id toDelete) db1)
             end) ;;;
            db2 <- get ;;
            put (update_row (r_id toKeep) data db2) ;;;
            ret (mkRow (r_id toKeep) (r_userId toKeep) (r_date toKeep)
                       (r_createdAt toKeep) (apply_update (r_data toKeep) data))
        | [] => throw (err_message e)
        end
    end
  else throw (err_message e).

(** [saveDailyHealthData(userId, data)]; [upsert_error] is the error the
    [upsert] raised ([None] when it went through, e.g. no concurrent
    writer), [now] the creation timestamp. *)
Definition saveDailyHealthData (userId date : string) (data : Payload)
  (upsert_error : option PrismaError) (now : Z) : St DB Row :=
  match upsert_error with
  | Some e => on_upsert_error userId date data e
  | None =>
      db <- get ;;
      match findUnique userId date db with
      | Some r =>
          put (update_row (r_id r) data db) ;;;
          ret (mkRow (r_id r) (r_userId r) (r_date r) (r_createdAt r)
                     (apply_update (r_data r) data))
      | None =>
          let r := mkRow (next_id db) userId date now (create_data data) in
          put (mkDB (rows db ++ [r]) (S (next_id db))) ;;;
          ret r
      end
  end.

End Daily.

(** ** Food catalog and basket ([FoodService], [food.controller]). *)

(** A [FoodItem] row (description, imageUrl, servingUnit and sourceUrl are
    carried through unchanged by every path and left out). *)
Record FoodItem := mkFood {
  f_id : nat; f_name : string; f_calories : Q; f_carbs : Q; f_protein : Q;
  f_fat : Q; f_servingSize : Q; f_category : option string; f_source : string }.

(** An HTTP reply built by [sendSuccess]/[sendCreated] or [sendError]
    (an empty [code] when the call passes none). *)
Inductive Response (A : Type) : Type :=
| RSuccess (status : Z) (data : A)
| RError (status : Z) (code : string) (message : string).
Arguments RSuccess {A}. Arguments RError {A}.

Definition status_of {A} (r : Response A) : Z :=
  match r with RSuccess s _ => s | RError s _ _ => s end.

Module Basket.

Record BasketItem := mkItem {
  b_id : nat; b_userId : string; b_foodItem : FoodItem;
  b_quantity : Q; b_servingSize : Q }.

(** Basket rows in creation order. *)
Record DB := mkDB { basket : list BasketItem }.

(** [getBasket(userId)], [orderBy: { createdAt: 'desc' }]. *)
Definition getBasket (userId : string) (db : DB) : list BasketItem :=
  rev (filter (fun b => String.eqb (b_userId b) userId) (basket db)).

(** [clearBasket(userId)]. *)
Definition clearBasket (userId : string) (db : DB) : DB :=
  mkDB (filter (fun b => negb (String.eqb (b_userId b) userId)) (basket db)).

Record Totals := mkTotals { t_calories : Q; t_carbs : Q; t_protein : Q; t_fat : Q }.

(** The accumulation loop of [createMealFromBasket] (lines 256-272). *)
Definition multiplier (bi : BasketItem) : Q :=
  (b_quantity bi * b_servingSize bi) / f_servingSize (b_foodItem bi).

Definition accumulate (t : Totals) (bi : BasketItem) : Totals :=
  let f := b_foodItem bi in
  let m := multiplier bi in
  mkTotals (t_calories t + f_calories f * m) (t_carbs t + f_carbs f * m)
           (t_protein t + f_protein f * m) (t_fat t + f_fat f * m).

Definition totals (items : list BasketItem) : Totals :=
  fold_left accumulate items (mkTotals 0 0 0 0).

Fixpoint string_of_nat_aux (fuel n : nat) (acc : string) : string :=
  match fuel with
  | O => acc
  | S fuel' =>
      let acc' := String (Ascii.ascii_of_nat (48 + Nat.modulo n 10)) acc in
      if Nat.ltb n 10 then acc' else string_of_nat_aux fuel' (Nat.div n 10) acc'
  end.
Definition string_of_nat (n : nat) : string := string_of_nat_aux (S n) n "".

(** Lines 274-276. *)
Definition mealName (itemNames : list string) : string :=
  match itemNames with
  | [n] => n
  | _ => String.concat ", " (firstn 2 itemNames) ++
         (if Nat.ltb 2 (length itemNames)
          then " + " ++ string_of_nat (length itemNames - 2) ++ " more" else "")
  end.

(** [Math.round(x * 10) / 10]. *)
Definition round1 (x : Q) : Q := inject_Z (js_round (x * 10)) / 10.

Record MealDraft := mkDraft {
  md_name : string; md_type : string; md_calories : Z; md_carbs : Q;
  md_protein : Q; md_fat : Q; md_items : list (string * Q * Q) }.

(** [createMealFromBasket(req, res)]; [user] is [req.user]'s id. *)
Definition createMealFromBasket (user : option string) (mealType : option string)
  (db : DB) : Response MealDraft * DB :=
  match user with
  | None => (RError 401 "AUTH_REQUIRED" "Not authenticated", db)
  | Some userId =>
      match mealType with
      | None => (RError 400 "VALIDATION_ERROR" "mealType is required", db)
      | Some mt =>
          if String.eqb mt "" then (RError 400 "VALIDATION_ERROR" "mealType is required", db)
          else
          let items := getBasket userId db in
          match items with
          | [] => (RError 400 "VALIDATION_ERROR" "Basket is empty", db)
          | _ :: _ =>
              let t := totals items in
              let names := map (fun bi => f_name (b_foodItem bi)) items in
              (RSuccess 200
                 (mkDraft (mealName names) mt (js_round (t_calories t))
                          (round1 (t_carbs t)) (round1 (t_protein t)) (round1 (t_fat t))
                          (map (fun bi => (f_name (b_foodItem bi), b_quantity bi,
                                           b_servingSize bi)) items)),
               clearBasket userId db)
          end
      end
  end.

(** The spec's formula, for comparison with [totals]: for a nutrient
    [nv], the sum over the items of
    [nv food * ((quantity * servingSize) / food.servingSize)]. *)
Definition spec_total (nv : FoodItem -> Q) (items : list BasketItem) : Q :=
  fold_right Qplus 0%Q
    (map (fun bi => (nv (b_foodItem bi) *
                    ((b_quantity bi * b_servingSize bi) / f_servingSize (b_foodItem bi)))%Q)
         items).

Definition msg_record_not_found : string :=
  "An operation failed because it depends on one or more records that were required but not found. Record to update not found.".

(** [FoodService.updateBasketItem(userId, basketItemId, quantity, servingSize?)]:
    [basketItem.update({ where: { id } })]; [userId] is not consulted. *)
Definition service_updateBasketItem (userId : string) (id : nat) (quantity : Q)
  (servingSize : option Q) : St DB BasketItem :=
  db <- get ;;
  match find (fun b => Nat.eqb (b_id b) id) (basket db) with
  | None => throw msg_record_not_found
  | Some b =>
      let b' := mkItem (b_id b) (b_userId b) (b_foodItem b) quantity
                       (match servingSize with Some s => s | None => b_servingSize b end) in
      put (mkDB (update_where (fun x => Nat.eqb (b_id x) id) (fun _ => b') (basket db))) ;;;
      ret b'
  end.

(** [FoodService.removeFromBasket(userId, basketItemId)]. *)
Definition service_removeFromBasket (userId : string) (id : nat) : St DB BasketItem :=
  db <- get ;;
  match find (fun b => Nat.eqb (b_id b) id) (basket db) with
  | Some item =>
      if String.eqb (b_userId item) userId then
        put (mkDB (filter (fun x => negb (Nat.eqb (b_id x) id)) (basket db))) ;;;
        ret item
      else throw "Basket item not found or access denied"
  | None => throw "Basket item not found or access denied"
  end.

(** The controller [updateBasketItem]: every thrown error becomes a 500. *)
Definition updateBasketItem (user : option string) (id : nat) (quantity : option Q)
  (servingSize : option Q) (db : DB) : Response BasketItem * DB :=
  match user with
  | None => (RError 401 "AUTH_REQUIRED" "Not authenticated", db)
  | Some userId =>
      match quantity with
      | None => (RError 400 "VALIDATION_ERROR" "quantity is required", db)
      | Some q =>
          match service_updateBasketItem userId id q servingSize db with
          | inr (item, db') => (RSuccess 200 item, db')
          | inl msg => (RError 500 "" msg, db)
          end
      end
  end.

(** The controller [removeFromBasket]: messages containing "not found"
    become a 404. *)
Definition removeFromBasket (user : option string) (id : nat) (db : DB)
  : Response bool * DB :=
  match user with
  | None => (RError 401 "AUTH_REQUIRED" "Not authenticated", db)
  | Some userId =>
      match service_removeFromBasket userId id db with
      | inr (_, db') => (RSuccess 200 true, db')
      | inl msg =>
          if string_includes msg "not found" then (RError 404 "NOT_FOUND" msg, db)
          else (RError 500 "" msg, db)
      end
  end.

End Basket.

Module Catalog.

(** [searchFoodItems] parameters; [None] for [undefined] (also [NaN] from
    [parseInt], which is just as falsy). *)
Record Params := mkParams {
  q_search : option string; q_category : option string;
  q_page : option Z; q_limit : option Z }.

Record SearchResult := mkResult {
  items : list FoodItem; total : Z; page : Z; limit : Z; totalPages : Z }.

Definition lower_ascii (c : Ascii.ascii) : Ascii.ascii :=
  let n := Ascii.nat_of_ascii c in
  if Nat.leb 65 n && Nat.leb n 90 then Ascii.ascii_of_nat (n + 32) else c.
Fixpoint lower (s : string) : string :=
  match s with EmptyString => EmptyString | String c r => String (lower_ascii c) (lower r) end.

(** The Prisma [where] built from the parameters: [contains] with
    [mode: 'insensitive'] and category equality, each only when truthy. *)
Definition matches (p : Params) (f : FoodItem) : bool :=
  (match q_search p with
   | Some s => if String.eqb s "" then true
               else string_includes (lower (f_name f)) (lower s)
   | None => true
   end) &&
  (match q_category p with
   | Some c => if String.eqb c "" then true
               else match f_category f with Some c' => String.eqb c' c | None => false end
   | None => true
   end).

(** [findMany({ where, skip, take, orderBy: { name: 'asc' } })]: a negative
    [skip] is rejected; a negative [take] reads backwards from the end. *)
Definition findMany (rows : list FoodItem) (skip take : Z) : string + list FoodItem :=
  if Z.ltb skip 0 then inl "Invalid value for argument skip"%string
  else if Z.leb 0 take then inr (firstn (Z.to_nat take) (skipn (Z.to_nat skip) rows))
  else inr (rev (firstn (Z.to_nat (- take)) (skipn (Z.to_nat skip) (rev rows)))).

(** [Math.ceil(a / b)] for [b <> 0]. *)
Definition ceil_div (a b : Z) : Z := - ((- a) / b).

(** [FoodService.searchFoodItems(params)] over the catalog [cat]. *)
Definition service_search (p : Params) (cat : list FoodItem) : string + SearchResult :=
  let page := match q_page p with Some z => if Z.eqb z 0 then 1 else z | None => 1 end in
  let limit := Z.min (match q_limit p with
                      | Some z => if Z.eqb z 0 then 20 else z
                      | None => 20 end) 100 in
  let skip := (page - 1) * limit in
  let rows := sort_by (fun a b => negb (String.ltb (f_name b) (f_name a)))
                      (filter (matches p) cat) in
  match findMany rows skip limit with
  | inl e => inl e
  | inr its =>
      let total := Z.of_nat (length rows) in
      inr (mkResult its total page limit (ceil_div total limit))
  end.

(** What the search endpoint asks of the outside world, in order. *)
Inductive Event := LocalSearch | ExternalFetch (query : string) (lim : Z) | Import (n : nat).

Record DB := mkDB { catalog : list FoodItem; next_id : nat; log : list Event }.

Definition record (e : Event) (db : DB) : DB :=
  mkDB (catalog db) (next_id db) (log db ++ [e]).

(** An item produced by the scraper. *)
Record NewFood := mkNew {
  n_name : string; n_calories : Q; n_carbs : Q; n_protein : Q; n_fat : Q;
  n_servingSize : option Q; n_category : option string; n_source : option string }.

Definition source_or_scraped (o : option string) : string :=
  match o with Some s => if String.eqb s "" then "scraped" else s | None => "scraped" end.

(** [bulkImportFoodItems(items)]: the items run concurrently
    ([Promise.allSettled]), so every [findFirst] sees the catalog as it was
    before the call. *)
Definition bulkImportFoodItems (news : list NewFood) (db : DB) : DB :=
  let cat0 := catalog db in
  fold_left
    (fun db' it =>
       let src := source_or_scraped (n_source it) in
       match find (fun f => String.eqb (f_name f) (n_name it) && String.eqb (f_source f) src) cat0 with
       | Some ex =>
           mkDB (update_where (fun f => Nat.eqb (f_id f) (f_id ex))
                   (fun f => mkFood (f_id f) (f_name f) (n_calories it) (n_carbs it)
                               (n_protein it) (n_fat it) (f_servingSize f)
                               (match n_category it with
                                | Some c => if String.eqb c "" then f_category f else Some c
                                | None => f_category f end)
                               (f_source f))
                   (catalog db'))
                (next_id db') (log db')
       | None =>
           let ss := match n_servingSize it with
                     | Some s => if Qeq_bool s 0 then 100%Q else s | None => 100%Q end in
           mkDB (catalog db' ++ [mkFood (next_id db') (n_name it) (n_calories it) (n_carbs it)
                                   (n_protein it) (n_fat it) ss (n_category it) src])
                (S (next_id db')) (log db')
       end)
    news (record (Import (length news)) db).

Definition is_space (c : Ascii.ascii) : bool :=
  let n := Ascii.nat_of_ascii c in
  Nat.eqb n 32 || (Nat.leb 9 n && Nat.leb n 13).
Fixpoint trim_left (s : string) : string :=
  match s with
  | String c r => if is_space c then trim_left r else s
  | EmptyString => EmptyString
  end.
Definition string_rev (s : string) : string :=
  String.string_of_list_ascii (rev (String.list_ascii_of_string s)).
(** [s.trim()] on the ASCII white-space characters. *)
Definition trim (s : string) : string := string_rev (trim_left (string_rev (trim_left s))).

(** The controller [searchFoodItems(req, res)].  [scrape q n] is the outcome
    of [scrapeFoodItems(q, n)]: [None] when it throws. *)
Definition searchFoodItems (user : option string) (search category : option string)
  (page limit : option Z) (scrape : string -> Z -> option (list NewFood)) (db : DB)
  : Response SearchResult * DB :=
  match user with
  | None => (RError 401 "AUTH_REQUIRED" "Not authenticated", db)
  | Some _ =>
      let p := mkParams search category page limit in
      let db1 := record LocalSearch db in
      match service_search p (catalog db1) with
      | inl msg => (RError 500 "" msg, db1)
      | inr result =>
          match items result, search with
          | [], Some s =>
              if String.eqb (trim s) "" then (RSuccess 200 result, db1) else
              let lim := match limit with Some l => l | None => 20 end in
              let db2 := record (ExternalFetch s lim) db1 in
              match scrape s lim with
              | None => (RSuccess 200 result, db2)
              | Some [] => (RSuccess 200 result, db2)
              | Some scraped =>
                  let db3 := record LocalSearch (bulkImportFoodItems scraped db2) in
                  match service_search p (catalog db3) with
                  | inr result' => (RSuccess 200 result', db3)
                  | inl _ => (RSuccess 200 result, db3)
                  end
              end
          | _, _ => (RSuccess 200 result, db1)
          end
      end
  end.

End Catalog.

(** ** Feed likes ([FeedService.toggleLike]). *)
Module Feed.

Record FeedPost := mkPost {
  p_id : nat; p_userId : string; p_visibility : string; p_likesCount : Z }.

Record DB := mkDB {
  posts : list FeedPost;
  likes : list (nat * string);        (* [feedPostLike] rows: (postId, userId) *)
  friends : list (string * string) }. (* [friend] rows: (userId, friendUid) *)

(** [getFriendUids(userId)]. *)
Definition getFriendUids (userId : string) (db : DB) : list string :=
  map snd (filter (fun fr => String.eqb (fst fr) userId) (friends db)).

(** [getAccessiblePost(postId, userId)]: public posts, or friends-only posts
    of the user or of a friend. *)
Definition getAccessiblePost (postId : nat) (userId : string) (db : DB) : option FeedPost :=
  let allowed := userId :: getFriendUids userId db in
  find (fun p => Nat.eqb (p_id p) postId &&
                 (String.eqb (p_visibility p) "public" ||
                  (String.eqb (p_visibility p) "friends" &&
                   existsb (String.eqb (p_userId p)) allowed)))
       (posts db).

Definition like_eqb (a b : nat * string) : bool :=
  Nat.eqb (fst a) (fst b) && String.eqb (snd a) (snd b).

Definition bump_likes (postId : nat) (delta : Z) (ps : list FeedPost) : list FeedPost :=
  update_where (fun p => Nat.eqb (p_id p) postId)
    (fun p => mkPost (p_id p) (p_userId p) (p_visibility p) (p_likesCount p + delta)) ps.

(** [toggleLike(postId, userId)]: each branch is one [$transaction] of the
    like-row change and the counter change. *)
Definition toggleLike (postId : nat) (userId : string) : St DB bool :=
  db <- get ;;
  match getAccessiblePost postId userId db with
  | None => throw "Post not found"
  | Some _ =>
      if existsb (like_eqb (postId, userId)) (likes db) then
        put (mkDB (bump_likes postId (-1) (posts db))
                  (filter (fun l => negb (like_eqb (postId, userId) l)) (likes db))
                  (friends db)) ;;;
        ret false
      else
        put (mkDB (bump_likes postId 1 (posts db))
                  (likes db ++ [(postId, userId)])
                  (friends db)) ;;;
        ret true
  end.

(** [n] successive calls; the list of returned flags and the final store. *)
Fixpoint toggle_n (n : nat) (postId : nat) (userId : string) (db : DB)
  : option (list bool * DB) :=
  match n with
  | O => Some ([], db)
  | S k =>
      match toggle_n k postId userId db with
      | Some (rs, db') =>
          match toggleLike postId userId db' with
          | inr (r, db'') => Some (rs ++ [r], db'')
          | inl _ => None
          end
      | None => None
      end
  end.

Definition likesCount (postId : nat) (db : DB) : option Z :=
  option_map p_likesCount (find (fun p => Nat.eqb (p_id p) postId) (posts db)).

End Feed.

(** ** Meal controllers and sequences of meal operations *)

Module MealOps.
Import Meals.

(** The controllers [updateMeal] and [deleteMeal] of [health.controller]:
    the message "Meal not found" becomes a 404. *)
Definition updateMeal_ctl (user : option string) (id : nat) (calories : option Z)
  (db : DB) : Response Meal * DB :=
  match user with
  | None => (RError 401 "AUTH_REQUIRED" "Not authenticated", db)
  | Some _ =>
      match updateMeal id calories db with
      | inr (m, db') => (RSuccess 200 m, db')
      | inl msg =>
          if String.eqb msg "Meal not found" then (RError 404 "NOT_FOUND" msg, db)
          else (RError 500 "" (if String.eqb msg "" then "Failed to update meal" else msg), db)
      end
  end.

Definition deleteMeal_ctl (user : option string) (id : nat) (db : DB) : Response bool * DB :=
  match user with
  | None => (RError 401 "AUTH_REQUIRED" "Not authenticated", db)
  | Some _ =>
      match deleteMeal id db with
      | inr (_, db') => (RSuccess 200 true, db')
      | inl msg =>
          if String.eqb msg "Meal not found" then (RError 404 "NOT_FOUND" msg, db)
          else (RError 500 "" (if String.eqb msg "" then "Failed to delete meal" else msg), db)
      end
  end.

(** One call of the meal API; a call that throws leaves the store as it
    was (every write of these methods comes after their checks). *)
Inductive MealOp :=
| OpAdd (userId date : string) (calories : Z)
| OpUpdate (mealId : nat) (calories : option Z)
| OpDelete (mealId : nat).

Definition run_op (op : MealOp) (db : DB) : DB :=
  match op with
  | OpAdd u d c => exec (addMeal u d c) db
  | OpUpdate id c => exec (updateMeal id c) db
  | OpDelete id => exec (deleteMeal id) db
  end.

Definition run_ops (ops : list MealOp) (db : DB) : DB :=
  fold_left (fun db op => run_op op db) ops db.

(** The calls the ledger stays exact under: non-negative calories, and an
    update that either omits calories or gives a positive value. *)
Definition op_ok (op : MealOp) : bool :=
  match op with
  | OpAdd _ _ c => Z.leb 0 c
  | OpUpdate _ None => true
  | OpUpdate _ (Some c) => Z.ltb 0 c
  | OpDelete _ => true
  end.

(** Well-formed store: ids below the counter and distinct, meals point below
    the counter and carry non-negative calories, and every aggregate's
    [caloriesConsumed] is the sum of its meals. *)
Definition wf (db : DB) : Prop :=
  (forall d, In d (dailyHealthData db) -> (d_id d < next_id db)%nat) /\
  (forall m, In m (meals db) ->
     (m_id m < next_id db)%nat /\ (m_dailyHealthDataId m < next_id db)%nat /\
     0 <= m_calories m) /\
  NoDup (map d_id (dailyHealthData db)) /\
  NoDup (map m_id (meals db)) /\
  (forall d, In d (dailyHealthData db) -> d_caloriesConsumed d = meal_sum (d_id d) db).

End MealOps.

(** ** Ending a fasting session *)

Module FastingEnd.
Import Fasting.

(** [endFastingSession(userId, date)]: the read (which may auto-complete
    the session), the three checks, then [fastingSession.update] with
    [endTime] and [Math.round] of the elapsed hours.  The two [new Date()]
    of the read and of the method are taken as the same instant [now]. *)
Definition endFastingSession (userId date : string) (now : Z) : St DB FastingSession :=
  o <- getDailyHealthData userId date now ;;
  match o with
  | None => throw "Daily health data not found"
  | Some dailyData =>
      match dd_fastingSession dailyData with
      | None => throw "No active fasting session found"
      | Some s =>
          match fs_endTime s with
          | Some _ => throw "Fasting session has already ended"
          | None =>
              let durationValue := js_round (elapsedHours now (fs_startTime s)) in
              db <- get ;;
              put (complete_session (fs_id s) now durationValue db) ;;;
              ret (completed s now durationValue)
          end
      end
  end.

End FastingEnd.

(** ** More of the food service and controller *)

Module CatalogOps.
Import Catalog.

(** [FoodService.createFoodItem(data)]: [servingSize || 100] and
    [source || 'user-added']. *)
Definition createFoodItem (name : string) (calories carbs protein fat : Q)
  (servingSize : option Q) (category : option string) (source : option string)
  (db : DB) : FoodItem * DB :=
  let ss := match servingSize with
            | Some s => if Qeq_bool s 0 then 100%Q else s
            | None => 100%Q end in
  let src := match source with
             | Some s => if String.eqb s "" then "user-added"%string else s
             | None => "user-added"%string end in
  let f := mkFood (next_id db) name calories carbs protein fat ss category src in
  (f, mkDB (catalog db ++ [f]) (S (next_id db)) (log db)).

(** Prisma's [distinct: ['category']]: the first row of each value. *)
Fixpoint distinct_from (seen : list string) (l : list string) : list string :=
  match l with
  | [] => []
  | x :: r => if existsb (String.eqb x) seen then distinct_from seen r
              else x :: distinct_from (x :: seen) r
  end.

(** [FoodService.getCategories()]: the distinct non-null categories, then
    [.sort()] (code-unit order, [String.leb] on ASCII). *)
Definition getCategories (db : DB) : list string :=
  sort_by String.leb
    (distinct_from [] (flat_map (fun f => match f_category f with
                                          | Some c => [c]
                                          | None => [] end) (catalog db))).

End CatalogOps.

Module BasketOps.
Import Basket.

Definition key (b : BasketItem) : string * nat := (b_userId b, f_id (b_foodItem b)).

(** [basketItem.findUnique({ where: { userId_foodItemId } })]. *)
Definition find_by_food (userId : string) (foodItemId : nat) (db : DB) : option BasketItem :=
  find (fun b => String.eqb (b_userId b) userId && Nat.eqb (f_id (b_foodItem b)) foodItemId)
       (basket db).

Definition msg_foreign_key : string :=
  "Foreign key constraint failed on the field: foodItemId".

(** [FoodService.addToBasket(userId, foodItemId, quantity, servingSize)]:
    an existing line for the food gets the new quantity and serving size;
    otherwise a line is created ([newId] is the id Prisma generates; the
    [foodItem] is looked up in [cat], a missing one violates the foreign
    key). *)
Definition service_addToBasket (userId : string) (foodItemId : nat) (quantity servingSize : Q)
  (newId : nat) (cat : list FoodItem) : St DB BasketItem :=
  db <- get ;;
  match find_by_food userId foodItemId db with
  | Some ex =>
      let b := mkItem (b_id ex) (b_userId ex) (b_foodItem ex) quantity servingSize in
      put (mkDB (update_where (fun x => Nat.eqb (b_id x) (b_id ex)) (fun _ => b) (basket db))) ;;;
      ret b
  | None =>
      match find (fun f => Nat.eqb (f_id f) foodItemId) cat with
      | None => throw msg_foreign_key
      | Some f =>
          let b := mkItem newId userId f quantity servingSize in
          put (mkDB (basket db ++ [b])) ;;;
          ret b
      end
  end.

(** The controller [addToBasket]: [foodItemId] is required, then
    [quantity || 1] and [servingSize || 100].  [created_status] is the
    status [sendCreated] answers with (its helper is not under src/). *)
Definition addToBasket (created_status : Z) (user : option string) (foodItemId : option nat)
  (quantity servingSize : option Q) (newId : nat) (cat : list FoodItem) (db : DB)
  : Response BasketItem * DB :=
  match user with
  | None => (RError 401 "AUTH_REQUIRED" "Not authenticated", db)
  | Some userId =>
      match foodItemId with
      | None => (RError 400 "VALIDATION_ERROR" "foodItemId is required", db)
      | Some fid =>
          let q := match quantity with
                   | Some x => if Qeq_bool x 0 then 1%Q else x | None => 1%Q end in
          let s := match servingSize with
                   | Some x => if Qeq_bool x 0 then 100%Q else x | None => 100%Q end in
          match service_addToBasket userId fid q s newId cat db with
          | inr (b, db') => (RSuccess created_status b, db')
          | inl msg => (RError 500 "" msg, db)
          end
      end
  end.

End BasketOps.

(** ** More of the feed service and controller *)

Module FeedOps.
Import Feed.

(** The [where] of [listPosts]: public, or friends-only of the user or a
    friend. *)
Definition post_visible (userId : string) (db : DB) (p : FeedPost) : bool :=
  String.eqb (p_visibility p) "public" ||
  (String.eqb (p_visibility p) "friends" &&
   existsb (String.eqb (p_userId p)) (userId :: getFriendUids userId db)).

(** The rows up to and including the cursor row, in storage order. *)
Fixpoint through_cursor (c : nat) (l : list FeedPost) : option (list FeedPost) :=
  match l with
  | [] => None
  | p :: r => if Nat.eqb (p_id p) c then Some [p] else option_map (cons p) (through_cursor c r)
  end.

(** The rows from the cursor row on, in storage order. *)
Fixpoint from_cursor (c : nat) (l : list FeedPost) : option (list FeedPost) :=
  match l with
  | [] => None
  | p :: r => if Nat.eqb (p_id p) c then Some (p :: r) else from_cursor c r
  end.

(** [listPosts(userId, limitCount, cursor?)]: rows are stored in creation
    order, so [orderBy: [{ createdAt: 'desc' }, { id: 'desc' }]] is the
    reversed storage order. A non-negative [take] reads that order: a
    cursor starts the page at its row ([skip: 1] drops the first row of
    the page). A negative [take] reads the opposite order (storage order,
    from the cursor row on when there is one, [skip: 1] again dropping the
    first row) and returns the rows it read in the query's order. An
    unknown cursor gives no rows; each post comes with [hasLiked]. *)
Definition listPosts (userId : string) (limitCount : Z) (cursor : option nat) (db : DB)
  : list (FeedPost * bool) :=
  let visible := filter (post_visible userId db) in
  let rows :=
    if Z.leb 0 limitCount then
      match cursor with
      | None => Some (firstn (Z.to_nat limitCount) (rev (visible (posts db))))
      | Some c =>
          option_map (fun ps => firstn (Z.to_nat limitCount) (skipn 1 (rev (visible ps))))
                     (through_cursor c (posts db))
      end
    else
      match cursor with
      | None => Some (rev (firstn (Z.to_nat (- limitCount)) (visible (posts db))))
      | Some c =>
          option_map (fun ps => rev (firstn (Z.to_nat (- limitCount)) (skipn 1 (visible ps))))
                     (from_cursor c (posts db))
      end in
  match rows with
  | None => []
  | Some ps => map (fun p => (p, existsb (like_eqb (p_id p, userId)) (likes db))) ps
  end.

(** The limit of [getFeedPosts]: [Math.min(parseInt(limit, 10) || 10, 50)];
    [limit] is what [parseInt] returns, [None] for [NaN]. *)
Definition feed_limit (limit : option Z) : Z :=
  Z.min (match limit with
         | Some n => if Z.eqb n 0 then 10 else n
         | None => 10
         end) 50.

(** [posts.length > 0 ? posts[posts.length - 1].id : null]. *)
Definition next_cursor (page : list (FeedPost * bool)) : option nat :=
  match rev page with
  | (p, _) :: _ => Some (p_id p)
  | [] => None
  end.

(** The controller [getFeedPosts]. *)
Definition getFeedPosts (user : option string) (limit : option Z) (cursor : option nat) (db : DB)
  : Response (list (FeedPost * bool) * option nat) :=
  match user with
  | None => RError 401 "AUTH_REQUIRED" "Not authenticated"
  | Some userId =>
      let page := listPosts userId (feed_limit limit) cursor db in
      RSuccess 200 (page, next_cursor page)
  end.

(** The controller [toggleFeedLike]: "Post not found" becomes a 404. *)
Definition toggleFeedLike (user : option string) (postId : nat) (db : DB) : Response bool * DB :=
  match user with
  | None => (RError 401 "AUTH_REQUIRED" "Not authenticated", db)
  | Some userId =>
      match toggleLike postId userId db with
      | inr (liked, db') => (RSuccess 200 liked, db')
      | inl msg =>
          if String.eqb msg "Post not found" then (RError 404 "NOT_FOUND" msg, db)
          else (RError 500 "" msg, db)
      end
  end.

Record Comment := mkComment { c_id : nat; c_postId : nat; c_userId : string; c_text : string }.

(** The feed store with the comment rows and the [commentsCount] column of
    the posts, as [(postId, commentsCount)] pairs. *)
Record CDB := mkCDB {
  feed : DB; comments : list Comment; commentsCount : list (nat * Z); c_next_id : nat }.

(** [addComment(postId, userId, text)]: the access check, then one
    transaction creating the comment and incrementing [commentsCount]. *)
Definition addComment (postId : nat) (userId text : string) : St CDB Comment :=
  db <- get ;;
  match getAccessiblePost postId userId (feed db) with
  | None => throw "Post not found"
  | Some _ =>
      let c := mkComment (c_next_id db) postId userId text in
      put (mkCDB (feed db) (comments db ++ [c])
                 (update_where (fun e => Nat.eqb (fst e) postId)
                               (fun e => (fst e, snd e + 1)) (commentsCount db))
                 (S (c_next_id db))) ;;;
      ret c
  end.

(** The body field [text]: absent, a string, or another JSON value. *)
Inductive JVal := JAbsent | JString (s : string) | JOther.

(** The controller [addFeedComment]: [!text || typeof text !== 'string']
    is a 400, then [text.trim()] is stored; [created_status] as for
    [addToBasket]. *)
Definition addFeedComment (created_status : Z) (user : option string) (postId : nat)
  (text : JVal) (db : CDB) : Response Comment * CDB :=
  match user with
  | None => (RError 401 "AUTH_REQUIRED" "Not authenticated", db)
  | Some userId =>
      match text with
      | JString t =>
          if String.eqb t "" then (RError 400 "VALIDATION_ERROR" "Text is required", db) else
          match addComment postId userId (Catalog.trim t) db with
          | inr (c, db') => (RSuccess created_status c, db')
          | inl msg =>
              if String.eqb msg "Post not found" then (RError 404 "NOT_FOUND" msg, db)
              else (RError 500 "" msg, db)
          end
      | _ => (RError 400 "VALIDATION_ERROR" "Text is required", db)
      end
  end.



End FeedOps.

(** * Properties *)

(** ** List facts used throughout *)

Lemma find_map {A} (p : A -> bool) (f : A -> A) (l : list A) :
  (forall x, p (f x) = p x) -> find p (map f l) = option_map f (find p l).
Proof.
  intros Hp; induction l as [|x l IH]; simpl; [reflexivity|].
  rewrite Hp; destruct (p x); [reflexivity | exact IH].
Qed.

Lemma find_in_some {A} (p : A -> bool) (l : list A) (x : A) :
  In x l -> p x = true -> exists y, find p l = Some y.
Proof.
  intros Hin Hp; destruct (find p l) as [y|] eqn:E; [eauto|].
  rewrite (find_none p l E x Hin) in Hp; discriminate.
Qed.

Lemma In_insert_sorted {A} (leb : A -> A -> bool) (a x : A) (l : list A) :
  In x (insert_sorted leb a l) <-> x = a \/ In x l.
Proof.
  induction l as [|y l IH]; simpl.
  - intuition congruence.
  - destruct (leb y a); simpl; rewrite ?IH; intuition congruence.
Qed.

Lemma In_sort_by {A} (leb : A -> A -> bool) (l : list A) (x : A) :
  In x (sort_by leb l) <-> In x l.
Proof.
  unfold sort_by; rewrite (in_rev l).
  induction (rev l) as [|y r IH]; simpl; [tauto|].
  rewrite In_insert_sorted, IH; intuition congruence.
Qed.

Lemma length_insert_sorted {A} (leb : A -> A -> bool) (a : A) (l : list A) :
  length (insert_sorted leb a l) = S (length l).
Proof.
  induction l as [|y l IH]; simpl; [reflexivity|].
  destruct (leb y a); simpl; rewrite ?IH; reflexivity.
Qed.

Lemma sort_by_length {A} (leb : A -> A -> bool) (l : list A) :
  length (sort_by leb l) = length l.
Proof.
  unfold sort_by; rewrite <- (length_rev l).
  induction (rev l) as [|y r IH]; simpl; [reflexivity|].
  rewrite length_insert_sorted, IH; reflexivity.
Qed.

(** ** C1: meal bookkeeping *)

(** C1 (code_bug evidence): after [addMeal] of a 100 kcal meal and an
    [updateMeal] setting its calories to 0, the meal row holds 0 kcal but
    the aggregate's [caloriesConsumed] stays 100: [mealData.calories ||
    oldCalories] treats the new value 0 as "unchanged". *)
Theorem updateMeal_zero_calories_desyncs_total :
  let db := Meals.exec (Meals.updateMeal 1 (Some 0))
              (Meals.exec (Meals.addMeal "u" "d" 100) Meals.empty_db) in
  option_map Meals.d_caloriesConsumed (Meals.find_daily "u" "d" db) = Some 100 /\
  Meals.meal_sum 0 db = 0.
Proof. vm_compute. split; reflexivity. Qed.

(** ** C2: read-path auto-completion *)

Section ReadPath.
Import Fasting.

Lemma days_complete_session sid now t db :
  days (complete_session sid now t db) = map (complete_day sid now t) (days db).
Proof. reflexivity. Qed.

Lemma complete_day_key sid now t d :
  dd_userId (complete_day sid now t d) = dd_userId d /\
  dd_date (complete_day sid now t d) = dd_date d /\
  dd_id (complete_day sid now t d) = dd_id d.
Proof.
  unfold complete_day; destruct (dd_fastingSession d); [destruct (Nat.eqb _ _)|]; auto.
Qed.

Lemma should_autocomplete_true now s t :
  fs_endTime s = None -> fs_targetDuration s = Some t -> t <> 0 ->
  (inject_Z t <= elapsedHours now (fs_startTime s))%Q ->
  should_autocomplete now s = true.
Proof.
  intros He Ht Hz Hle; unfold should_autocomplete; rewrite He, Ht.
  apply andb_true_intro; split.
  - apply negb_true_iff, Z.eqb_neq; exact Hz.
  - apply Qle_bool_iff; exact Hle.
Qed.

Lemma getDaily_autocompletes userId date now db d s t :
  find_daily userId date db = Some d -> dd_fastingSession d = Some s ->
  fs_endTime s = None -> fs_targetDuration s = Some t -> t <> 0 ->
  (inject_Z t <= elapsedHours now (fs_startTime s))%Q ->
  getDailyHealthData userId date now db =
  inr (Some (with_session (Some (completed s now t)) d), complete_session (fs_id s) now t db).
Proof.
  intros Hf Hs He Ht Hz Hle.
  unfold getDailyHealthData, bind, get, put, ret.
  rewrite Hf, Hs, Ht, (should_autocomplete_true now s t He Ht Hz Hle).
  unfold find_daily at 1; rewrite days_complete_session, find_map.
  - fold (find_daily userId date db); rewrite Hf; simpl.
    unfold complete_day; rewrite Hs, Nat.eqb_refl; reflexivity.
  - intros x; destruct (complete_day_key (fs_id s) now t x) as [-> [-> _]]; reflexivity.
Qed.

Lemma days_fold_complete now (upd : list (nat * Z)) db :
  days (fold_left (fun db' '(sid, td) => complete_session sid now td db') upd db) =
  map (fun d => fold_left (fun d '(sid, td) => complete_day sid now td d) upd d) (days db).
Proof.
  revert db; induction upd as [|[sid t] upd IH]; intros db; simpl.
  - symmetry; apply map_id.
  - rewrite IH, days_complete_session, map_map; reflexivity.
Qed.

Lemma fold_complete_key now (upd : list (nat * Z)) d :
  let d' := fold_left (fun d '(sid, td) => complete_day sid now td d) upd d in
  dd_userId d' = dd_userId d /\ dd_date d' = dd_date d /\ dd_id d' = dd_id d.
Proof.
  revert d; induction upd as [|[sid t] upd IH]; intros d; simpl; [auto|].
  destruct (IH (complete_day sid now t d)) as [-> [-> ->]].
  apply complete_day_key.
Qed.

Lemma fold_complete_session now s t (upd : list (nat * Z)) :
  (forall i t', In (i, t') upd -> i = fs_id s -> t' = t) ->
  forall d x, dd_fastingSession d = Some x -> (x = s \/ x = completed s now t) ->
  exists y,
    dd_fastingSession (fold_left (fun d '(sid, td) => complete_day sid now td d) upd d) = Some y /\
    ((x = completed s now t \/ In (fs_id s, t) upd) -> y = completed s now t).
Proof.
  induction upd as [|[i t'] upd IH]; intros Hcond d x Hx Hxs; simpl.
  - exists x; split; [exact Hx|]. intros [H|[]]; exact H.
  - assert (Hid : fs_id x = fs_id s) by (destruct Hxs; subst; reflexivity).
    assert (Hcond' : forall i0 t0, In (i0, t0) upd -> i0 = fs_id s -> t0 = t)
      by (intros i0 t0 H1 H2; apply (Hcond i0 t0); [right; exact H1 | exact H2]).
    unfold complete_day at 2; rewrite Hx.
    destruct (Nat.eqb (fs_id x) i) eqn:E.
    + apply Nat.eqb_eq in E.
      assert (Ht' : t' = t) by (apply (Hcond i t'); [left; reflexivity | congruence]).
      subst t'.
      assert (Hc : completed x now t = completed s now t)
        by (destruct Hxs; subst; reflexivity).
      destruct (IH Hcond' (with_session (Some (completed x now t)) d) (completed s now t))
        as [y [Hy Himp]]; [simpl; congruence | right; reflexivity |].
      exists y; split; [exact Hy|]. intros _; apply Himp; left; reflexivity.
    + destruct (IH Hcond' d x Hx Hxs) as [y [Hy Himp]].
      exists y; split; [exact Hy|].
      intros [H | [H | H]]; apply Himp; auto.
      inversion H; subst. rewrite Hid, Nat.eqb_refl in E; discriminate.
Qed.

Lemma In_find_week userId dates db d :
  In d (find_week userId dates db) <->
  In d (days db) /\
  (String.eqb (dd_userId d) userId && existsb (String.eqb (dd_date d)) dates) = true.
Proof. unfold find_week; rewrite In_sort_by, filter_In; reflexivity. Qed.

Lemma getWeekly_autocompletes userId dates now db d s t :
  In d (find_week userId dates db) -> dd_fastingSession d = Some s ->
  fs_endTime s = None -> fs_targetDuration s = Some t -> t <> 0 ->
  (inject_Z t <= elapsedHours now (fs_startTime s))%Q ->
  (forall d2 s2, In d2 (days db) -> dd_fastingSession d2 = Some s2 ->
                 fs_id s2 = fs_id s -> fs_targetDuration s2 = Some t) ->
  exists res db', getWeeklyHealthData userId dates now db = inr (res, db') /\
    exists d', In d' res /\ dd_id d' = dd_id d /\
               dd_fastingSession d' = Some (completed s now t).
Proof.
  intros Hin Hs He Ht Hz Hle Huniq.
  unfold getWeeklyHealthData, bind, get, put, ret.
  match goal with |- context [flat_map ?F (find_week userId dates db)] =>
    remember (flat_map F (find_week userId dates db)) as upd eqn:Hupd end.
  assert (Hhit : In (fs_id s, t) upd).
  { subst upd; apply in_flat_map; exists d; split; [exact Hin|].
    rewrite Hs, Ht, (should_autocomplete_true now s t He Ht Hz Hle); left; reflexivity. }
  assert (Hcond : forall i t', In (i, t') upd -> i = fs_id s -> t' = t).
  { intros i t' Hi Hid; subst upd; apply in_flat_map in Hi as [d2 [Hd2 Hi]].
    apply In_find_week in Hd2 as [Hd2 _].
    destruct (dd_fastingSession d2) as [s2|] eqn:Hs2; [|destruct Hi].
    destruct (fs_targetDuration s2) as [t2|] eqn:Ht2; [|destruct Hi].
    destruct (should_autocomplete now s2); [|destruct Hi].
    destruct Hi as [Hi|[]]; inversion Hi; subst.
    rewrite (Huniq d2 s2 Hd2 Hs2 H0) in Ht2; congruence. }
  destruct upd as [|u us]; [destruct Hhit|].
  do 2 eexists; split; [reflexivity|].
  set (G := fun d => fold_left (fun d '(sid, td) => complete_day sid now td d) (u :: us) d).
  exists (G d).
  destruct (fold_complete_key now (u :: us) d) as [Hu [Hd Hid]].
  destruct (fold_complete_session now s t (u :: us) Hcond d s Hs (or_introl eq_refl))
    as [y [Hy Himp]].
  apply In_find_week in Hin as [Hin Hp].
  split; [|split].
  - apply In_find_week; split.
    + rewrite days_fold_complete; apply (in_map G); exact Hin.
    + unfold G; rewrite Hu, Hd; exact Hp.
  - exact Hid.
  - unfold G; rewrite Hy; f_equal; apply Himp; right; exact Hhit.
Qed.

Lemma fold_complete_skip now (upd : list (nat * Z)) s :
  (forall i t', In (i, t') upd -> i <> fs_id s) ->
  forall d, dd_fastingSession d = Some s ->
  dd_fastingSession (fold_left (fun d '(sid, td) => complete_day sid now td d) upd d) = Some s.
Proof.
  induction upd as [|[i t'] upd IH]; intros Hn d Hd; simpl; [exact Hd|].
  apply IH; [intros i0 t0 H; apply (Hn i0 t0); right; exact H|].
  unfold complete_day; rewrite Hd.
  destruct (Nat.eqb_spec (fs_id s) i) as [E|E]; [|exact Hd].
  exfalso; apply (Hn i t'); [left; reflexivity | symmetry; exact E].
Qed.

Lemma should_autocomplete_zero now s :
  fs_targetDuration s = Some 0 -> should_autocomplete now s = false.
Proof.
  intros Ht; unfold should_autocomplete; rewrite Ht.
  destruct (fs_endTime s); reflexivity.
Qed.

Lemma getWeekly_zero_target userId dates now db d s :
  In d (find_week userId dates db) -> dd_fastingSession d = Some s ->
  fs_targetDuration s = Some 0 ->
  (forall d2 s2, In d2 (days db) -> dd_fastingSession d2 = Some s2 ->
                 fs_id s2 = fs_id s -> fs_targetDuration s2 = Some 0) ->
  exists res db', getWeeklyHealthData userId dates now db = inr (res, db') /\
    exists d', In d' res /\ dd_id d' = dd_id d /\ dd_fastingSession d' = Some s.
Proof.
  intros Hin Hs Ht Huniq.
  unfold getWeeklyHealthData, bind, get, put, ret.
  match goal with |- context [flat_map ?F (find_week userId dates db)] =>
    remember (flat_map F (find_week userId dates db)) as upd eqn:Hupd end.
  assert (Hn : forall i t', In (i, t') upd -> i <> fs_id s).
  { intros i t' Hi Hid; subst upd; apply in_flat_map in Hi as [d2 [Hd2 Hi]].
    apply In_find_week in Hd2 as [Hd2 _].
    destruct (dd_fastingSession d2) as [s2|] eqn:Hs2; [|destruct Hi].
    destruct (fs_targetDuration s2) as [t2|] eqn:Ht2; [|destruct Hi].
    destruct (should_autocomplete now s2) eqn:Ha; [|destruct Hi].
    destruct Hi as [Hi|[]]; injection Hi as Hi1 _; rewrite <- Hi1 in Hid.
    rewrite (should_autocomplete_zero now s2 (Huniq d2 s2 Hd2 Hs2 Hid)) in Ha; discriminate. }
  destruct upd as [|u us].
  - do 2 eexists; split; [reflexivity|]. exists d; auto.
  - do 2 eexists; split; [reflexivity|].
    set (G := fun d => fold_left (fun d '(sid, td) => complete_day sid now td d) (u :: us) d).
    exists (G d).
    destruct (fold_complete_key now (u :: us) d) as [Hu [Hd Hid]].
    apply In_find_week in Hin as [Hin Hp].
    split; [|split].
    + apply In_find_week; split.
      * rewrite days_fold_complete; apply (in_map G); exact Hin.
      * unfold G; rewrite Hu, Hd; exact Hp.
    + exact Hid.
    + apply fold_complete_skip; [exact Hn | exact Hs].
Qed.

(** C2 (counterexample): a session whose stored [targetDuration] is 0 (as
    [Math.round(0.4)] stores it) is set, yet a read 9 hours after its start
    returns it still Active: the guard tests [targetDuration] for
    truthiness. *)
Lemma read_path_zero_target_stays_active :
  let db := mkDB [mkDaily 0 "u" "d" (Some (mkSession 1 "16:8" 0 None 0 (Some 0) None None))] 2 in
  exists d s, getDailyHealthData "u" "d" (9 * 3600000) db = inr (Some d, db) /\
    dd_fastingSession d = Some s /\ fs_targetDuration s = Some 0 /\ fs_endTime s = None.
Proof.
  intros db.
  exists (mkDaily 0 "u" "d" (Some (mkSession 1 "16:8" 0 None 0 (Some 0) None None))),
         (mkSession 1 "16:8" 0 None 0 (Some 0) None None).
  repeat split; vm_compute; reflexivity.
Qed.

(** C2 (amended): take an Active session [s] of the aggregate [d] with a
    stored [targetDuration] [t] (session ids are keys of the store). If
    [t] is non-zero and [t] hours have elapsed since [startTime], both
    [getDailyHealthData] and [getWeeklyHealthData] (for a week containing
    the aggregate) return the session Completed, with [endTime = now] and
    [duration = t]. If [t] is 0 the session is treated as having no
    target: the daily read returns the aggregate as stored and leaves the
    store unchanged, and the weekly read returns it with the session still
    Active, whatever the elapsed time. *)
Theorem fasting_read_autocompletes userId date dates now db d s t :
  dd_fastingSession d = Some s -> fs_endTime s = None ->
  fs_targetDuration s = Some t ->
  (t <> 0 ->
   (inject_Z t <= elapsedHours now (fs_startTime s))%Q ->
   (find_daily userId date db = Some d ->
    exists d' s', getDailyHealthData userId date now db = inr (Some d', complete_session (fs_id s) now t db) /\
      dd_id d' = dd_id d /\ dd_fastingSession d' = Some s' /\
      fs_endTime s' = Some now /\ fs_duration s' = t) /\
   (In d (find_week userId dates db) ->
    (forall d2 s2, In d2 (days db) -> dd_fastingSession d2 = Some s2 ->
                   fs_id s2 = fs_id s -> fs_targetDuration s2 = Some t) ->
    exists res db', getWeeklyHealthData userId dates now db = inr (res, db') /\
      exists d' s', In d' res /\ dd_id d' = dd_id d /\ dd_fastingSession d' = Some s' /\
        fs_endTime s' = Some now /\ fs_duration s' = t)) /\
  (t = 0 ->
   (find_daily userId date db = Some d ->
    getDailyHealthData userId date now db = inr (Some d, db)) /\
   (In d (find_week userId dates db) ->
    (forall d2 s2, In d2 (days db) -> dd_fastingSession d2 = Some s2 ->
                   fs_id s2 = fs_id s -> fs_targetDuration s2 = Some t) ->
    exists res db', getWeeklyHealthData userId dates now db = inr (res, db') /\
      exists d' s', In d' res /\ dd_id d' = dd_id d /\ dd_fastingSession d' = Some s' /\
        fs_endTime s' = None /\ fs_targetDuration s' = Some 0)).
Proof.
  intros Hs He Ht; split.
  - intros Hz Hle; split.
    + intros Hf; rewrite (getDaily_autocompletes userId date now db d s t Hf Hs He Ht Hz Hle).
      eexists; eexists; split; [reflexivity|]; repeat split; reflexivity.
    + intros Hin Huniq.
      destruct (getWeekly_autocompletes userId dates now db d s t Hin Hs He Ht Hz Hle Huniq)
        as [res [db' [Hw [d' [Hin' [Hid Hs']]]]]].
      exists res, db'; split; [exact Hw|].
      exists d', (completed s now t); repeat split; auto.
  - intros Hz; subst t; split.
    + intros Hf; unfold getDailyHealthData, bind, get, ret.
      rewrite Hf, Hs, Ht, (should_autocomplete_zero now s Ht); reflexivity.
    + intros Hin Huniq.
      destruct (getWeekly_zero_target userId dates now db d s Hin Hs Ht Huniq)
        as [res [db' [Hw [d' [Hin' [Hid Hs']]]]]].
      exists res, db'; split; [exact Hw|].
      exists d', s; repeat split; auto.
Qed.

Lemma fasting_read_autocompletes_witness :
  let db := mkDB [mkDaily 0 "u" "2026-10-12"%string
                    (Some (mkSession 1 "16:8" 0 None 0 (Some 8) None None));
                  mkDaily 2 "u" "2026-10-13"%string
                    (Some (mkSession 3 "16:8" 0 None 0 (Some 0) None None))] 4 in
  ((exists d' s', getDailyHealthData "u" "2026-10-12" (9 * 3600000) db =
                  inr (Some d', complete_session 1 (9 * 3600000) 8 db) /\
      dd_id d' = 0%nat /\ dd_fastingSession d' = Some s' /\
      fs_endTime s' = Some (9 * 3600000) /\ fs_duration s' = 8) /\
   (exists res db', getWeeklyHealthData "u" ["2026-10-12"; "2026-10-13"]%string (9 * 3600000) db
                    = inr (res, db') /\
      exists d' s', In d' res /\ dd_id d' = 0%nat /\ dd_fastingSession d' = Some s' /\
        fs_endTime s' = Some (9 * 3600000) /\ fs_duration s' = 8)) /\
  (getDailyHealthData "u" "2026-10-13" (9 * 3600000) db
     = inr (Some (mkDaily 2 "u" "2026-10-13" (Some (mkSession 3 "16:8" 0 None 0 (Some 0) None None))), db) /\
   (exists res db', getWeeklyHealthData "u" ["2026-10-12"; "2026-10-13"]%string (9 * 3600000) db
                    = inr (res, db') /\
      exists d' s', In d' res /\ dd_id d' = 2%nat /\ dd_fastingSession d' = Some s' /\
        fs_endTime s' = None /\ fs_targetDuration s' = Some 0)).
Proof.
  intros db. split.
  - destruct (proj1 (fasting_read_autocompletes "u" "2026-10-12" ["2026-10-12"; "2026-10-13"]%string
              (9 * 3600000) db
              (mkDaily 0 "u" "2026-10-12" (Some (mkSession 1 "16:8" 0 None 0 (Some 8) None None)))
              (mkSession 1 "16:8" 0 None 0 (Some 8) None None) 8
              eq_refl eq_refl eq_refl) ltac:(discriminate)
              ltac:(unfold elapsedHours, Qle; simpl; lia)) as [Hd Hw].
    split.
    + apply Hd; vm_compute; reflexivity.
    + apply Hw.
      * vm_compute; left; reflexivity.
      * intros d2 s2 Hin Hs2 Hid; simpl in Hin.
        destruct Hin as [<- | [<- | []]]; simpl in Hs2; inversion Hs2; subst s2;
          [reflexivity | discriminate].
  - destruct (proj2 (fasting_read_autocompletes "u" "2026-10-13" ["2026-10-12"; "2026-10-13"]%string
              (9 * 3600000) db
              (mkDaily 2 "u" "2026-10-13" (Some (mkSession 3 "16:8" 0 None 0 (Some 0) None None)))
              (mkSession 3 "16:8" 0 None 0 (Some 0) None None) 0
              eq_refl eq_refl eq_refl) eq_refl) as [Hd Hw].
    split.
    + apply Hd; vm_compute; reflexivity.
    + apply Hw.
      * vm_compute; right; left; reflexivity.
      * intros d2 s2 Hin Hs2 Hid; simpl in Hin.
        destruct Hin as [<- | [<- | []]]; simpl in Hs2; inversion Hs2; subst s2;
          [discriminate | reflexivity].
Defined.

End ReadPath.

(** ** C3 and C4: writes of the fasting state machine *)

Section FastingWrites.
Import Fasting.

Lemma getDaily_total userId date now db :
  exists o db', getDailyHealthData userId date now db = inr (o, db').
Proof.
  unfold getDailyHealthData, bind, get, put, ret.
  destruct (find_daily userId date db) as [d|]; [|eauto].
  destruct (dd_fastingSession d) as [s|]; [|eauto].
  destruct (fs_targetDuration s) as [t|]; [|eauto].
  destruct (should_autocomplete now s); eauto.
Qed.

Lemma get_or_create_total userId date now db :
  exists d db', get_or_create userId date now db = inr (d, db').
Proof.
  unfold get_or_create, bind at 1.
  destruct (getDaily_total userId date now db) as [o [db' ->]].
  destruct o as [d|]; [unfold ret; eauto|].
  unfold bind, get, put, ret; eauto.
Qed.

Lemma Qle_bool_compat x x' y y' :
  (x == x')%Q -> (y == y')%Q -> Qle_bool x y = Qle_bool x' y'.
Proof.
  intros Hx Hy.
  destruct (Qle_bool x y) eqn:E1, (Qle_bool x' y') eqn:E2; auto.
  - assert (H : (x' <= y')%Q)
      by (apply (Qle_comp x x' Hx y y' Hy); apply Qle_bool_iff; exact E1).
    apply Qle_bool_iff in H; congruence.
  - assert (H : (x <= y)%Q)
      by (apply (Qle_comp x x' Hx y y' Hy); apply Qle_bool_iff; exact E2).
    apply Qle_bool_iff in H; congruence.
Qed.

Lemma durationValue_compat x y : (x == y)%Q -> durationValue x = durationValue y.
Proof.
  intros H; unfold durationValue, Qltb, js_round.
  rewrite (Qle_bool_compat (1 # 2) (1 # 2) x y (Qeq_refl _) H).
  destruct (Qle_bool (1 # 2) y); cbn [negb]; [|reflexivity].
  apply Qfloor_comp, Qplus_comp; [exact H | reflexivity].
Qed.

Lemma truthyQ_some t : ~ (t == 0)%Q -> truthyQ (Some t) = true.
Proof.
  intros H; simpl; destruct (Qeq_bool t 0) eqn:E; [|reflexivity].
  apply Qeq_bool_iff in E; contradiction.
Qed.

Lemma save_result userId date sd type startTime now db :
  sd_type sd = Some type -> type <> ""%string -> sd_startTime sd = Some startTime ->
  exists s db', saveFastingSession userId date sd now db = inr (s, db') /\
    fs_endTime s = fst (compute_duration sd startTime now) /\
    fs_duration s = durationValue (snd (compute_duration sd startTime now)).
Proof.
  intros Hty Hne Hst.
  destruct (get_or_create_total userId date now db) as [d [db1 Hg]].
  unfold saveFastingSession; rewrite Hty, Hst.
  destruct (String.eqb type "") eqn:E; [apply String.eqb_eq in E; contradiction|].
  unfold bind at 1; rewrite Hg.
  destruct (compute_duration sd startTime now) as [e dur].
  unfold bind, get, put, ret; simpl.
  eexists; eexists; split; [reflexivity|]; split; reflexivity.
Qed.

Lemma Qltb_compat x x' y y' :
  (x == x')%Q -> (y == y')%Q -> Qltb x y = Qltb x' y'.
Proof. intros Hx Hy; unfold Qltb; rewrite (Qle_bool_compat y y' x x' Hy Hx); reflexivity. Qed.

(** C3 (counterexample): with no [targetDuration] and no supplied
    [duration], a session saved 2.6 hours after its start is stored with
    duration 1, not the rounded elapsed time 3: elapsed time is only
    computed when a target is set. *)
Lemma save_without_target_ignores_elapsed :
  let sd := mkSessionData (Some "16:8"%string) (Some 0) None None None None None in
  exists s db', saveFastingSession "u" "d" sd 9360000 (mkDB [] 0) = inr (s, db') /\
    fs_endTime s = None /\ fs_duration s = 1 /\ js_round (elapsedHours 9360000 0) = 3.
Proof. intros sd; vm_compute; eexists; eexists; repeat split. Qed.

(** C3 (amended): for a body with [type] and [startTime], [saveFastingSession]
    succeeds and stores: when [endTime] is absent and [targetDuration] [t] is
    set and non-zero, [endTime = now] with duration [t] if [t] hours have
    elapsed, otherwise no [endTime] and the raw elapsed hours; in every other
    case (an [endTime] supplied, or no non-zero target) the supplied
    [endTime] and the supplied [duration] (0 if absent), capped at a
    non-zero target it exceeds.  The stored integer is 1 for a computed
    duration under 0.5 hours and [Math.round] of it otherwise. *)
Theorem saveFastingSession_duration userId date sd type startTime now db :
  sd_type sd = Some type -> type <> ""%string -> sd_startTime sd = Some startTime ->
  let elapsed := elapsedHours now startTime in
  let supplied := match sd_duration sd with Some q => q | None => 0%Q end in
  exists s db', saveFastingSession userId date sd now db = inr (s, db') /\
  (sd_endTime sd = None -> forall t, sd_targetDuration sd = Some t -> ~ (t == 0)%Q ->
     ((t <= elapsed)%Q -> fs_endTime s = Some now /\ fs_duration s = durationValue t) /\
     ((elapsed < t)%Q -> fs_endTime s = None /\ fs_duration s = durationValue elapsed)) /\
  ((sd_endTime sd <> None \/ truthyQ (sd_targetDuration sd) = false) ->
     fs_endTime s = sd_endTime sd /\
     fs_duration s = durationValue (match sd_targetDuration sd with
                                    | Some t => if truthyQ (sd_targetDuration sd) && Qltb t supplied
                                                then t else supplied
                                    | None => supplied
                                    end)) /\
  (forall q, (q < 1 # 2)%Q -> durationValue q = 1) /\
  (forall q, (1 # 2 <= q)%Q -> durationValue q = js_round q).
Proof.
  intros Hty Hne Hst elapsed supplied.
  destruct (save_result userId date sd type startTime now db Hty Hne Hst) as [s [db' [Hr [He Hd]]]].
  assert (Hsup : ((match sd_duration sd with
                   | Some d => if Qeq_bool d 0 then 0%Q else d
                   | None => 0%Q end) == supplied)%Q).
  { unfold supplied; destruct (sd_duration sd) as [q|]; [|reflexivity].
    destruct (Qeq_bool q 0) eqn:E; [apply Qeq_bool_iff in E; symmetry; exact E | reflexivity]. }
  exists s, db'; split; [exact Hr|]; split; [|split; [|split]].
  - intros Hnone t Ht Hnz; rewrite He, Hd; unfold compute_duration; rewrite Hnone, Ht.
    rewrite (truthyQ_some t Hnz). split.
    + intros Hle; apply Qle_bool_iff in Hle; fold elapsed; rewrite Hle; split; reflexivity.
    + intros Hlt; fold elapsed.
      destruct (Qle_bool t elapsed) eqn:E.
      * apply Qle_bool_iff in E; apply Qle_not_lt in E; contradiction.
      * split; reflexivity.
  - intros Hcase; rewrite He, Hd; unfold compute_duration.
    destruct (sd_endTime sd) as [e|] eqn:Hend; destruct (sd_targetDuration sd) as [t|] eqn:Ht.
    + rewrite (Qltb_compat t t _ supplied (Qeq_refl t) Hsup).
      destruct (truthyQ (Some t) && Qltb t supplied); split; auto.
      apply durationValue_compat; exact Hsup.
    + split; [reflexivity|]; apply durationValue_compat; exact Hsup.
    + destruct Hcase as [Hc|Hc]; [contradiction|]; rewrite Hc; simpl.
      split; [reflexivity|]; apply durationValue_compat; exact Hsup.
    + split; [reflexivity|]; apply durationValue_compat; exact Hsup.
  - intros q Hq; unfold durationValue, Qltb.
    destruct (Qle_bool (1 # 2) q) eqn:E; [|reflexivity].
    apply Qle_bool_iff in E; apply Qle_not_lt in E; contradiction.
  - intros q Hq; unfold durationValue, Qltb.
    apply Qle_bool_iff in Hq; rewrite Hq; reflexivity.
Qed.

Lemma saveFastingSession_duration_witness :
  let sd := mkSessionData (Some "16:8"%string) (Some 0) None None (Some 8%Q) None None in
  exists s db', saveFastingSession "u" "d" sd 9360000 (mkDB [] 0) = inr (s, db') /\
  (sd_endTime sd = None -> forall t, sd_targetDuration sd = Some t -> ~ (t == 0)%Q ->
     ((t <= elapsedHours 9360000 0)%Q -> fs_endTime s = Some 9360000 /\ fs_duration s = durationValue t) /\
     ((elapsedHours 9360000 0 < t)%Q -> fs_endTime s = None /\
                                         fs_duration s = durationValue (elapsedHours 9360000 0))) /\
  ((sd_endTime sd <> None \/ truthyQ (sd_targetDuration sd) = false) ->
     fs_endTime s = sd_endTime sd /\
     fs_duration s = durationValue (match sd_targetDuration sd with
                                    | Some t => if truthyQ (sd_targetDuration sd) && Qltb t 0
                                                then t else 0%Q
                                    | None => 0%Q
                                    end)) /\
  (forall q, (q < 1 # 2)%Q -> durationValue q = 1) /\
  (forall q, (1 # 2 <= q)%Q -> durationValue q = js_round q).
Proof.
  intros sd.
  exact (saveFastingSession_duration "u" "d" sd "16:8" 0 9360000 (mkDB [] 0)
           eq_refl ltac:(discriminate) eq_refl).
Defined.

(** The examples of the spec, with a target of 8 hours: 0.2 hours
    elapsed is stored as 1, 2.6 hours as 3. *)
Example save_examples_with_target :
  let sd := mkSessionData (Some "16:8"%string) (Some 0) None None (Some 8%Q) None None in
  (exists s db', saveFastingSession "u" "d" sd 720000 (mkDB [] 0) = inr (s, db') /\
                 fs_endTime s = None /\ fs_duration s = 1) /\
  (exists s db', saveFastingSession "u" "d" sd 9360000 (mkDB [] 0) = inr (s, db') /\
                 fs_endTime s = None /\ fs_duration s = 3).
Proof. intros sd; split; vm_compute; eexists; eexists; repeat split. Qed.

(** C4 (code_bug evidence): once the aggregate's session is Completed,
    [startFastingSession] for the same date always fails: the Active check
    lets it through, but [fastingSession.create] meets the one-to-one
    relation (aggregate ids are keys of the store). *)
Theorem start_after_completed_fails userId date type target ews ewe now db d s :
  find_daily userId date db = Some d -> dd_fastingSession d = Some s ->
  fs_endTime s <> None ->
  (forall d2, In d2 (days db) -> dd_id d2 = dd_id d -> d2 = d) ->
  startFastingSession userId date type target ews ewe now db = inl msg_start_failed.
Proof.
  intros Hf Hs He Huniq.
  assert (Hsa : should_autocomplete now s = false)
    by (unfold should_autocomplete; destruct (fs_endTime s); [reflexivity | congruence]).
  assert (Hfind : find (fun d' => Nat.eqb (dd_id d') (dd_id d)) (days db) = Some d).
  { apply find_some in Hf as [Hin _].
    destruct (find_in_some (fun d' => Nat.eqb (dd_id d') (dd_id d)) (days db) d Hin
                (Nat.eqb_refl _)) as [d2 Hd2].
    rewrite Hd2; apply find_some in Hd2 as [Hin2 Hid2]; apply Nat.eqb_eq in Hid2.
    rewrite (Huniq d2 Hin2 Hid2); reflexivity. }
  assert (Hg : getDailyHealthData userId date now db = inr (Some d, db)).
  { unfold getDailyHealthData, bind, get, ret; rewrite Hf, Hs.
    destruct (fs_targetDuration s); [rewrite Hsa|]; reflexivity. }
  unfold startFastingSession, get_or_create, bind at 1 2; rewrite Hg.
  unfold ret, bind; rewrite Hs; destruct (fs_endTime s) as [e|]; [|congruence].
  unfold fastingSession_create, bind, get; rewrite Hfind, Hs; reflexivity.
Qed.

Lemma start_after_completed_fails_witness :
  let db := mkDB [mkDaily 0 "u" "d" (Some (mkSession 1 "16:8" 0 (Some 100) 8 (Some 8) None None))] 2 in
  startFastingSession "u" "d" "16:8" (Some 16%Q) None None 1000 db = inl msg_start_failed.
Proof.
  intros db.
  apply (start_after_completed_fails "u" "d" "16:8" (Some 16%Q) None None 1000 db
           (mkDaily 0 "u" "d" (Some (mkSession 1 "16:8" 0 (Some 100) 8 (Some 8) None None)))
           (mkSession 1 "16:8" 0 (Some 100) 8 (Some 8) None None)).
  - vm_compute; reflexivity.
  - reflexivity.
  - discriminate.
  - intros d2 Hin _; simpl in Hin; destruct Hin as [<- | []]; reflexivity.
Defined.

(** The first half of C4's transitions: with an Active session that the read
    does not complete, [startFastingSession] fails with the Conflict message. *)
Lemma start_with_active_session_conflicts userId date type target ews ewe now db d s :
  find_daily userId date db = Some d -> dd_fastingSession d = Some s ->
  fs_endTime s = None -> should_autocomplete now s = false ->
  startFastingSession userId date type target ews ewe now db = inl msg_active_exists.
Proof.
  intros Hf Hs He Hsa.
  assert (Hg : getDailyHealthData userId date now db = inr (Some d, db)).
  { unfold getDailyHealthData, bind, get, ret; rewrite Hf, Hs.
    destruct (fs_targetDuration s); [rewrite Hsa|]; reflexivity. }
  unfold startFastingSession, get_or_create, bind at 1 2; rewrite Hg.
  unfold ret, bind; rewrite Hs, He; reflexivity.
Qed.

End FastingWrites.

(** ** C5 and C8: the basket *)

Section BasketProofs.
Import Basket.

Lemma js_round_compat x y : (x == y)%Q -> js_round x = js_round y.
Proof. intros H; unfold js_round; apply Qfloor_comp, Qplus_comp; [exact H | reflexivity]. Qed.

Lemma round1_compat x y : (x == y)%Q -> round1 x = round1 y.
Proof.
  intros H; unfold round1; f_equal; f_equal; apply js_round_compat.
  apply Qmult_comp; [exact H | reflexivity].
Qed.

Lemma totals_spec items t0 :
  let t := fold_left accumulate items t0 in
  (t_calories t == t_calories t0 + spec_total f_calories items)%Q /\
  (t_carbs t == t_carbs t0 + spec_total f_carbs items)%Q /\
  (t_protein t == t_protein t0 + spec_total f_protein items)%Q /\
  (t_fat t == t_fat t0 + spec_total f_fat items)%Q.
Proof.
  unfold spec_total; revert t0; induction items as [|bi items IH]; intros t0; simpl.
  - repeat split; ring.
  - destruct (IH (accumulate t0 bi)) as [H1 [H2 [H3 H4]]].
    unfold accumulate, multiplier in *; simpl in *.
    repeat split; [rewrite H1 | rewrite H2 | rewrite H3 | rewrite H4]; ring.
Qed.

Lemma getBasket_clear userId db : getBasket userId (clearBasket userId db) = [].
Proof.
  unfold getBasket, clearBasket; simpl.
  induction (basket db) as [|b l IH]; [reflexivity|]; simpl.
  destruct (String.eqb (b_userId b) userId) eqn:E; simpl; [exact IH|].
  rewrite E; exact IH.
Qed.

(** C5 (counterexample): one item of a food with 1 kcal per 3 g, taken
    once at 1 g. The spec's sum is 1/3 kcal; the meal built by the
    controller carries [Math.round(1/3) = 0] kcal. *)
Lemma meal_from_basket_rounds_totals :
  let food := mkFood 1 "tea" 1 0 0 0 3 None "local" in
  let db := mkDB [mkItem 1 "u" food 1 1] in
  exists md,
    createMealFromBasket (Some "u"%string) (Some "snack"%string) db
      = (RSuccess 200 md, clearBasket "u" db) /\
    (spec_total f_calories (getBasket "u" db) == 1 # 3)%Q /\
    md_calories md = 0 /\
    ~ (inject_Z (md_calories md) == spec_total f_calories (getBasket "u" db))%Q.
Proof.
  cbv zeta; eexists; split; [reflexivity|].
  split; [vm_compute; reflexivity|]. split; [reflexivity|].
  vm_compute; discriminate.
Qed.

(** C5: for an authenticated call, a missing or empty [mealType] fails
    with [VALIDATION_ERROR] before the basket is read and leaves the store
    unchanged. For a present, non-empty [mealType], [createMealFromBasket]
    on a non-empty basket succeeds with the spec's totals rounded as the
    controller rounds them (calories to the nearest integer, carbs,
    protein and fat to one decimal), clears the basket, and a second call
    fails with [VALIDATION_ERROR]; on an empty basket it fails with
    [VALIDATION_ERROR] and leaves the store unchanged. *)
Theorem createMealFromBasket_rounded_totals userId mto db :
  ((mto = None \/ mto = Some ""%string) ->
   createMealFromBasket (Some userId) mto db
     = (RError 400 "VALIDATION_ERROR" "mealType is required", db)) /\
  (forall mt, mto = Some mt -> mt <> ""%string ->
   let items := getBasket userId db in
   (items = [] ->
    createMealFromBasket (Some userId) mto db
      = (RError 400 "VALIDATION_ERROR" "Basket is empty", db)) /\
   (items <> [] ->
    exists md,
      createMealFromBasket (Some userId) mto db
        = (RSuccess 200 md, clearBasket userId db) /\
      md_calories md = js_round (spec_total f_calories items) /\
      md_carbs md = round1 (spec_total f_carbs items) /\
      md_protein md = round1 (spec_total f_protein items) /\
      md_fat md = round1 (spec_total f_fat items) /\
      getBasket userId (clearBasket userId db) = [] /\
      fst (createMealFromBasket (Some userId) mto (clearBasket userId db))
        = RError 400 "VALIDATION_ERROR" "Basket is empty")).
Proof.
  split.
  - intros [-> | ->]; reflexivity.
  - intros mt -> Hmt; cbv zeta.
    destruct (String.eqb mt "") eqn:E; [apply String.eqb_eq in E; contradiction|].
    unfold createMealFromBasket; rewrite E.
    destruct (getBasket userId db) as [|bi rest] eqn:Hb.
    + split; [reflexivity | intros H; congruence].
    + split; [intros H; discriminate|]. intros _.
      destruct (totals_spec (bi :: rest) (mkTotals 0 0 0 0)) as [H1 [H2 [H3 H4]]].
      cbn [t_calories t_carbs t_protein t_fat] in H1, H2, H3, H4.
      eexists; split; [reflexivity|]. unfold totals.
      cbn [md_calories md_carbs md_protein md_fat].
      split; [apply js_round_compat; eapply Qeq_trans; [exact H1 | ring]|].
      split; [apply round1_compat; eapply Qeq_trans; [exact H2 | ring]|].
      split; [apply round1_compat; eapply Qeq_trans; [exact H3 | ring]|].
      split; [apply round1_compat; eapply Qeq_trans; [exact H4 | ring]|].
      rewrite getBasket_clear. split; reflexivity.
Qed.

Lemma createMealFromBasket_rounded_totals_witness :
  let db := mkDB [mkItem 1 "u" (mkFood 1 "rice" 100 0 0 0 100 None "local") 2 100;
                  mkItem 2 "u" (mkFood 2 "beans" 50 0 0 0 100 None "local") 1 50] in
  (exists md,
    createMealFromBasket (Some "u"%string) (Some "lunch"%string) db
      = (RSuccess 200 md, clearBasket "u" db) /\
    md_calories md = js_round (spec_total f_calories (getBasket "u" db))) /\
  createMealFromBasket (Some "u"%string) (Some ""%string) db
    = (RError 400 "VALIDATION_ERROR" "mealType is required", db).
Proof.
  cbv zeta. split.
  - destruct (proj2 (createMealFromBasket_rounded_totals "u" (Some "lunch"%string)
              (mkDB [mkItem 1 "u" (mkFood 1 "rice" 100 0 0 0 100 None "local") 2 100;
                     mkItem 2 "u" (mkFood 2 "beans" 50 0 0 0 100 None "local") 1 50]))
              "lunch"%string eq_refl ltac:(discriminate)) as [_ H].
    destruct (H ltac:(vm_compute; discriminate)) as [md [H1 [H2 _]]].
    exists md; split; assumption.
  - apply (proj1 (createMealFromBasket_rounded_totals "u" (Some ""%string)
             (mkDB [mkItem 1 "u" (mkFood 1 "rice" 100 0 0 0 100 None "local") 2 100;
                    mkItem 2 "u" (mkFood 2 "beans" 50 0 0 0 100 None "local") 1 50]))).
    right; reflexivity.
Defined.

(** The spec's example: 100 kcal per 100 g taken twice at 100 g, and
    50 kcal per 100 g taken once at 50 g, give 225 kcal. *)
Example basket_two_items_225 :
  let f1 := mkFood 1 "rice" 100 0 0 0 100 None "local" in
  let f2 := mkFood 2 "beans" 50 0 0 0 100 None "local" in
  let db := mkDB [mkItem 1 "u" f1 2 100; mkItem 2 "u" f2 1 50] in
  exists md,
    createMealFromBasket (Some "u"%string) (Some "lunch"%string) db
      = (RSuccess 200 md, clearBasket "u" db) /\ md_calories md = 225.
Proof. cbv zeta; eexists; split; reflexivity. Qed.

(** A missing basket item makes [updateBasketItem] answer 500 with
    Prisma's "record not found" message. *)
Lemma updateBasketItem_missing_500 userId id q ss db :
  find (fun x => Nat.eqb (b_id x) id) (basket db) = None ->
  updateBasketItem (Some userId) id (Some q) ss db
    = (RError 500 "" msg_record_not_found, db).
Proof.
  intros H; unfold updateBasketItem, service_updateBasketItem, bind, get.
  rewrite H; reflexivity.
Qed.

(** The sibling [removeFromBasket] answers 404 on a missing or foreign
    item and leaves the store unchanged. *)
Lemma removeFromBasket_foreign_404 userId id db :
  (forall b, find (fun x => Nat.eqb (b_id x) id) (basket db) = Some b ->
             b_userId b <> userId) ->
  removeFromBasket (Some userId) id db
    = (RError 404 "NOT_FOUND" "Basket item not found or access denied", db).
Proof.
  intros H; unfold removeFromBasket, service_removeFromBasket, bind, get.
  destruct (find _ (basket db)) as [b|] eqn:Hf; [|reflexivity].
  destruct (String.eqb (b_userId b) userId) eqn:E; [|reflexivity].
  apply String.eqb_eq in E; exfalso; exact (H b eq_refl E).
Qed.

(** C8: [updateBasketItem] on an item that exists but belongs to another
    user succeeds with status 200 and rewrites the item's quantity: the
    ownership check the spec requires (404 on a foreign item) is absent. *)
Theorem updateBasketItem_foreign_item_updated userId id q ss db b :
  find (fun x => Nat.eqb (b_id x) id) (basket db) = Some b ->
  b_userId b <> userId ->
  exists item db',
    updateBasketItem (Some userId) id (Some q) ss db = (RSuccess 200 item, db') /\
    b_id item = id /\ b_userId item = b_userId b /\ b_quantity item = q /\
    In item (basket db').
Proof.
  intros Hf _.
  destruct (find_some _ _ Hf) as [Hin Hp].
  unfold updateBasketItem, service_updateBasketItem, bind, get, put, ret.
  rewrite Hf. do 2 eexists; split; [reflexivity|].
  cbn [b_id b_userId b_quantity basket].
  split; [apply Nat.eqb_eq; exact Hp|]. split; [reflexivity|]. split; [reflexivity|].
  unfold update_where; apply in_map_iff; exists b; split; [rewrite Hp; reflexivity | exact Hin].
Qed.

Lemma updateBasketItem_foreign_item_updated_witness :
  let food := mkFood 1 "tea" 1 0 0 0 3 None "local" in
  let db := mkDB [mkItem 1 "u" food 1 1] in
  exists item db',
    updateBasketItem (Some "alice"%string) 1 (Some 5%Q) None db = (RSuccess 200 item, db') /\
    b_id item = 1%nat /\ b_userId item = "u"%string /\ b_quantity item = 5%Q /\
    In item (basket db').
Proof.
  cbv zeta.
  apply (updateBasketItem_foreign_item_updated "alice" 1 5 None
           (mkDB [mkItem 1 "u" (mkFood 1 "tea" 1 0 0 0 3 None "local") 1 1])
           (mkItem 1 "u" (mkFood 1 "tea" 1 0 0 0 3 None "local") 1 1));
    [reflexivity | discriminate].
Defined.

End BasketProofs.

(** ** C6: the unique-violation fallback of [saveDailyHealthData] *)

Section DuplicateRows.
Import Daily.

Lemma filter_update_where_length {A} (p q : A -> bool) (f : A -> A) (l : list A) :
  (forall x, p (f x) = p x) ->
  length (filter p (update_where q f l)) = length (filter p l).
Proof.
  intros H; induction l as [|a l IH]; [reflexivity|]; simpl.
  destruct (q a); [rewrite H|]; destruct (p a); simpl; congruence.
Qed.

Lemma update_row_keys userId date id data db :
  length (filter (key_matches userId date) (rows (update_row id data db)))
  = length (filter (key_matches userId date) (rows db)).
Proof. apply filter_update_where_length; intros; reflexivity. Qed.

Lemma filter_nonempty_find {A} (p : A -> bool) (l : list A) :
  (1 <= length (filter p l))%nat -> exists x, find p l = Some x.
Proof.
  intros H; destruct (find p l) as [x|] eqn:E; [eauto|].
  destruct (filter p l) as [|y ys] eqn:F; [simpl in H; lia|].
  assert (Hy : In y (filter p l)) by (rewrite F; left; reflexivity).
  apply filter_In in Hy as [Hin Hp].
  rewrite (find_none _ _ E y Hin) in Hp; discriminate.
Qed.

(** C6: on a unique violation with two or more rows for [(userId, date)],
    the fallback finds one of them with [findUnique], updates it and
    returns it; no row is deleted, so every duplicate survives. *)
Theorem upsert_conflict_keeps_duplicates userId date data e db :
  is_unique_violation e = true ->
  (2 <= length (filter (key_matches userId date) (rows db)))%nat ->
  exists r db',
    on_upsert_error userId date data e db = inr (r, db') /\
    findUnique userId date db <> None /\
    length (filter (key_matches userId date) (rows db'))
      = length (filter (key_matches userId date) (rows db)).
Proof.
  intros He Hlen.
  destruct (filter_nonempty_find (key_matches userId date) (rows db) ltac:(lia))
    as [existing Hfu].
  destruct (find_some _ _ Hfu) as [Hin _].
  unfold on_upsert_error; rewrite He.
  unfold bind, get, put, ret, findUnique; rewrite Hfu.
  set (db' := update_row (r_id existing) data db).
  destruct (find (fun r => Nat.eqb (r_id r) (r_id existing)) (rows db')) as [r|] eqn:Hr.
  - exists r, db'; split; [reflexivity|]. split; [discriminate|].
    apply update_row_keys.
  - exfalso.
    assert (Hin' : In (mkRow (r_id existing) (r_userId existing) (r_date existing)
                             (r_createdAt existing) (apply_update (r_data existing) data))
                      (rows db')).
    { unfold db', update_row, update_where; simpl.
      apply in_map_iff; exists existing; rewrite Nat.eqb_refl; split; [reflexivity | exact Hin]. }
    pose proof (find_none _ _ Hr _ Hin') as Hc; simpl in Hc.
    rewrite Nat.eqb_refl in Hc; discriminate.
Qed.

Lemma upsert_conflict_keeps_duplicates_witness :
  let pay := mkPayload 0 0 Undef Undef Undef Undef 0 0 in
  let dat := mkData 0 0 None None None None 0 0 in
  let db := mkDB [mkRow 0 "u" "2024-01-01" 5 dat; mkRow 1 "u" "2024-01-01" 1 dat] 2 in
  exists r db',
    on_upsert_error "u" "2024-01-01" pay (mkPrismaError "P2002" "Unique constraint failed") db
      = inr (r, db') /\
    findUnique "u" "2024-01-01" db <> None /\
    length (filter (key_matches "u" "2024-01-01") (rows db'))
      = length (filter (key_matches "u" "2024-01-01") (rows db)).
Proof.
  cbv zeta.
  apply upsert_conflict_keeps_duplicates; vm_compute; [reflexivity | repeat constructor].
Defined.

(** On the same two rows the fallback writes to row 0 (created at 5), not
    to the oldest row 1 (created at 1), and both rows remain. *)
Example upsert_conflict_writes_first_row :
  let dat := mkData 0 0 None None None None 0 0 in
  let pay' := mkPayload 500 0 Undef Undef Undef Undef 0 0 in
  let dat' := mkData 500 0 None None None None 0 0 in
  let db := mkDB [mkRow 0 "u" "2024-01-01" 5 dat; mkRow 1 "u" "2024-01-01" 1 dat] 2 in
  on_upsert_error "u" "2024-01-01" pay' (mkPrismaError "P2002" "Unique constraint failed") db
  = inr (mkRow 0 "u" "2024-01-01" 5 dat',
         mkDB [mkRow 0 "u" "2024-01-01" 5 dat'; mkRow 1 "u" "2024-01-01" 1 dat] 2).
Proof. vm_compute; reflexivity. Qed.

End DuplicateRows.

(** ** C7 and C10: catalog search *)

Section CatalogSearch.
Import Catalog.

Lemma fold_left_log {B} (F : DB -> B -> DB) (l : list B) (d : DB) :
  (forall d x, log (F d x) = log d) -> log (fold_left F l d) = log d.
Proof.
  intros H; revert d; induction l as [|x l IH]; intros d; [reflexivity|].
  simpl; rewrite IH; apply H.
Qed.

Lemma bulkImport_log news db :
  log (bulkImportFoodItems news db) = log db ++ [Import (length news)].
Proof.
  unfold bulkImportFoodItems. rewrite fold_left_log; [reflexivity|].
  intros d x; simpl. destruct (find _ _); reflexivity.
Qed.

Lemma log_record e db : log (record e db) = log db ++ [e].
Proof. reflexivity. Qed.

Lemma catalog_record e db : catalog (record e db) = catalog db.
Proof. reflexivity. Qed.

(** C7: an authenticated search first records the local query; the only
    external fetch it can make follows a local search that succeeded
    with no items for a present search text whose trimmed form is not
    empty; and when the fetch fails the reply is the local result with
    status 200. *)
Theorem searchFoodItems_local_first u search category page limit scrape db :
  let p := mkParams search category page limit in
  let out := searchFoodItems (Some u) search category page limit scrape db in
  (exists rest,
     log (snd out) = log db ++ LocalSearch :: rest /\
     forall q l, In (ExternalFetch q l) rest ->
       exists res, service_search p (catalog db) = inr res /\ items res = [] /\
                   search = Some q /\ trim q <> ""%string) /\
  (forall res, service_search p (catalog db) = inr res ->
     (forall s l, search = Some s -> scrape s l = None) ->
     fst out = RSuccess 200 res).
Proof.
  cbv zeta. unfold searchFoodItems. rewrite catalog_record.
  destruct (service_search (mkParams search category page limit) (catalog db))
    as [msg|result] eqn:Hs.
  - split; [exists []; split; [reflexivity | intros q l []] | intros res H; discriminate].
  - destruct (items result) as [|x xs] eqn:Hi; [destruct search as [s|]|].
    + destruct (String.eqb (trim s) "") eqn:Ht.
      * split; [exists []; split; [reflexivity | intros q l []]|].
        intros res H _; injection H as <-; reflexivity.
      * assert (Hfetch : forall q l lim,
                  In (ExternalFetch q l) [ExternalFetch s lim] ->
                  exists res, @inr string SearchResult result = inr res /\ items res = [] /\
                              Some s = Some q /\ trim q <> ""%string).
        { intros q l lim [H|[]]; injection H as <- <-.
          exists result; split; [reflexivity|]. split; [exact Hi|]. split; [reflexivity|].
          intros E; rewrite E in Ht; discriminate. }
        set (lim := match limit with Some l => l | None => 20 end).
        destruct (scrape s lim) as [[|y ys]|] eqn:Hsc.
        -- split; [exists [ExternalFetch s lim]; split; [simpl; rewrite <- app_assoc; reflexivity | intros q l; apply (Hfetch q l lim)]|].
           intros res _ H; rewrite (H s lim eq_refl) in Hsc; discriminate.
        -- split.
           ++ exists [ExternalFetch s lim; Import (length (y :: ys)); LocalSearch].
              split.
              ** destruct (service_search _ (catalog (record LocalSearch _))); cbn [snd];
                   rewrite log_record, bulkImport_log, !log_record, <- !app_assoc; reflexivity.
              ** intros q l [H|[H|[H|[]]]]; [apply (Hfetch q l lim); left; exact H | discriminate | discriminate].
           ++ intros res _ H; rewrite (H s lim eq_refl) in Hsc; discriminate.
        -- split; [exists [ExternalFetch s lim]; split; [simpl; rewrite <- app_assoc; reflexivity | intros q l; apply (Hfetch q l lim)]|].
           intros res H _; injection H as <-; reflexivity.
    + split; [exists []; split; [reflexivity | intros q l []]|].
      intros res H _; injection H as <-; reflexivity.
    + split; [exists []; split; [reflexivity | intros q l []]|].
      intros res H _; injection H as <-; destruct search; reflexivity.
Qed.

(** C10 (counterexample): [limit=0] (or [NaN]) is falsy, so the page size
    is the default 20 rather than [min(0, 100)]. *)
Lemma search_limit_zero_defaults_to_20 :
  exists res,
    service_search (mkParams None None None (Some 0)) [] = inr res /\
    limit res = 20 /\ limit res <> Z.min 0 100.
Proof. eexists; split; [reflexivity | split; [reflexivity | discriminate]]. Qed.

Lemma ceil_div_bounds a b :
  0 < b -> (ceil_div a b - 1) * b < a <= ceil_div a b * b.
Proof.
  intros Hb; unfold ceil_div.
  pose proof (Z.div_mod (- a) b ltac:(lia)) as Hd.
  pose proof (Z.mod_pos_bound (- a) b Hb) as Hm.
  nia.
Qed.

Lemma findMany_length rows skip take its :
  0 <= take -> findMany rows skip take = inr its ->
  (Z.of_nat (length its) <= take).
Proof.
  intros Ht; unfold findMany.
  destruct (Z.ltb skip 0); [discriminate|].
  destruct (Z.leb_spec 0 take); [|lia].
  intros Heq; injection Heq as <-.
  pose proof (firstn_le_length (Z.to_nat take) (skipn (Z.to_nat skip) rows)). lia.
Qed.

(** C10: a successful search reports as page size [min(L, 100)], where
    [L] is the requested limit, or 20 when it is absent or 0, and as page
    the requested one, or 1 when absent or 0; [total] counts the matching
    items; and when the page size is positive at most that many items
    come back and [totalPages] is the ceiling of [total / limit]. *)
Theorem service_search_paging p cat res :
  service_search p cat = inr res ->
  limit res = Z.min (match q_limit p with
                     | Some z => if Z.eqb z 0 then 20 else z
                     | None => 20 end) 100 /\
  page res = match q_page p with Some z => if Z.eqb z 0 then 1 else z | None => 1 end /\
  total res = Z.of_nat (length (filter (matches p) cat)) /\
  (0 < limit res ->
   Z.of_nat (length (items res)) <= limit res /\
   (totalPages res - 1) * limit res < total res <= totalPages res * limit res).
Proof.
  unfold service_search.
  set (pg := match q_page p with Some z => if Z.eqb z 0 then 1 else z | None => 1 end).
  set (lim := Z.min _ 100).
  set (rows := sort_by _ _).
  destruct (findMany rows ((pg - 1) * lim) lim) as [e|its] eqn:Hf; [discriminate|].
  intros H; injection H as <-; cbn [limit page total items totalPages].
  split; [reflexivity|]. split; [reflexivity|].
  split; [unfold rows; rewrite sort_by_length; reflexivity|].
  intros Hl; split; [apply (findMany_length rows ((pg - 1) * lim)); [lia | exact Hf]|].
  apply ceil_div_bounds; exact Hl.
Qed.

Lemma service_search_paging_witness :
  let cat := [mkFood 1 "apple" 52 14 0 0 100 None "local";
              mkFood 2 "banana" 89 23 1 0 100 None "local";
              mkFood 3 "cherry" 50 12 1 0 100 None "local"] in
  let res := mkResult [mkFood 2 "banana" 89 23 1 0 100 None "local"] 3 2 1 3 in
  service_search (mkParams None None (Some 2) (Some 1)) cat = inr res /\
  limit res = Z.min 1 100 /\ page res = 2 /\ total res = 3 /\
  Z.of_nat (length (items res)) <= limit res /\
  (totalPages res - 1) * limit res < total res <= totalPages res * limit res.
Proof.
  cbv zeta.
  destruct (service_search_paging (mkParams None None (Some 2) (Some 1))
              [mkFood 1 "apple" 52 14 0 0 100 None "local";
               mkFood 2 "banana" 89 23 1 0 100 None "local";
               mkFood 3 "cherry" 50 12 1 0 100 None "local"]
              (mkResult [mkFood 2 "banana" 89 23 1 0 100 None "local"] 3 2 1 3)
              ltac:(vm_compute; reflexivity)) as [H1 [H2 [H3 H4]]].
  split; [vm_compute; reflexivity|].
  split; [exact H1|]. split; [exact H2|]. split; [exact H3|].
  apply H4; reflexivity.
Defined.

End CatalogSearch.

(** ** C9: toggling a like *)

Section Likes.
Import Feed.

Lemma getAccessible_bump postId userId db q d ls :
  getAccessiblePost postId userId (mkDB (bump_likes q d (posts db)) ls (friends db)) <> None <->
  getAccessiblePost postId userId db <> None.
Proof.
  unfold getAccessiblePost, bump_likes, update_where, getFriendUids; cbn [posts friends].
  rewrite find_map; [destruct (find _ (posts db)); simpl; split; congruence|].
  intros x; destruct (Nat.eqb (p_id x) q); reflexivity.
Qed.

Lemma likesCount_bump postId d db ls fr :
  likesCount postId (mkDB (bump_likes postId d (posts db)) ls fr)
  = option_map (fun c => c + d) (likesCount postId db).
Proof.
  unfold likesCount, bump_likes, update_where; cbn [posts].
  rewrite find_map; [|intros x; destruct (Nat.eqb (p_id x) postId) eqn:E; simpl; rewrite ?E; reflexivity].
  destruct (find _ (posts db)) as [p|] eqn:Hf; [|reflexivity].
  destruct (find_some _ _ Hf) as [_ Hp]; cbn beta in Hp.
  simpl; rewrite Hp; reflexivity.
Qed.

Lemma existsb_filter_out {A} (p : A -> bool) (l : list A) :
  existsb p (filter (fun x => negb (p x)) l) = false.
Proof.
  induction l as [|x l IH]; [reflexivity|]; simpl.
  destruct (p x) eqn:E; simpl; [exact IH|]. rewrite E; exact IH.
Qed.

Lemma existsb_snoc {A} (p : A -> bool) (l : list A) (x : A) :
  p x = true -> existsb p (l ++ [x]) = true.
Proof. intros H; rewrite existsb_app; simpl; rewrite H, orb_true_r; reflexivity. Qed.

Lemma like_eqb_refl k : like_eqb k k = true.
Proof. destruct k; unfold like_eqb; simpl; rewrite Nat.eqb_refl, String.eqb_refl; reflexivity. Qed.

Lemma toggle_n_inv n postId userId db c0 (b : bool) :
  getAccessiblePost postId userId db <> None ->
  existsb (like_eqb (postId, userId)) (likes db) = b ->
  likesCount postId db = Some c0 ->
  exists db',
    toggle_n n postId userId db = Some (map (fun i => xorb b (Nat.even i)) (seq 0 n), db') /\
    getAccessiblePost postId userId db' <> None /\
    existsb (like_eqb (postId, userId)) (likes db') = xorb b (negb (Nat.even n)) /\
    likesCount postId db' = Some (c0 + if Nat.even n then 0 else if b then -1 else 1).
Proof.
  intros Ha Hl Hc; induction n as [|k IH].
  - exists db; simpl; rewrite Z.add_0_r, xorb_false_r; auto.
  - destruct IH as [db' [Ht [Ha' [Hl' Hc']]]].
    simpl toggle_n; rewrite Ht.
    unfold toggleLike, bind, get, put, ret.
    destruct (getAccessiblePost postId userId db') eqn:Hg; [|contradiction].
    rewrite Hl', seq_S, map_app.
    change (map (fun i => xorb b (Nat.even i)) [(0 + k)%nat]) with [xorb b (Nat.even k)].
    rewrite Nat.even_succ, <- Nat.negb_even.
    destruct b, (Nat.even k); simpl xorb; simpl negb.
    + eexists; split; [reflexivity|].
      split; [apply getAccessible_bump; rewrite Hg; discriminate|].
      split; [apply existsb_filter_out|].
      rewrite likesCount_bump, Hc'; simpl; f_equal; lia.
    + eexists; split; [reflexivity|].
      split; [apply getAccessible_bump; rewrite Hg; discriminate|].
      split; [apply existsb_snoc, like_eqb_refl|].
      rewrite likesCount_bump, Hc'; simpl; f_equal; lia.
    + eexists; split; [reflexivity|].
      split; [apply getAccessible_bump; rewrite Hg; discriminate|].
      split; [apply existsb_snoc, like_eqb_refl|].
      rewrite likesCount_bump, Hc'; simpl; f_equal; lia.
    + eexists; split; [reflexivity|].
      split; [apply getAccessible_bump; rewrite Hg; discriminate|].
      split; [apply existsb_filter_out|].
      rewrite likesCount_bump, Hc'; simpl; f_equal; lia.
Qed.

Lemma count_alternation n (b : bool) :
  Z.of_nat (count_occ Bool.bool_dec (map (fun i => xorb b (Nat.even i)) (seq 0 n)) true)
  - Z.of_nat (count_occ Bool.bool_dec (map (fun i => xorb b (Nat.even i)) (seq 0 n)) false)
  = if Nat.even n then 0 else if b then -1 else 1.
Proof.
  induction n as [|k IH]; [reflexivity|].
  rewrite seq_S, map_app, !count_occ_app.
  change (map (fun i => xorb b (Nat.even i)) [(0 + k)%nat]) with [xorb b (Nat.even k)].
  rewrite Nat.even_succ, <- Nat.negb_even.
  destruct b, (Nat.even k); simpl in *; lia.
Qed.

(** C9 (counterexample): a public post already liked once by bob; alice's
    first toggle returns [true] and the counter becomes 2, not the
    number of alice's [true] results minus her [false] results (1). *)
Lemma toggle_count_includes_other_likes :
  let db := mkDB [mkPost 0 "carol" "public" 1] [(0%nat, "bob"%string)] [] in
  exists db',
    toggle_n 1 0 "alice" db = Some ([true], db') /\ likesCount 0 db' = Some 2.
Proof. eexists; split; reflexivity. Qed.

(** C9: for a user and a post accessible to them, [n] successive
    [toggleLike] calls all succeed. When the user has not liked the post
    yet ([b = false]) they return [true, false, true, ...]; when the user
    has already liked it ([b = true]) they return [false, true, false,
    ...]. After them the post's [likesCount] is its initial value (which
    counts the other users' likes) plus the number of [true] results minus
    the number of [false] results. So it is never negative when it started
    non-negative, or, when the user's own like was already there, when it
    started at least at 1, that is when it counted that like. *)
Theorem toggleLike_alternates n postId userId db c0 (b : bool) :
  getAccessiblePost postId userId db <> None ->
  existsb (like_eqb (postId, userId)) (likes db) = b ->
  likesCount postId db = Some c0 ->
  exists rs db',
    toggle_n n postId userId db = Some (rs, db') /\
    rs = map (fun i => if b then negb (Nat.even i) else Nat.even i) (seq 0 n) /\
    likesCount postId db'
      = Some (c0 + (Z.of_nat (count_occ Bool.bool_dec rs true)
                    - Z.of_nat (count_occ Bool.bool_dec rs false))) /\
    ((if b then 1 else 0) <= c0 ->
     0 <= c0 + (Z.of_nat (count_occ Bool.bool_dec rs true)
                - Z.of_nat (count_occ Bool.bool_dec rs false))).
Proof.
  intros Ha Hl Hc.
  destruct (toggle_n_inv n postId userId db c0 b Ha Hl Hc) as [db' [Ht [_ [_ Hc']]]].
  exists (map (fun i => xorb b (Nat.even i)) (seq 0 n)), db'.
  rewrite count_alternation.
  split; [exact Ht|].
  split; [apply map_ext; intros i; destruct b; reflexivity|].
  split; [exact Hc'|].
  destruct (Nat.even n), b; lia.
Qed.

Lemma toggleLike_alternates_witness :
  (exists rs db',
    toggle_n 3 0 "alice" (mkDB [mkPost 0 "carol" "public" 0] [] []) = Some (rs, db') /\
    rs = [true; false; true] /\ likesCount 0 db' = Some 1) /\
  (exists rs db',
    toggle_n 3 0 "alice" (mkDB [mkPost 0 "carol" "public" 2] [(0%nat, "alice"%string); (0%nat, "bob"%string)] [])
      = Some (rs, db') /\
    rs = [false; true; false] /\ likesCount 0 db' = Some 1).
Proof.
  split.
  - destruct (toggleLike_alternates 3 0 "alice" (mkDB [mkPost 0 "carol" "public" 0] [] []) 0 false
                ltac:(discriminate) eq_refl eq_refl) as [rs [db' [H1 [H2 [H3 _]]]]].
    exists rs, db'. split; [exact H1|]. split; [exact H2|].
    rewrite H3, H2; reflexivity.
  - destruct (toggleLike_alternates 3 0 "alice"
                (mkDB [mkPost 0 "carol" "public" 2] [(0%nat, "alice"%string); (0%nat, "bob"%string)] [])
                2 true ltac:(discriminate) eq_refl eq_refl) as [rs [db' [H1 [H2 [H3 _]]]]].
    exists rs, db'. split; [exact H1|]. split; [exact H2|].
    rewrite H3, H2; reflexivity.
Defined.

End Likes.

(** * Further properties of the services *)

(** ** Generic list facts *)

Lemma fold_add_acc (a : Z) (l : list Z) :
  fold_right Z.add a l = fold_right Z.add 0 l + a.
Proof. induction l as [|x l IH]; simpl; lia. Qed.

Lemma fold_add_nonneg (l : list Z) :
  (forall x, In x l -> 0 <= x) -> 0 <= fold_right Z.add 0 l.
Proof.
  induction l as [|x l IH]; intros H; simpl; [lia|].
  pose proof (H x (or_introl eq_refl)). pose proof (IH (fun y Hy => H y (or_intror Hy))). lia.
Qed.

Lemma NoDup_map_inj {A B} (f : A -> B) (l : list A) (x y : A) :
  NoDup (map f l) -> In x l -> In y l -> f x = f y -> x = y.
Proof.
  induction l as [|a l IH]; intros Hn Hx Hy Hf; [destruct Hx|].
  simpl in Hn; inversion Hn as [|? ? Hnin Hn']; subst.
  destruct Hx as [<-|Hx], Hy as [<-|Hy]; auto.
  - exfalso; apply Hnin; rewrite Hf; apply in_map; exact Hy.
  - exfalso; apply Hnin; rewrite <- Hf; apply in_map; exact Hx.
Qed.

Lemma NoDup_snoc {A} (l : list A) (x : A) :
  NoDup l -> ~ In x l -> NoDup (l ++ [x]).
Proof.
  induction l as [|a l IH]; intros Hn Hx; simpl; [constructor; [intros []|constructor]|].
  inversion Hn as [|? ? Hnin Hn']; subst. constructor.
  - rewrite in_app_iff; intros [H|[H|[]]]; [contradiction|]. apply Hx; left; symmetry; exact H.
  - apply IH; [exact Hn'|]. intros H; apply Hx; right; exact H.
Qed.

Lemma NoDup_map_filter {A B} (key_of : A -> B) (keep : A -> bool) (rs : list A) :
  NoDup (map key_of rs) -> NoDup (map key_of (filter keep rs)).
Proof.
  intros Hn; induction rs as [|r rs IH]; simpl; [constructor|].
  inversion Hn as [|? ? Hnin Hn']; subst.
  destruct (keep r); simpl; [|apply IH; exact Hn'].
  constructor; [|apply IH; exact Hn'].
  intros H; apply Hnin. apply in_map_iff in H as [y [Hy Hin]].
  apply filter_In in Hin as [Hin _]. rewrite <- Hy; apply in_map; exact Hin.
Qed.

Lemma map_update_where {A B} (f : A -> B) (p : A -> bool) (g : A -> A) (l : list A) :
  (forall x, p x = true -> f (g x) = f x) -> map f (update_where p g l) = map f l.
Proof.
  intros H; induction l as [|a l IH]; simpl; [reflexivity|].
  rewrite IH. destruct (p a) eqn:E; [rewrite (H a E)|]; reflexivity.
Qed.

Lemma In_update_where {A} (p : A -> bool) (g : A -> A) (l : list A) (y : A) :
  In y (update_where p g l) -> exists x, In x l /\ y = if p x then g x else x.
Proof. unfold update_where; intros H; apply in_map_iff in H as [x [Hx Hin]]; eauto. Qed.

Lemma filter_all {A} (p : A -> bool) (l : list A) :
  (forall x, In x l -> p x = true) -> filter p l = l.
Proof.
  induction l as [|a l IH]; intros H; simpl; [reflexivity|].
  rewrite (H a (or_introl eq_refl)), IH; [reflexivity|]. intros x Hx; apply H; right; exact Hx.
Qed.

(** ** The meal ledger *)

Section MealLedger.
Import Meals MealOps.

Lemma meal_sum_irrel id ds ds' ms n n' :
  meal_sum id (mkDB ds ms n) = meal_sum id (mkDB ds' ms n').
Proof. reflexivity. Qed.

Lemma meal_sum_snoc id ds ms n m :
  meal_sum id (mkDB ds (ms ++ [m]) n)
  = meal_sum id (mkDB ds ms n)
    + (if Nat.eqb (m_dailyHealthDataId m) id then m_calories m else 0).
Proof.
  unfold meal_sum; cbn [meals]. rewrite filter_app, map_app, fold_right_app.
  simpl. destruct (Nat.eqb (m_dailyHealthDataId m) id); simpl;
    rewrite fold_add_acc; lia.
Qed.

Lemma meal_sum_fresh id db :
  (forall m, In m (meals db) -> m_dailyHealthDataId m <> id) -> meal_sum id db = 0.
Proof.
  intros H; unfold meal_sum.
  induction (meals db) as [|m ms IH]; [reflexivity|]; simpl.
  destruct (Nat.eqb_spec (m_dailyHealthDataId m) id) as [E|E];
    [exfalso; exact (H m (or_introl eq_refl) E)|].
  apply IH; intros m' Hm'; apply H; right; exact Hm'.
Qed.

Lemma meal_sum_nonneg id db :
  (forall m, In m (meals db) -> 0 <= m_calories m) -> 0 <= meal_sum id db.
Proof.
  intros H; unfold meal_sum; apply fold_add_nonneg.
  intros x Hx; apply in_map_iff in Hx as [m [<- Hm]].
  apply filter_In in Hm as [Hm _]; apply H; exact Hm.
Qed.

Lemma meal_sum_remove id ds ms n m :
  NoDup (map m_id ms) -> In m ms ->
  meal_sum id (mkDB ds (filter (fun x => negb (Nat.eqb (m_id x) (m_id m))) ms) n)
  = meal_sum id (mkDB ds ms n)
    - (if Nat.eqb (m_dailyHealthDataId m) id then m_calories m else 0).
Proof.
  unfold meal_sum; cbn [meals].
  induction ms as [|a ms IH]; intros Hn Hin; [destruct Hin|].
  simpl in Hn; inversion Hn as [|? ? Hnin Hn']; subst.
  destruct Hin as [<-|Hin].
  - simpl. rewrite Nat.eqb_refl; simpl.
    rewrite (filter_all (fun x => negb (Nat.eqb (m_id x) (m_id a))) ms).
    + destruct (Nat.eqb (m_dailyHealthDataId a) id); simpl; lia.
    + intros x Hx. destruct (Nat.eqb_spec (m_id x) (m_id a)) as [E|E]; [|reflexivity].
      exfalso; apply Hnin; rewrite <- E; apply in_map; exact Hx.
  - assert (Hne : m_id a <> m_id m)
      by (intros E; apply Hnin; rewrite E; apply in_map; exact Hin).
    simpl. apply Nat.eqb_neq in Hne; rewrite Hne; simpl.
    destruct (Nat.eqb (m_dailyHealthDataId a) id); simpl; rewrite (IH Hn' Hin); lia.
Qed.

Lemma meal_sum_replace id ds ms n m new :
  NoDup (map m_id ms) -> In m ms -> m_dailyHealthDataId new = m_dailyHealthDataId m ->
  meal_sum id (mkDB ds (update_where (fun x => Nat.eqb (m_id x) (m_id m)) (fun _ => new) ms) n)
  = meal_sum id (mkDB ds ms n)
    - (if Nat.eqb (m_dailyHealthDataId m) id then m_calories m else 0)
    + (if Nat.eqb (m_dailyHealthDataId m) id then m_calories new else 0).
Proof.
  intros Hn Hin Hd; unfold meal_sum; cbn [meals].
  induction ms as [|a ms IH]; [destruct Hin|].
  simpl in Hn; inversion Hn as [|? ? Hnin Hn']; subst.
  destruct Hin as [<-|Hin].
  - simpl. rewrite Nat.eqb_refl.
    assert (Hrest : update_where (fun x => Nat.eqb (m_id x) (m_id a)) (fun _ => new) ms = ms).
    { unfold update_where. rewrite <- (map_id ms) at 2. apply map_ext_in.
      intros x Hx. destruct (Nat.eqb_spec (m_id x) (m_id a)) as [E|E]; [|reflexivity].
      exfalso; apply Hnin; rewrite <- E; apply in_map; exact Hx. }
    rewrite Hrest, Hd.
    destruct (Nat.eqb (m_dailyHealthDataId a) id); simpl; lia.
  - assert (Hne : m_id a <> m_id m)
      by (intros E; apply Hnin; rewrite E; apply in_map; exact Hin).
    simpl. apply Nat.eqb_neq in Hne; rewrite Hne.
    specialize (IH Hn' Hin).
    destruct (Nat.eqb (m_dailyHealthDataId a) id); simpl; rewrite IH; lia.
Qed.

Lemma wf_empty : wf empty_db.
Proof.
  unfold wf, empty_db; simpl.
  split; [intros d []|]. split; [intros m []|].
  split; [constructor|]. split; [constructor|]. intros d [].
Qed.

Lemma wf_new_daily ds ms n u dt :
  wf (mkDB ds ms n) -> wf (mkDB (ds ++ [mkDaily n u dt 0]) ms (S n)).
Proof.
  intros [H1 [H2 [H3 [H4 H5]]]]; unfold wf; cbn [dailyHealthData meals next_id] in *.
  split; [intros d Hd; apply in_app_iff in Hd as [Hd|[<-|[]]]; [specialize (H1 d Hd); lia | simpl; lia]|].
  split; [intros m Hm; specialize (H2 m Hm); lia|].
  split; [rewrite map_app; apply NoDup_snoc; [exact H3|];
          intros Hin; apply in_map_iff in Hin as [d [Hd Hin]]; specialize (H1 d Hin); simpl in Hd; lia|].
  split; [exact H4|].
  intros d Hd; apply in_app_iff in Hd as [Hd|[<-|[]]].
  - rewrite (H5 d Hd); reflexivity.
  - simpl. symmetry; apply meal_sum_fresh. cbn [meals].
    intros m Hm; specialize (H2 m Hm); lia.
Qed.

Lemma wf_add_meal ds ms n D c :
  wf (mkDB ds ms n) -> In D (map d_id ds) -> 0 <= c ->
  wf (mkDB (update_where (fun d => Nat.eqb (d_id d) D)
                         (fun d => set_cc (d_caloriesConsumed d + c) d) ds)
           (ms ++ [mkMeal n D c]) (S n)).
Proof.
  intros [H1 [H2 [H3 [H4 H5]]]] HD Hc; unfold wf; cbn [dailyHealthData meals next_id] in *.
  assert (HDn : (D < n)%nat)
    by (apply in_map_iff in HD as [d [<- Hd]]; exact (H1 d Hd)).
  split.
  { intros d' Hd'. apply In_update_where in Hd' as [d0 [Hd0 ->]].
    specialize (H1 d0 Hd0). destruct (Nat.eqb (d_id d0) D); simpl; lia. }
  split.
  { intros m Hm; apply in_app_iff in Hm as [Hm|[<-|[]]];
      [specialize (H2 m Hm); lia | simpl; lia]. }
  split; [rewrite map_update_where; [exact H3 | intros; reflexivity]|].
  split.
  { rewrite map_app; apply NoDup_snoc; [exact H4|]. simpl.
    intros Hin; apply in_map_iff in Hin as [m [Hm Hin]]; specialize (H2 m Hin); lia. }
  intros d' Hd'. apply In_update_where in Hd' as [d0 [Hd0 ->]].
  pose proof (H5 d0 Hd0) as Hs.
  destruct (Nat.eqb (d_id d0) D) eqn:E; cbn [d_id d_caloriesConsumed set_cc];
    rewrite meal_sum_snoc; cbn [m_dailyHealthDataId m_calories];
    rewrite Nat.eqb_sym, E; rewrite Hs; unfold meal_sum; cbn [meals]; lia.
Qed.

Lemma wf_change ds ms ms' n D :
  wf (mkDB ds ms n) ->
  (forall m, In m ms' ->
     (m_id m < n)%nat /\ (m_dailyHealthDataId m < n)%nat /\ 0 <= m_calories m) ->
  NoDup (map m_id ms') ->
  (forall id, id <> D -> meal_sum id (mkDB ds ms' n) = meal_sum id (mkDB ds ms n)) ->
  (forall v, (forall d, In d ds -> d_id d = D -> v = meal_sum D (mkDB ds ms' n)) ->
     wf (mkDB (update_where (fun d => Nat.eqb (d_id d) D) (fun d => set_cc v d) ds) ms' n)) /\
  ((forall d, In d ds -> d_id d = D ->
      meal_sum D (mkDB ds ms' n) = meal_sum D (mkDB ds ms n)) -> wf (mkDB ds ms' n)).
Proof.
  intros [H1 [H2 [H3 [H4 H5]]]] Hb Hn Hother; cbn [dailyHealthData meals next_id] in *.
  split.
  - intros v Hv. unfold wf; cbn [dailyHealthData meals next_id].
    split.
    { intros d' Hd'. apply In_update_where in Hd' as [d0 [Hd0 ->]].
      specialize (H1 d0 Hd0). destruct (Nat.eqb (d_id d0) D); simpl; lia. }
    split; [exact Hb|].
    split; [rewrite map_update_where; [exact H3 | intros; reflexivity]|].
    split; [exact Hn|].
    intros d' Hd'. apply In_update_where in Hd' as [d0 [Hd0 ->]].
    destruct (Nat.eqb_spec (d_id d0) D) as [E|E]; cbn [d_id d_caloriesConsumed set_cc].
    + rewrite (Hv d0 Hd0 E), E; reflexivity.
    + rewrite (H5 d0 Hd0), <- (Hother _ E); reflexivity.
  - intros Hnone. unfold wf; cbn [dailyHealthData meals next_id].
    split; [exact H1|]. split; [exact Hb|]. split; [exact H3|]. split; [exact Hn|].
    intros d Hd. rewrite (H5 d Hd).
    destruct (Nat.eqb_spec (d_id d) D) as [E|E].
    + rewrite E, <- (Hnone d Hd E); reflexivity.
    + rewrite <- (Hother _ E); reflexivity.
Qed.

Lemma wf_addMeal db u dt c : wf db -> 0 <= c -> wf (exec (addMeal u dt c) db).
Proof.
  destruct db as [ds ms n]; intros Hwf Hc.
  unfold exec, addMeal, get_or_create, bind, get, put, ret, update_daily.
  destruct (find_daily u dt (mkDB ds ms n)) as [d|] eqn:Hf; cbn -[find_daily].
  - apply wf_add_meal; [exact Hwf | | exact Hc].
    apply find_some in Hf as [Hd _]; apply in_map; exact Hd.
  - apply wf_add_meal; [apply wf_new_daily; exact Hwf | | exact Hc].
    rewrite map_app; apply in_or_app; right; left; reflexivity.
Qed.

Lemma wf_deleteMeal db id : wf db -> wf (exec (deleteMeal id) db).
Proof.
  destruct db as [ds ms n]; intros Hwf.
  unfold exec, deleteMeal, bind, get, put, ret, update_daily.
  destruct (find_meal id (mkDB ds ms n)) as [m|] eqn:Hm; cbn -[find_meal find_daily_by_id]; [|exact Hwf].
  apply find_some in Hm as [Hin Hid]; apply Nat.eqb_eq in Hid; subst id.
  destruct Hwf as [H1 [H2 [H3 [H4 H5]]]] eqn:Hwf'; cbn [dailyHealthData meals next_id] in *.
  set (ms' := filter (fun x => negb (Nat.eqb (m_id x) (m_id m))) ms).
  assert (Hb : forall x, In x ms' ->
                 (m_id x < n)%nat /\ (m_dailyHealthDataId x < n)%nat /\ 0 <= m_calories x)
    by (intros x Hx; apply filter_In in Hx as [Hx _]; exact (H2 x Hx)).
  assert (Hrm : forall id, meal_sum id (mkDB ds ms' n)
                           = meal_sum id (mkDB ds ms n)
                             - (if Nat.eqb (m_dailyHealthDataId m) id then m_calories m else 0))
    by (intros id; apply meal_sum_remove; assumption).
  destruct (wf_change ds ms ms' n (m_dailyHealthDataId m) Hwf Hb
              (NoDup_map_filter _ _ _ H4)) as [Hupd Hnone].
  { intros id Hne. rewrite Hrm.
    assert (E : Nat.eqb (m_dailyHealthDataId m) id = false) by (apply Nat.eqb_neq; congruence).
    rewrite E; lia. }
  unfold find_daily_by_id; cbn [dailyHealthData].
  destruct (find (fun d => Nat.eqb (d_id d) (m_dailyHealthDataId m)) ds) as [dd|] eqn:Hd;
    cbn -[meal_sum].
  - apply Hupd. intros d Hdin Hdid.
    apply find_some in Hd as [Hddin Hddid]; apply Nat.eqb_eq in Hddid.
    rewrite (H5 dd Hddin), Hddid.
    pose proof (Hrm (m_dailyHealthDataId m)) as Hr; rewrite Nat.eqb_refl in Hr.
    assert (Hpos : 0 <= meal_sum (m_dailyHealthDataId m) (mkDB ds ms' n))
      by (apply meal_sum_nonneg; intros x Hx; exact (proj2 (proj2 (Hb x Hx)))).
    rewrite Hr in Hpos |- *. unfold meal_sum in *; cbn [meals] in *; lia.
  - apply Hnone. intros d Hdin Hdid. exfalso.
    pose proof (find_none _ _ Hd d Hdin) as Hf; simpl in Hf.
    rewrite Hdid, Nat.eqb_refl in Hf; discriminate.
Qed.

Lemma wf_updateMeal db id c :
  wf db -> op_ok (OpUpdate id c) = true -> wf (exec (updateMeal id c) db).
Proof.
  destruct db as [ds ms n]; intros Hwf Hok.
  unfold exec, updateMeal, bind, get, put, ret, update_daily.
  destruct (find_meal id (mkDB ds ms n)) as [m|] eqn:Hm; cbn -[find_meal find_daily_by_id]; [|exact Hwf].
  apply find_some in Hm as [Hin Hid]; apply Nat.eqb_eq in Hid; subst id.
  destruct Hwf as [H1 [H2 [H3 [H4 H5]]]] eqn:Hwf'; cbn [dailyHealthData meals next_id] in *.
  set (stored := match c with Some c => c | None => m_calories m end).
  set (newCalories := match c with
                      | Some c => if Z.eqb c 0 then m_calories m else c
                      | None => m_calories m end).
  assert (Hnew : newCalories = stored /\ 0 <= stored).
  { unfold newCalories, stored; simpl in Hok.
    destruct c as [c|]; [apply Z.ltb_lt in Hok; destruct (Z.eqb_spec c 0); lia|].
    split; [reflexivity | exact (proj2 (proj2 (H2 m Hin)))]. }
  destruct Hnew as [Hnew Hst]. rewrite Hnew.
  set (updated := mkMeal (m_id m) (m_dailyHealthDataId m) stored).
  set (ms' := update_where (fun x => Nat.eqb (m_id x) (m_id m)) (fun _ => updated) ms).
  assert (Hids : map m_id ms' = map m_id ms).
  { unfold ms'; apply map_update_where. intros x Hx; apply Nat.eqb_eq in Hx; simpl; congruence. }
  assert (Hb : forall x, In x ms' ->
                 (m_id x < n)%nat /\ (m_dailyHealthDataId x < n)%nat /\ 0 <= m_calories x).
  { intros x Hx; apply In_update_where in Hx as [y [Hy ->]].
    destruct (Nat.eqb (m_id y) (m_id m)); [|exact (H2 y Hy)].
    pose proof (H2 m Hin); simpl; lia. }
  assert (Hrp : forall id, meal_sum id (mkDB ds ms' n)
                           = meal_sum id (mkDB ds ms n)
                             - (if Nat.eqb (m_dailyHealthDataId m) id then m_calories m else 0)
                             + (if Nat.eqb (m_dailyHealthDataId m) id then stored else 0))
    by (intros id; apply (meal_sum_replace id ds ms n m updated); [exact H4 | exact Hin | reflexivity]).
  assert (Hn' : NoDup (map m_id ms')) by (rewrite Hids; exact H4).
  destruct (wf_change ds ms ms' n (m_dailyHealthDataId m) Hwf Hb Hn') as [Hupd Hnone].
  { intros id Hne. rewrite Hrp.
    assert (E : Nat.eqb (m_dailyHealthDataId m) id = false) by (apply Nat.eqb_neq; congruence).
    rewrite E; lia. }
  pose proof (Hrp (m_dailyHealthDataId m)) as Hr; rewrite Nat.eqb_refl in Hr.
  destruct (Z.eqb_spec (m_calories m) stored) as [Eq|Ne]; cbn -[meal_sum find_daily_by_id ms'].
  - apply Hnone. intros d _ _. rewrite Hr; lia.
  - unfold find_daily_by_id; cbn [dailyHealthData].
    destruct (find (fun d => Nat.eqb (d_id d) (m_dailyHealthDataId m)) ds) as [dd|] eqn:Hd;
      cbn -[meal_sum ms'].
    + apply Hupd. intros d Hdin Hdid.
      apply find_some in Hd as [Hddin Hddid]; apply Nat.eqb_eq in Hddid.
      rewrite (H5 dd Hddin), Hddid, Hr. reflexivity.
    + apply Hnone. intros d Hdin Hdid. exfalso.
      pose proof (find_none _ _ Hd d Hdin) as Hf; simpl in Hf.
      rewrite Hdid, Nat.eqb_refl in Hf; discriminate.
Qed.


Lemma wf_run_ops ops db : wf db -> forallb op_ok ops = true -> wf (run_ops ops db).
Proof.
  revert db; induction ops as [|op ops IH]; intros db Hwf Hok; [exact Hwf|].
  simpl in Hok; apply andb_true_iff in Hok as [Hop Hok].
  unfold run_ops; simpl; apply IH; [|exact Hok].
  destruct op as [u dt c|id c|id]; simpl.
  - apply wf_addMeal; [exact Hwf | apply Z.leb_le; exact Hop].
  - apply wf_updateMeal; assumption.
  - apply wf_deleteMeal; exact Hwf.
Qed.

(** X1 (addMeal, updateMeal, deleteMeal): from an empty store, along any
    sequence of calls that add non-negative calories and update a meal
    either without calories or with a positive value (a call that throws
    leaves the store as it was), every aggregate's [caloriesConsumed] stays
    equal to the sum of the calories of its meals, and non-negative. *)
Theorem meal_ledger_in_sync ops :
  forallb op_ok ops = true ->
  forall d, In d (dailyHealthData (run_ops ops empty_db)) ->
    d_caloriesConsumed d = meal_sum (d_id d) (run_ops ops empty_db) /\
    0 <= d_caloriesConsumed d.
Proof.
  intros Hok d Hd.
  destruct (wf_run_ops ops empty_db wf_empty Hok) as [_ [H2 [_ [_ H5]]]].
  rewrite (H5 d Hd). split; [reflexivity|].
  apply meal_sum_nonneg. intros m Hm; exact (proj2 (proj2 (H2 m Hm))).
Qed.

Lemma meal_ledger_in_sync_witness :
  d_caloriesConsumed (mkDaily 0 "u"%string "2024-01-01"%string 200)
  = meal_sum 0 (run_ops [OpAdd "u"%string "2024-01-01"%string 500; OpAdd "u"%string "2024-01-01"%string 300;
                         OpUpdate 2 (Some 200); OpDelete 1; OpUpdate 7 None] empty_db) /\
  0 <= d_caloriesConsumed (mkDaily 0 "u"%string "2024-01-01"%string 200).
Proof.
  apply (meal_ledger_in_sync [OpAdd "u"%string "2024-01-01"%string 500; OpAdd "u"%string "2024-01-01"%string 300;
                              OpUpdate 2 (Some 200); OpDelete 1; OpUpdate 7 None]).
  - reflexivity.
  - vm_compute. left; reflexivity.
Defined.

(** X2 (controllers updateMeal, deleteMeal): for an authenticated caller
    and a meal id that does not exist, both controllers answer 404
    NOT_FOUND with the message "Meal not found" and leave the store as it
    was. *)
Theorem meal_ctl_not_found u id c db :
  find_meal id db = None ->
  updateMeal_ctl (Some u) id c db = (RError 404 "NOT_FOUND" "Meal not found", db) /\
  deleteMeal_ctl (Some u) id db = (RError 404 "NOT_FOUND" "Meal not found", db).
Proof.
  intros H. unfold updateMeal_ctl, deleteMeal_ctl, updateMeal, deleteMeal, bind, get.
  rewrite H. split; reflexivity.
Qed.

Lemma meal_ctl_not_found_witness :
  updateMeal_ctl (Some "u"%string) 5 (Some 100) (mkDB [] [mkMeal 1 0 40] 2)
  = (RError 404 "NOT_FOUND" "Meal not found", mkDB [] [mkMeal 1 0 40] 2) /\
  deleteMeal_ctl (Some "u"%string) 5 (mkDB [] [mkMeal 1 0 40] 2)
  = (RError 404 "NOT_FOUND" "Meal not found", mkDB [] [mkMeal 1 0 40] 2).
Proof.
  apply meal_ctl_not_found. reflexivity.
Defined.


End MealLedger.

Section FastingEnding.
Import Fasting FastingEnd.

Lemma find_daily_complete u dt sid now t db :
  find_daily u dt (complete_session sid now t db)
  = option_map (complete_day sid now t) (find_daily u dt db).
Proof.
  unfold find_daily; rewrite days_complete_session; apply find_map.
  intros x; destruct (complete_day_key sid now t x) as [H1 [H2 _]].
  rewrite H1, H2; reflexivity.
Qed.

Lemma getDaily_plain u dt now db d :
  find_daily u dt db = Some d ->
  (forall s, dd_fastingSession d = Some s -> should_autocomplete now s = false) ->
  getDailyHealthData u dt now db = inr (Some d, db).
Proof.
  intros Hf Hs. unfold getDailyHealthData, bind, get, ret. rewrite Hf.
  destruct (dd_fastingSession d) as [s|]; [|reflexivity].
  destruct (fs_targetDuration s); [|reflexivity].
  rewrite (Hs s eq_refl); reflexivity.
Qed.

Lemma should_autocomplete_ended now s e :
  fs_endTime s = Some e -> should_autocomplete now s = false.
Proof. intros H; unfold should_autocomplete; rewrite H; reflexivity. Qed.

(** X3 (endFastingSession): ending an active session that the read does
    not auto-complete returns it with [endTime = now] and [duration] the
    elapsed hours rounded by [Math.round], and stores exactly that; a later
    call on the same day, at any instant, fails with "Fasting session has
    already ended". *)
Theorem endFasting_then_already_ended u dt now now' db d s :
  find_daily u dt db = Some d -> dd_fastingSession d = Some s ->
  fs_endTime s = None -> should_autocomplete now s = false ->
  endFastingSession u dt now db
  = inr (completed s now (js_round (elapsedHours now (fs_startTime s))),
         complete_session (fs_id s) now (js_round (elapsedHours now (fs_startTime s))) db) /\
  endFastingSession u dt now'
    (complete_session (fs_id s) now (js_round (elapsedHours now (fs_startTime s))) db)
  = inl "Fasting session has already ended"%string.
Proof.
  intros Hf Hs He Ha. split.
  - unfold endFastingSession, bind, get, put, ret.
    rewrite (getDaily_plain u dt now db d Hf); [|intros s' Hs'; congruence].
    rewrite Hs, He; reflexivity.
  - set (v := js_round (elapsedHours now (fs_startTime s))).
    set (d' := with_session (Some (completed s now v)) d).
    assert (Hf' : find_daily u dt (complete_session (fs_id s) now v db) = Some d').
    { rewrite find_daily_complete, Hf; simpl. unfold complete_day.
      rewrite Hs, Nat.eqb_refl; reflexivity. }
    unfold endFastingSession, bind.
    rewrite (getDaily_plain u dt now' _ d' Hf');
      [reflexivity | intros s' Hs'; apply (should_autocomplete_ended now' s' now);
                     simpl in Hs'; inversion Hs'; reflexivity].
Qed.

Lemma endFasting_then_already_ended_witness :
  endFastingSession "u" "d" 7200000
    (mkDB [mkDaily 0 "u" "d" (Some (mkSession 1 "16:8" 0 None 0 (Some 16) None None))] 2)
  = inr (completed (mkSession 1 "16:8" 0 None 0 (Some 16) None None) 7200000
           (js_round (elapsedHours 7200000 0)),
         complete_session 1 7200000 (js_round (elapsedHours 7200000 0))
           (mkDB [mkDaily 0 "u" "d" (Some (mkSession 1 "16:8" 0 None 0 (Some 16) None None))] 2)) /\
  endFastingSession "u" "d" 9000000
    (complete_session 1 7200000 (js_round (elapsedHours 7200000 0))
       (mkDB [mkDaily 0 "u" "d" (Some (mkSession 1 "16:8" 0 None 0 (Some 16) None None))] 2))
  = inl "Fasting session has already ended"%string.
Proof.
  apply (endFasting_then_already_ended "u" "d" 7200000 9000000
           (mkDB [mkDaily 0 "u" "d" (Some (mkSession 1 "16:8" 0 None 0 (Some 16) None None))] 2)
           (mkDaily 0 "u" "d" (Some (mkSession 1 "16:8" 0 None 0 (Some 16) None None)))
           (mkSession 1 "16:8" 0 None 0 (Some 16) None None));
    vm_compute; reflexivity.
Defined.

(** X4 (endFastingSession): once the target of an active session is
    reached, the read inside [endFastingSession] completes the session
    (stored with [endTime = now] and [duration] the target), and the call
    then fails with "Fasting session has already ended". *)
Theorem endFasting_after_target u dt now db d s t :
  find_daily u dt db = Some d -> dd_fastingSession d = Some s ->
  fs_endTime s = None -> fs_targetDuration s = Some t -> t <> 0 ->
  (inject_Z t <= elapsedHours now (fs_startTime s))%Q ->
  getDailyHealthData u dt now db
  = inr (Some (with_session (Some (completed s now t)) d), complete_session (fs_id s) now t db) /\
  endFastingSession u dt now db = inl "Fasting session has already ended"%string.
Proof.
  intros Hf Hs He Ht Hz Hle.
  pose proof (getDaily_autocompletes u dt now db d s t Hf Hs He Ht Hz Hle) as Hg.
  split; [exact Hg|].
  unfold endFastingSession, bind. rewrite Hg. reflexivity.
Qed.

Lemma endFasting_after_target_witness :
  getDailyHealthData "u" "d" 64800000
    (mkDB [mkDaily 0 "u" "d" (Some (mkSession 1 "16:8" 0 None 0 (Some 16) None None))] 2)
  = inr (Some (with_session (Some (completed (mkSession 1 "16:8" 0 None 0 (Some 16) None None)
                                             64800000 16))
                 (mkDaily 0 "u" "d" (Some (mkSession 1 "16:8" 0 None 0 (Some 16) None None)))),
         complete_session 1 64800000 16
           (mkDB [mkDaily 0 "u" "d" (Some (mkSession 1 "16:8" 0 None 0 (Some 16) None None))] 2)) /\
  endFastingSession "u" "d" 64800000
    (mkDB [mkDaily 0 "u" "d" (Some (mkSession 1 "16:8" 0 None 0 (Some 16) None None))] 2)
  = inl "Fasting session has already ended"%string.
Proof.
  apply (endFasting_after_target "u" "d" 64800000
           (mkDB [mkDaily 0 "u" "d" (Some (mkSession 1 "16:8" 0 None 0 (Some 16) None None))] 2)
           (mkDaily 0 "u" "d" (Some (mkSession 1 "16:8" 0 None 0 (Some 16) None None)))
           (mkSession 1 "16:8" 0 None 0 (Some 16) None None) 16);
    try reflexivity; [discriminate | vm_compute; discriminate].
Defined.

(** X5 (endFastingSession): with no aggregate for the day the call fails
    with "Daily health data not found"; with an aggregate that has no
    session it fails with "No active fasting session found". *)
Theorem endFasting_missing u dt now db :
  (find_daily u dt db = None ->
   endFastingSession u dt now db = inl "Daily health data not found"%string) /\
  (forall d, find_daily u dt db = Some d -> dd_fastingSession d = None ->
   endFastingSession u dt now db = inl "No active fasting session found"%string).
Proof.
  split.
  - intros Hf. unfold endFastingSession, getDailyHealthData, bind, get, ret.
    rewrite Hf; reflexivity.
  - intros d Hf Hs. unfold endFastingSession, bind.
    rewrite (getDaily_plain u dt now db d Hf); [|intros s' Hs'; congruence].
    rewrite Hs; reflexivity.
Qed.

Lemma endFasting_missing_witness :
  endFastingSession "v" "d" 0 (mkDB [mkDaily 0 "u" "d" None] 1)
  = inl "Daily health data not found"%string /\
  endFastingSession "u" "d" 0 (mkDB [mkDaily 0 "u" "d" None] 1)
  = inl "No active fasting session found"%string.
Proof.
  destruct (endFasting_missing "v" "d" 0 (mkDB [mkDaily 0 "u" "d" None] 1)) as [H1 _].
  destruct (endFasting_missing "u" "d" 0 (mkDB [mkDaily 0 "u" "d" None] 1)) as [_ H2].
  split; [apply H1; reflexivity | apply (H2 (mkDaily 0 "u" "d" None)); reflexivity].
Defined.

Lemma find_week_sound u dates db d :
  In d (find_week u dates db) -> dd_userId d = u /\ In (dd_date d) dates.
Proof.
  unfold find_week; rewrite In_sort_by; intros Hd.
  apply filter_In in Hd as [_ Hp]; apply andb_true_iff in Hp as [Hu Hdt].
  split; [apply String.eqb_eq; exact Hu|].
  apply existsb_exists in Hdt as [x [Hx Heq]]; apply String.eqb_eq in Heq; subst x; exact Hx.
Qed.

(** X6 (getWeeklyHealthData): every aggregate the weekly read returns,
    whether or not it auto-completed sessions first, belongs to the
    requested user and falls on one of the requested dates. *)
Theorem getWeekly_sound u dates now db res db' :
  getWeeklyHealthData u dates now db = inr (res, db') ->
  forall d, In d res -> dd_userId d = u /\ In (dd_date d) dates.
Proof.
  unfold getWeeklyHealthData, bind, get, put, ret.
  destruct (flat_map _ _) as [|p ps]; intros H; inversion H; subst; apply find_week_sound.
Qed.

Lemma getWeekly_sound_witness :
  dd_userId (mkDaily 0 "u" "2024-01-02" None) = "u"%string /\
  In (dd_date (mkDaily 0 "u" "2024-01-02" None)) ["2024-01-01"; "2024-01-02"]%string.
Proof.
  apply (getWeekly_sound "u" ["2024-01-01"; "2024-01-02"]%string 0
           (mkDB [mkDaily 0 "u" "2024-01-02" None; mkDaily 1 "w" "2024-01-02" None;
                  mkDaily 2 "u" "2024-02-01" None] 3)
           [mkDaily 0 "u" "2024-01-02" None]
           (mkDB [mkDaily 0 "u" "2024-01-02" None; mkDaily 1 "w" "2024-01-02" None;
                  mkDaily 2 "u" "2024-02-01" None] 3));
    [vm_compute; reflexivity | left; reflexivity].
Defined.

End FastingEnding.

Section DailySave.
Import Daily.

Lemma find_app_none {A} (p : A -> bool) (l m : list A) :
  find p l = None -> find p (l ++ m) = find p m.
Proof.
  induction l as [|x l IH]; simpl; [reflexivity|].
  destruct (p x); [discriminate | exact IH].
Qed.

Lemma key_matches_refl u dt id c data :
  key_matches u dt (mkRow id u dt c data) = true.
Proof. unfold key_matches; simpl; rewrite !String.eqb_refl; reflexivity. Qed.

(** X7 (saveDailyHealthData): when the upsert goes through, the row it
    returns is the stored row of [(userId, date)] with the request's
    fields written over it: the totals always, an optional field only when
    the body gives it (a value or [null]), an omitted one keeps the stored
    value (or is NULL on a new row). A later [findUnique] on the same
    [(userId, date)] returns that row, and the number of rows with that key
    becomes 1 when there was none and is unchanged otherwise. *)
Theorem saveDaily_roundtrip u dt data now db r db' :
  saveDailyHealthData u dt data None now db = inr (r, db') ->
  r_data r = (match findUnique u dt db with
              | Some r0 => apply_update (r_data r0) data
              | None => create_data data
              end) /\
  findUnique u dt db' = Some r /\
  length (filter (key_matches u dt) (rows db'))
  = Nat.max 1 (length (filter (key_matches u dt) (rows db))).
Proof.
  unfold saveDailyHealthData, bind, get, put, ret.
  destruct (findUnique u dt db) as [r0|] eqn:Hf; intros H; inversion H; subst r db'; clear H.
  - apply find_some in Hf as Hr0; destruct Hr0 as [Hin Hk].
    split; [reflexivity|]. split.
    + unfold findUnique, update_row, update_where; cbn [rows].
      rewrite find_map; [|intros x; destruct (Nat.eqb (r_id x) (r_id r0)); reflexivity].
      unfold findUnique in Hf; rewrite Hf; simpl; rewrite Nat.eqb_refl; reflexivity.
    + rewrite update_row_keys.
      assert (Hpos : (1 <= length (filter (key_matches u dt) (rows db)))%nat).
      { destruct (filter (key_matches u dt) (rows db)) as [|x xs] eqn:F; [|simpl; lia].
        assert (Hx : In r0 (filter (key_matches u dt) (rows db))) by (apply filter_In; auto).
        rewrite F in Hx; destruct Hx. }
      lia.
  - split; [reflexivity|]. split.
    + unfold findUnique; cbn [rows]. unfold findUnique in Hf; rewrite (find_app_none _ _ _ Hf).
      simpl; rewrite key_matches_refl; reflexivity.
    + cbn [rows]. rewrite filter_app; simpl; rewrite key_matches_refl, length_app.
      assert (Hz : filter (key_matches u dt) (rows db) = []).
      { destruct (filter (key_matches u dt) (rows db)) as [|x xs] eqn:F; [reflexivity|].
        assert (Hx : In x (filter (key_matches u dt) (rows db))) by (rewrite F; left; reflexivity).
        apply filter_In in Hx as [Hin Hk].
        unfold findUnique in Hf; rewrite (find_none _ _ Hf x Hin) in Hk; discriminate. }
      rewrite Hz; reflexivity.
Qed.

(** A stored heart rate of 70 survives a save whose body leaves
    [heartRate] out, while the totals are overwritten. *)
Lemma saveDaily_roundtrip_witness :
  exists r db',
    saveDailyHealthData "u" "d" (mkPayload 1800 300 Undef Undef Undef Undef 4000 2) None 9
      (mkDB [mkRow 0 "u" "d" 5 (mkData 1 1 None None (Some 70) None 1 1)] 1) = inr (r, db') /\
    r_data r = mkData 1800 300 None None (Some 70) None 4000 2 /\
    findUnique "u" "d" db' = Some r.
Proof.
  do 2 eexists. split; [reflexivity|].
  destruct (saveDaily_roundtrip "u" "d" (mkPayload 1800 300 Undef Undef Undef Undef 4000 2) 9
              (mkDB [mkRow 0 "u" "d" 5 (mkData 1 1 None None (Some 70) None 1 1)] 1) _ _ eq_refl)
    as [H1 [H2 _]].
  split; [exact H1 | exact H2].
Defined.

(** X8 (saveDailyHealthData, catch block): an upsert error that is
    neither P2002 nor mentions "Unique constraint" is rethrown as is; a
    unique violation when no row has the key is rethrown as well. *)
Theorem saveDaily_rethrows u dt data now e db :
  (is_unique_violation e = false ->
   saveDailyHealthData u dt data (Some e) now db = inl (err_message e)) /\
  (filter (key_matches u dt) (rows db) = [] ->
   saveDailyHealthData u dt data (Some e) now db = inl (err_message e)).
Proof.
  split; intros H; unfold saveDailyHealthData, on_upsert_error.
  - rewrite H; reflexivity.
  - destruct (is_unique_violation e); [|reflexivity].
    unfold bind, get.
    assert (Hf : findUnique u dt db = None).
    { unfold findUnique; destruct (find (key_matches u dt) (rows db)) as [x|] eqn:E; [|reflexivity].
      apply find_some in E as [Hin Hk].
      assert (Hx : In x (filter (key_matches u dt) (rows db))) by (apply filter_In; auto).
      rewrite H in Hx; destruct Hx. }
    rewrite Hf. unfold findMany_by_created; rewrite H; reflexivity.
Qed.

Lemma saveDaily_rethrows_witness :
  saveDailyHealthData "u" "d" (mkPayload 0 0 Undef Undef Undef Undef 0 0)
    (Some (mkPrismaError "P1001" "Cannot reach database server")) 0
    (mkDB [mkRow 0 "u" "d" 5 (mkData 1 1 None None None None 1 1)] 1)
  = inl "Cannot reach database server"%string /\
  saveDailyHealthData "u" "e" (mkPayload 0 0 Undef Undef Undef Undef 0 0)
    (Some (mkPrismaError "P2002" "Unique constraint failed")) 0
    (mkDB [mkRow 0 "u" "d" 5 (mkData 1 1 None None None None 1 1)] 1)
  = inl "Unique constraint failed"%string.
Proof.
  split.
  - apply (proj1 (saveDaily_rethrows "u" "d" (mkPayload 0 0 Undef Undef Undef Undef 0 0) 0
             (mkPrismaError "P1001" "Cannot reach database server")
             (mkDB [mkRow 0 "u" "d" 5 (mkData 1 1 None None None None 1 1)] 1))).
    vm_compute; reflexivity.
  - apply (proj2 (saveDaily_rethrows "u" "e" (mkPayload 0 0 Undef Undef Undef Undef 0 0) 0
             (mkPrismaError "P2002" "Unique constraint failed")
             (mkDB [mkRow 0 "u" "d" 5 (mkData 1 1 None None None None 1 1)] 1))).
    vm_compute; reflexivity.
Defined.

End DailySave.

Section CatalogProps.
Import Catalog CatalogOps.

Lemma in_firstn_l {A} n (l : list A) x : In x (firstn n l) -> In x l.
Proof. intros H; rewrite <- (firstn_skipn n l); apply in_or_app; left; exact H. Qed.

Lemma in_skipn_l {A} n (l : list A) x : In x (skipn n l) -> In x l.
Proof. intros H; rewrite <- (firstn_skipn n l); apply in_or_app; right; exact H. Qed.

Lemma findMany_sound rows skip take its :
  findMany rows skip take = inr its ->
  (forall x, In x its -> In x rows) /\ Z.of_nat (length its) <= Z.abs take.
Proof.
  unfold findMany. destruct (Z.ltb skip 0); [discriminate|].
  destruct (Z.leb_spec 0 take) as [Ht|Ht]; intros H; inversion H; subst its; clear H; split.
  - intros x Hx; apply in_firstn_l, in_skipn_l in Hx; exact Hx.
  - pose proof (firstn_le_length (Z.to_nat take) (skipn (Z.to_nat skip) rows)); lia.
  - intros x Hx; apply in_rev, in_firstn_l, in_skipn_l in Hx; apply in_rev; exact Hx.
  - rewrite length_rev.
    pose proof (firstn_le_length (Z.to_nat (- take)) (skipn (Z.to_nat skip) (rev rows))); lia.
Qed.

(** X9 (FoodService.searchFoodItems): every item of a successful search is
    a catalog item that matches the name and category filters, [total]
    counts all matching items, and the page holds at most [|limit|] items
    (a negative limit reads backwards, so the cap of 100 bounds only
    positive limits). *)
Theorem search_items_sound p cat res :
  service_search p cat = inr res ->
  (forall f, In f (items res) -> In f cat /\ matches p f = true) /\
  total res = Z.of_nat (length (filter (matches p) cat)) /\
  Z.of_nat (length (items res)) <= Z.abs (limit res).
Proof.
  unfold service_search.
  destruct (findMany _ _ _) as [e|its] eqn:Hf; [discriminate|].
  intros H; inversion H; subst res; clear H; cbn [items total limit].
  apply findMany_sound in Hf as [Hin Hlen].
  split; [|split; [rewrite sort_by_length; reflexivity | exact Hlen]].
  intros f Hf; apply Hin, In_sort_by, filter_In in Hf; exact Hf.
Qed.

Lemma search_items_sound_witness :
  (forall f, In f [mkFood 1 "Apple"%string 52 14 0 0 100 (Some "Fruit"%string) "scraped"%string] ->
     In f [mkFood 1 "Apple"%string 52 14 0 0 100 (Some "Fruit"%string) "scraped"%string;
           mkFood 2 "Bread"%string 265 49 9 3 100 (Some "Bakery"%string) "scraped"%string] /\
     matches (mkParams (Some "app"%string) None None None) f = true) /\
  1 = Z.of_nat (length (filter (matches (mkParams (Some "app"%string) None None None))
                          [mkFood 1 "Apple"%string 52 14 0 0 100 (Some "Fruit"%string) "scraped"%string;
                           mkFood 2 "Bread"%string 265 49 9 3 100 (Some "Bakery"%string) "scraped"%string])) /\
  Z.of_nat (length [mkFood 1 "Apple"%string 52 14 0 0 100 (Some "Fruit"%string) "scraped"%string]) <= Z.abs 20.
Proof.
  apply (search_items_sound (mkParams (Some "app"%string) None None None)
           [mkFood 1 "Apple"%string 52 14 0 0 100 (Some "Fruit"%string) "scraped"%string;
            mkFood 2 "Bread"%string 265 49 9 3 100 (Some "Bakery"%string) "scraped"%string]
           (mkResult [mkFood 1 "Apple"%string 52 14 0 0 100 (Some "Fruit"%string) "scraped"%string] 1 1 20 1)).
  vm_compute; reflexivity.
Defined.

Lemma existsb_find {A} (p : A -> bool) (l : list A) :
  existsb p l = match find p l with Some _ => true | None => false end.
Proof. induction l as [|x l IH]; simpl; [reflexivity|]. destruct (p x); [reflexivity | exact IH]. Qed.

(** X10 (bulkImportFoodItems): the items already in the catalog keep their
    ids and order, and one new row, with the next ids in turn, is appended
    for each scraped item whose [(name, source || 'scraped')] was absent
    from the catalog before the call (two such items with the same key in
    one batch both create a row: every lookup sees the catalog as it was). *)
Theorem bulkImport_ids news db :
  map f_id (catalog (bulkImportFoodItems news db))
  = map f_id (catalog db)
    ++ seq (next_id db)
           (length (filter (fun it => negb (existsb (fun f =>
                      String.eqb (f_name f) (n_name it) &&
                      String.eqb (f_source f) (source_or_scraped (n_source it)))
                      (catalog db))) news)) /\
  next_id (bulkImportFoodItems news db)
  = (next_id db
     + length (filter (fun it => negb (existsb (fun f =>
                 String.eqb (f_name f) (n_name it) &&
                 String.eqb (f_source f) (source_or_scraped (n_source it)))
                 (catalog db))) news))%nat.
Proof.
  unfold bulkImportFoodItems; cbv zeta.
  remember (record (Import (length news)) db) as d0 eqn:Hd0.
  replace (map f_id (catalog db)) with (map f_id (catalog d0)) by (subst d0; reflexivity).
  replace (next_id db) with (next_id d0) by (subst d0; reflexivity).
  clear Hd0. revert d0.
  induction news as [|it news IH]; intros d0; simpl.
  - rewrite app_nil_r; split; [reflexivity | lia].
  - rewrite existsb_find.
    destruct (find _ (catalog db)) as [ex|] eqn:E; simpl.
    + destruct (IH (mkDB (update_where (fun f => Nat.eqb (f_id f) (f_id ex))
                   (fun f => mkFood (f_id f) (f_name f) (n_calories it) (n_carbs it)
                               (n_protein it) (n_fat it) (f_servingSize f)
                               (match n_category it with
                                | Some c => if String.eqb c ""%string then f_category f else Some c
                                | None => f_category f end)
                               (f_source f))
                   (catalog d0)) (next_id d0) (log d0))) as [H1 H2].
      cbn [catalog next_id] in H1, H2. rewrite H1, H2.
      rewrite map_update_where; [split; reflexivity | intros; reflexivity].
    + match goal with
      | |- context [fold_left ?F news ?d1] => destruct (IH d1) as [H1 H2]
      end.
      cbn [catalog next_id] in H1, H2. rewrite H1, H2.
      rewrite map_app, <- app_assoc; simpl. split; [reflexivity | lia].
Qed.

Lemma serving_nonzero_default (o : option Q) :
  ~ (match o with Some s => if Qeq_bool s 0 then 100%Q else s | None => 100%Q end == 0)%Q.
Proof.
  destruct o as [s|]; [destruct (Qeq_bool s 0) eqn:E|].
  - unfold Qeq; simpl; lia.
  - intros H; apply Qeq_bool_iff in H; congruence.
  - unfold Qeq; simpl; lia.
Qed.

(** X11 (createFoodItem, bulkImportFoodItems): [servingSize || 100] keeps
    every catalog item's serving size non-zero: if it holds before, it
    holds after creating an item and after a bulk import. *)
Theorem servingSize_nonzero db name cal carbs prot fat ss cat src news :
  (forall f, In f (catalog db) -> ~ (f_servingSize f == 0)%Q) ->
  (forall f, In f (catalog (snd (createFoodItem name cal carbs prot fat ss cat src db))) ->
     ~ (f_servingSize f == 0)%Q) /\
  (forall f, In f (catalog (bulkImportFoodItems news db)) -> ~ (f_servingSize f == 0)%Q).
Proof.
  intros H; split.
  - simpl; intros f Hf; apply in_app_iff in Hf as [Hf|[<-|[]]]; [exact (H f Hf)|].
    simpl; apply serving_nonzero_default.
  - unfold bulkImportFoodItems; cbv zeta.
    assert (H0 : forall f, In f (catalog (record (Import (length news)) db)) ->
                   ~ (f_servingSize f == 0)%Q) by exact H.
    revert H0; generalize (record (Import (length news)) db) as d0.
    induction news as [|it news IH]; intros d0 H0; simpl; [exact H0|].
    apply IH. destruct (find _ (catalog db)) as [ex|]; simpl.
    + intros f Hf; apply In_update_where in Hf as [g [Hg ->]].
      destruct (Nat.eqb (f_id g) (f_id ex)); simpl; exact (H0 g Hg).
    + intros f Hf; apply in_app_iff in Hf as [Hf|[<-|[]]]; [exact (H0 f Hf)|].
      simpl; apply serving_nonzero_default.
Qed.

Lemma servingSize_nonzero_witness :
  (forall f, In f (catalog (snd (createFoodItem "Oats"%string 389 66 17 7 (Some 0%Q) None None
                                   (mkDB [mkFood 0 "Rice"%string 130 28 3 0 100 None "user-added"%string] 1 [])))) ->
     ~ (f_servingSize f == 0)%Q) /\
  (forall f, In f (catalog (bulkImportFoodItems
                              [mkNew "Rice"%string 131 28 3 0 None None None;
                               mkNew "Oats"%string 389 66 17 7 (Some 0%Q) None None]
                              (mkDB [mkFood 0 "Rice"%string 130 28 3 0 100 None "user-added"%string] 1 []))) ->
     ~ (f_servingSize f == 0)%Q).
Proof.
  apply servingSize_nonzero.
  intros f [<-|[]]; unfold Qeq; simpl; lia.
Defined.

Lemma distinct_from_spec seen l x :
  In x (distinct_from seen l) <-> In x l /\ ~ In x seen.
Proof.
  revert seen; induction l as [|y l IH]; intros seen; simpl; [tauto|].
  destruct (existsb (String.eqb y) seen) eqn:E.
  - rewrite IH. apply existsb_exists in E as [z [Hz Heq]]; apply String.eqb_eq in Heq; subst z.
    split; [tauto|]. intros [[<-|Hx] Hn]; [contradiction | tauto].
  - simpl; rewrite IH. simpl.
    assert (Hy : ~ In y seen).
    { intros Hin; rewrite (proj2 (existsb_exists _ _) (ex_intro _ y (conj Hin (String.eqb_refl y)))) in E;
        discriminate. }
    split.
    + intros [<-|[Hx Hn]]; [tauto|]. split; [right; exact Hx | tauto].
    + intros [[<-|Hx] Hn]; [left; reflexivity|].
      destruct (String.eqb_spec y x) as [<-|Ne]; [left; reflexivity|].
      right; split; [exact Hx|]. intros [E'|E']; [exact (Ne E') | exact (Hn E')].
Qed.

Lemma distinct_from_nodup seen l : NoDup (distinct_from seen l).
Proof.
  revert seen; induction l as [|y l IH]; intros seen; simpl; [constructor|].
  destruct (existsb (String.eqb y) seen); [apply IH|].
  constructor; [|apply IH].
  intros Hin; apply distinct_from_spec in Hin as [_ Hn]; apply Hn; left; reflexivity.
Qed.

Lemma insert_sorted_perm {A} (leb : A -> A -> bool) x l :
  Permutation (insert_sorted leb x l) (x :: l).
Proof.
  induction l as [|y l IH]; simpl; [reflexivity|].
  destruct (leb y x); [|reflexivity].
  rewrite IH; apply perm_swap.
Qed.

Lemma sort_by_perm {A} (leb : A -> A -> bool) l : Permutation (sort_by leb l) l.
Proof.
  unfold sort_by. transitivity (rev l); [|symmetry; apply Permutation_rev].
  induction (rev l) as [|y r IH]; simpl; [reflexivity|].
  rewrite insert_sorted_perm, IH; reflexivity.
Qed.

Lemma insert_sorted_sorted {A} (leb : A -> A -> bool) :
  (forall a b, leb a b = true \/ leb b a = true) ->
  forall x l, Sorted (fun a b => leb a b = true) l ->
  Sorted (fun a b => leb a b = true) (insert_sorted leb x l).
Proof.
  intros Htot x l; induction l as [|y l IH]; intros Hs; simpl.
  - repeat constructor.
  - destruct (leb y x) eqn:E.
    + apply Sorted_inv in Hs as [Hs Hh]. constructor; [exact (IH Hs)|].
      destruct l as [|z l]; simpl; [constructor; exact E|].
      inversion Hh; subst. destruct (leb z x); constructor; assumption.
    + constructor; [exact Hs|]. constructor.
      destruct (Htot x y) as [H|H]; [exact H | congruence].
Qed.

Lemma sort_by_sorted {A} (leb : A -> A -> bool) :
  (forall a b, leb a b = true \/ leb b a = true) ->
  forall l, Sorted (fun a b => leb a b = true) (sort_by leb l).
Proof.
  intros Htot l; unfold sort_by.
  induction (rev l) as [|y r IH]; simpl; [constructor|].
  apply insert_sorted_sorted; assumption.
Qed.

(** X12 (getCategories): the categories listed are exactly the non-null
    categories of the catalog, each once, in ascending code-unit order. *)
Theorem getCategories_spec db :
  (forall c, In c (getCategories db) <-> exists f, In f (catalog db) /\ f_category f = Some c) /\
  NoDup (getCategories db) /\
  Sorted (fun a b => String.leb a b = true) (getCategories db).
Proof.
  unfold getCategories. split; [|split].
  - intros c. rewrite In_sort_by, distinct_from_spec, in_flat_map. simpl.
    split.
    + intros [[f [Hf Hc]] _]. exists f; split; [exact Hf|].
      destruct (f_category f) as [c'|]; [destruct Hc as [<-|[]]; reflexivity | destruct Hc].
    + intros [f [Hf Hc]]. split; [|tauto]. exists f; split; [exact Hf|].
      rewrite Hc; left; reflexivity.
  - apply (Permutation_NoDup (Permutation_sym (sort_by_perm _ _))).
    apply distinct_from_nodup.
  - apply sort_by_sorted. exact String.leb_total.
Qed.

End CatalogProps.

Section BasketProps.
Import Basket BasketOps.

Lemma map_update_where_in {A B} (f : A -> B) (p : A -> bool) (g : A -> A) (l : list A) :
  (forall x, In x l -> p x = true -> f (g x) = f x) -> map f (update_where p g l) = map f l.
Proof.
  intros H; induction l as [|a l IH]; simpl; [reflexivity|].
  rewrite IH; [|intros x Hx; apply H; right; exact Hx].
  destruct (p a) eqn:E; [rewrite (H a (or_introl eq_refl) E)|]; reflexivity.
Qed.

(** X13 (FoodService.addToBasket): adding a food is an upsert on
    [(userId, foodItemId)]: with distinct keys and ids before, and a fresh
    id for a created line, keys and ids stay distinct, the returned line
    has the requested key, quantity and serving size and is stored, and
    the basket grows by one line only when the user had none for that
    food. *)
Theorem addToBasket_upsert u fid q s newId cat db b db' :
  NoDup (map key (basket db)) -> NoDup (map b_id (basket db)) ->
  ~ In newId (map b_id (basket db)) ->
  service_addToBasket u fid q s newId cat db = inr (b, db') ->
  NoDup (map key (basket db')) /\ NoDup (map b_id (basket db')) /\
  key b = (u, fid) /\ b_quantity b = q /\ b_servingSize b = s /\ In b (basket db') /\
  length (basket db') = (length (basket db)
                         + match find_by_food u fid db with Some _ => 0 | None => 1 end)%nat.
Proof.
  intros Hk Hi Hnew. unfold service_addToBasket, bind, get, put, ret.
  destruct (find_by_food u fid db) as [ex|] eqn:Hf.
  - intros H; inversion H; subst b db'; clear H; cbn [basket b_quantity b_servingSize].
    unfold find_by_food in Hf; apply find_some in Hf as [Hex Hp].
    apply andb_true_iff in Hp as [Hu Hfid]; apply String.eqb_eq in Hu; apply Nat.eqb_eq in Hfid.
    assert (Hsame : forall x, In x (basket db) -> Nat.eqb (b_id x) (b_id ex) = true -> x = ex).
    { intros x Hx Hid; apply Nat.eqb_eq in Hid. exact (NoDup_map_inj b_id _ x ex Hi Hx Hex Hid). }
    split; [|split; [|split; [|split; [|split; [|split]]]]].
    + rewrite map_update_where_in; [exact Hk|].
      intros x Hx Hid; rewrite (Hsame x Hx Hid); reflexivity.
    + rewrite map_update_where_in; [exact Hi|].
      intros x Hx Hid; rewrite (Hsame x Hx Hid); reflexivity.
    + unfold key; simpl; rewrite Hu, Hfid; reflexivity.
    + reflexivity.
    + reflexivity.
    + unfold update_where; apply in_map_iff. exists ex; rewrite Nat.eqb_refl; split; [reflexivity | exact Hex].
    + unfold update_where; rewrite length_map; lia.
  - destruct (find (fun f => Nat.eqb (f_id f) fid) cat) as [f|] eqn:Hc; [|discriminate].
    intros H; inversion H; subst b db'; clear H; cbn [basket b_quantity b_servingSize].
    apply find_some in Hc as [_ Hfid]; apply Nat.eqb_eq in Hfid.
    split; [|split; [|split; [|split; [|split; [|split]]]]].
    + rewrite map_app; apply NoDup_snoc; [exact Hk|].
      intros Hin; apply in_map_iff in Hin as [x [Hx Hin]].
      unfold key in Hx; simpl in Hx; inversion Hx as [[Hu Hid]].
      unfold find_by_food in Hf.
      pose proof (find_none _ _ Hf x Hin) as Hn; simpl in Hn.
      rewrite Hu, Hid, Hfid, String.eqb_refl, Nat.eqb_refl in Hn; discriminate.
    + rewrite map_app; apply NoDup_snoc; [exact Hi | exact Hnew].
    + unfold key; simpl; rewrite Hfid; reflexivity.
    + reflexivity.
    + reflexivity.
    + apply in_or_app; right; left; reflexivity.
    + rewrite length_app; simpl; lia.
Qed.

Lemma addToBasket_upsert_witness :
  NoDup (map key (basket (mkDB [mkItem 7 "u"%string (mkFood 1 "Apple"%string 52 14 0 0 100 None "scraped"%string) 3 80;
                                 mkItem 9 "u"%string (mkFood 2 "Bread"%string 265 49 9 3 100 None "scraped"%string) 1 50]))) /\
  NoDup (map b_id (basket (mkDB [mkItem 7 "u"%string (mkFood 1 "Apple"%string 52 14 0 0 100 None "scraped"%string) 3 80;
                                  mkItem 9 "u"%string (mkFood 2 "Bread"%string 265 49 9 3 100 None "scraped"%string) 1 50]))) /\
  key (mkItem 7 "u"%string (mkFood 1 "Apple"%string 52 14 0 0 100 None "scraped"%string) 3 80) = ("u"%string, 1%nat) /\
  b_quantity (mkItem 7 "u"%string (mkFood 1 "Apple"%string 52 14 0 0 100 None "scraped"%string) 3 80) = 3%Q /\
  b_servingSize (mkItem 7 "u"%string (mkFood 1 "Apple"%string 52 14 0 0 100 None "scraped"%string) 3 80) = 80%Q /\
  In (mkItem 7 "u"%string (mkFood 1 "Apple"%string 52 14 0 0 100 None "scraped"%string) 3 80)
     (basket (mkDB [mkItem 7 "u"%string (mkFood 1 "Apple"%string 52 14 0 0 100 None "scraped"%string) 3 80;
                    mkItem 9 "u"%string (mkFood 2 "Bread"%string 265 49 9 3 100 None "scraped"%string) 1 50])) /\
  length (basket (mkDB [mkItem 7 "u"%string (mkFood 1 "Apple"%string 52 14 0 0 100 None "scraped"%string) 3 80;
                        mkItem 9 "u"%string (mkFood 2 "Bread"%string 265 49 9 3 100 None "scraped"%string) 1 50]))
  = (length [mkItem 7 "u"%string (mkFood 1 "Apple"%string 52 14 0 0 100 None "scraped"%string) 2 150;
             mkItem 9 "u"%string (mkFood 2 "Bread"%string 265 49 9 3 100 None "scraped"%string) 1 50]
     + match find_by_food "u"%string 1
               (mkDB [mkItem 7 "u"%string (mkFood 1 "Apple"%string 52 14 0 0 100 None "scraped"%string) 2 150;
                      mkItem 9 "u"%string (mkFood 2 "Bread"%string 265 49 9 3 100 None "scraped"%string) 1 50])
       with Some _ => 0 | None => 1 end)%nat.
Proof.
  apply (addToBasket_upsert "u"%string 1 3 80 11 [] 
           (mkDB [mkItem 7 "u"%string (mkFood 1 "Apple"%string 52 14 0 0 100 None "scraped"%string) 2 150;
                  mkItem 9 "u"%string (mkFood 2 "Bread"%string 265 49 9 3 100 None "scraped"%string) 1 50])).
  - vm_compute; repeat constructor; simpl; intuition discriminate.
  - vm_compute; repeat constructor; simpl; intuition discriminate.
  - simpl; intuition discriminate.
  - vm_compute; reflexivity.
Defined.

(** X14 (FoodService.removeFromBasket and its controller): removing a
    line the caller owns deletes exactly the lines with that id and
    answers 200; a line owned by another user is left in place and the
    caller gets 404 "Basket item not found or access denied". *)
Theorem removeFromBasket_owner u id db item :
  find (fun b => Nat.eqb (b_id b) id) (basket db) = Some item ->
  (b_userId item = u ->
   removeFromBasket (Some u) id db
   = (RSuccess 200 true, mkDB (filter (fun x => negb (Nat.eqb (b_id x) id)) (basket db)))) /\
  (b_userId item <> u ->
   removeFromBasket (Some u) id db
   = (RError 404 "NOT_FOUND"%string "Basket item not found or access denied"%string, db)).
Proof.
  intros Hf. unfold removeFromBasket, service_removeFromBasket, bind, get, put, ret.
  rewrite Hf. split; intros Hu.
  - rewrite Hu, String.eqb_refl; reflexivity.
  - apply String.eqb_neq in Hu; rewrite Hu; reflexivity.
Qed.

Lemma removeFromBasket_owner_witness :
  removeFromBasket (Some "u"%string) 7
    (mkDB [mkItem 7 "u"%string (mkFood 1 "Apple"%string 52 14 0 0 100 None "scraped"%string) 2 150;
           mkItem 9 "w"%string (mkFood 2 "Bread"%string 265 49 9 3 100 None "scraped"%string) 1 50])
  = (RSuccess 200 true, mkDB [mkItem 9 "w"%string (mkFood 2 "Bread"%string 265 49 9 3 100 None "scraped"%string) 1 50]) /\
  removeFromBasket (Some "u"%string) 9
    (mkDB [mkItem 7 "u"%string (mkFood 1 "Apple"%string 52 14 0 0 100 None "scraped"%string) 2 150;
           mkItem 9 "w"%string (mkFood 2 "Bread"%string 265 49 9 3 100 None "scraped"%string) 1 50])
  = (RError 404 "NOT_FOUND"%string "Basket item not found or access denied"%string,
     mkDB [mkItem 7 "u"%string (mkFood 1 "Apple"%string 52 14 0 0 100 None "scraped"%string) 2 150;
           mkItem 9 "w"%string (mkFood 2 "Bread"%string 265 49 9 3 100 None "scraped"%string) 1 50]).
Proof.
  split.
  - apply (proj1 (removeFromBasket_owner "u"%string 7
             (mkDB [mkItem 7 "u"%string (mkFood 1 "Apple"%string 52 14 0 0 100 None "scraped"%string) 2 150;
                    mkItem 9 "w"%string (mkFood 2 "Bread"%string 265 49 9 3 100 None "scraped"%string) 1 50])
             (mkItem 7 "u"%string (mkFood 1 "Apple"%string 52 14 0 0 100 None "scraped"%string) 2 150)
             eq_refl)).
    reflexivity.
  - apply (proj2 (removeFromBasket_owner "u"%string 9
             (mkDB [mkItem 7 "u"%string (mkFood 1 "Apple"%string 52 14 0 0 100 None "scraped"%string) 2 150;
                    mkItem 9 "w"%string (mkFood 2 "Bread"%string 265 49 9 3 100 None "scraped"%string) 1 50])
             (mkItem 9 "w"%string (mkFood 2 "Bread"%string 265 49 9 3 100 None "scraped"%string) 1 50)
             eq_refl)).
    discriminate.
Defined.

(** X15 (clearBasket, getBasket): after clearing user [u]'s basket, [u]'s
    basket reads empty and every other user's basket reads as before. *)
Theorem clearBasket_isolated u v db :
  getBasket v (clearBasket u db) = if String.eqb v u then [] else getBasket v db.
Proof.
  unfold getBasket, clearBasket; cbn [basket].
  destruct (String.eqb_spec v u) as [->|Ne].
  - induction (basket db) as [|b l IH]; [reflexivity|]; simpl.
    destruct (String.eqb (b_userId b) u) eqn:E; simpl; [exact IH|].
    rewrite E; exact IH.
  - f_equal. induction (basket db) as [|b l IH]; [reflexivity|]; simpl.
    destruct (String.eqb_spec (b_userId b) u) as [Eu|Eu]; simpl.
    + destruct (String.eqb_spec (b_userId b) v) as [Ev|Ev]; [congruence | exact IH].
    + destruct (String.eqb (b_userId b) v); [f_equal|]; exact IH.
Qed.

Lemma service_add_result u fid q s newId cat db b db' :
  service_addToBasket u fid q s newId cat db = inr (b, db') ->
  b_quantity b = q /\ b_servingSize b = s /\ In b (basket db').
Proof.
  unfold service_addToBasket, bind, get, put, ret.
  destruct (find_by_food u fid db) as [ex|] eqn:Hf.
  - intros H; inversion H; subst b db'; clear H. split; [reflexivity|]. split; [reflexivity|].
    unfold find_by_food in Hf; apply find_some in Hf as [Hex _].
    cbn [basket]; unfold update_where; apply in_map_iff.
    exists ex; rewrite Nat.eqb_refl; split; [reflexivity | exact Hex].
  - destruct (find _ cat) as [f|]; [|discriminate].
    intros H; inversion H; subst b db'; clear H. split; [reflexivity|]. split; [reflexivity|].
    cbn [basket]; apply in_or_app; right; left; reflexivity.
Qed.

Lemma default_nonzero (d : Q) (o : option Q) :
  ~ (d == 0)%Q ->
  ~ (match o with Some x => if Qeq_bool x 0 then d else x | None => d end == 0)%Q.
Proof.
  intros Hd; destruct o as [x|]; [destruct (Qeq_bool x 0) eqn:E|]; try exact Hd.
  intros H; apply Qeq_bool_iff in H; congruence.
Qed.

(** X16 (controller addToBasket): a line the controller adds or updates is
    stored, and never with a zero quantity or serving size ([quantity || 1],
    [servingSize || 100]). *)
Theorem addToBasket_defaults cs u fid q s newId cat db st b db' :
  addToBasket cs (Some u) (Some fid) q s newId cat db = (RSuccess st b, db') ->
  ~ (b_quantity b == 0)%Q /\ ~ (b_servingSize b == 0)%Q /\ In b (basket db').
Proof.
  unfold addToBasket.
  destruct (service_addToBasket _ _ _ _ _ _ _) as [msg|[b0 db0]] eqn:Hs; [discriminate|].
  intros H; inversion H; subst b0 db0; clear H.
  apply service_add_result in Hs as [Hq [Hss Hin]].
  rewrite Hq, Hss. split; [|split; [|exact Hin]]; apply default_nonzero;
    unfold Qeq; simpl; lia.
Qed.

Lemma addToBasket_defaults_witness :
  ~ (b_quantity (mkItem 11 "u"%string (mkFood 1 "Apple"%string 52 14 0 0 100 None "scraped"%string) 1 100) == 0)%Q /\
  ~ (b_servingSize (mkItem 11 "u"%string (mkFood 1 "Apple"%string 52 14 0 0 100 None "scraped"%string) 1 100) == 0)%Q /\
  In (mkItem 11 "u"%string (mkFood 1 "Apple"%string 52 14 0 0 100 None "scraped"%string) 1 100)
     (basket (mkDB [mkItem 11 "u"%string (mkFood 1 "Apple"%string 52 14 0 0 100 None "scraped"%string) 1 100])).
Proof.
  apply (addToBasket_defaults 201 "u"%string 1 (Some 0%Q) None 11
           [mkFood 1 "Apple"%string 52 14 0 0 100 None "scraped"%string] (mkDB []) 201).
  vm_compute; reflexivity.
Defined.

End BasketProps.

Section FeedProps.
Import Feed FeedOps.

Lemma like_eqb_spec a b : like_eqb a b = true <-> a = b.
Proof.
  destruct a as [n s], b as [m t]; unfold like_eqb; simpl.
  rewrite andb_true_iff, Nat.eqb_eq, String.eqb_eq.
  split; [intros [-> ->]; reflexivity | intros H; inversion H; auto].
Qed.

Lemma hasLiked_spec pid u db :
  existsb (like_eqb (pid, u)) (likes db) = true <-> In (pid, u) (likes db).
Proof.
  rewrite existsb_exists. split.
  - intros [x [Hx Hl]]; apply like_eqb_spec in Hl; subst x; exact Hx.
  - intros H; exists (pid, u); split; [exact H | apply like_eqb_refl].
Qed.

Lemma through_cursor_sub c l ps x :
  through_cursor c l = Some ps -> In x ps -> In x l.
Proof.
  revert ps; induction l as [|p r IH]; intros ps H Hx; simpl in H; [discriminate|].
  destruct (Nat.eqb (p_id p) c).
  - inversion H; subst ps; destruct Hx as [<-|[]]; left; reflexivity.
  - destruct (through_cursor c r) as [ps'|] eqn:E; simpl in H; [|discriminate].
    inversion H; subst ps. destruct Hx as [<-|Hx]; [left; reflexivity|].
    right; exact (IH ps' eq_refl Hx).
Qed.

Lemma through_cursor_app c A x B :
  ~ In c (map p_id A) -> p_id x = c -> through_cursor c (A ++ x :: B) = Some (A ++ [x]).
Proof.
  intros Hn Hx; induction A as [|a A IH]; simpl.
  - rewrite Hx, Nat.eqb_refl; reflexivity.
  - simpl in Hn. destruct (Nat.eqb_spec (p_id a) c) as [E|E]; [exfalso; apply Hn; left; exact E|].
    rewrite IH; [reflexivity|]. intros H; apply Hn; right; exact H.
Qed.

Lemma from_cursor_sub c l ps x :
  from_cursor c l = Some ps -> In x ps -> In x l.
Proof.
  revert ps; induction l as [|p r IH]; intros ps H Hx; simpl in H; [discriminate|].
  destruct (Nat.eqb (p_id p) c).
  - inversion H; subst ps; exact Hx.
  - right; exact (IH ps H Hx).
Qed.

Lemma from_cursor_app c A x B :
  ~ In c (map p_id A) -> p_id x = c -> from_cursor c (A ++ x :: B) = Some (x :: B).
Proof.
  intros Hn Hx; induction A as [|a A IH]; simpl.
  - rewrite Hx, Nat.eqb_refl; reflexivity.
  - simpl in Hn. destruct (Nat.eqb_spec (p_id a) c) as [E|E]; [exfalso; apply Hn; left; exact E|].
    apply IH. intros H; apply Hn; right; exact H.
Qed.

Lemma tag_sound u db L :
  (forall p, In p L -> In p (posts db) /\ post_visible u db p = true) ->
  forall p h, In (p, h) (map (fun p => (p, existsb (like_eqb (p_id p, u)) (likes db))) L) ->
     In p (posts db) /\ post_visible u db p = true /\ (h = true <-> In (p_id p, u) (likes db)).
Proof.
  intros HL p h Hin. apply in_map_iff in Hin as [q [Hq Hin]]; inversion Hq; subst q h.
  apply HL in Hin as [H1 H2]. split; [exact H1|]. split; [exact H2|].
  apply hasLiked_spec.
Qed.



(** X17 (FeedService.listPosts): a page holds at most [|limitCount|]
    posts (a negative [take] returns up to that many rows as well), each
    one stored and visible to the caller (public, or friends-only by the
    caller or a friend), and [hasLiked] is true exactly when the caller's
    like row for the post exists; with or without a cursor. *)
Theorem listPosts_sound u lim cur db :
  (length (listPosts u lim cur db) <= Z.to_nat (Z.abs lim))%nat /\
  (forall p h, In (p, h) (listPosts u lim cur db) ->
     In p (posts db) /\ post_visible u db p = true /\ (h = true <-> In (p_id p, u) (likes db))).
Proof.
  unfold listPosts; cbv zeta.
  destruct (Z.leb_spec 0 lim) as [Hl|Hl]; destruct cur as [c|].
  - destruct (through_cursor c (posts db)) as [ps|] eqn:E; cbn [option_map];
      [|split; [simpl; lia | intros p h []]].
    split; [rewrite length_map, Z.abs_eq by exact Hl; apply firstn_le_length|].
    apply tag_sound. intros p Hp.
    apply in_firstn_l, in_skipn_l, in_rev, filter_In in Hp as [Hp Hv].
    split; [exact (through_cursor_sub c _ _ _ E Hp) | exact Hv].
  - split; [rewrite length_map, Z.abs_eq by exact Hl; apply firstn_le_length|].
    apply tag_sound. intros p Hp. apply in_firstn_l, in_rev, filter_In in Hp; exact Hp.
  - destruct (from_cursor c (posts db)) as [ps|] eqn:E; cbn [option_map];
      [|split; [simpl; lia | intros p h []]].
    split; [rewrite length_map, length_rev, Z.abs_neq by lia; apply firstn_le_length|].
    apply tag_sound. intros p Hp.
    apply in_rev, in_firstn_l, in_skipn_l, filter_In in Hp as [Hp Hv].
    split; [exact (from_cursor_sub c _ _ _ E Hp) | exact Hv].
  - split; [rewrite length_map, length_rev, Z.abs_neq by lia; apply firstn_le_length|].
    apply tag_sound. intros p Hp. apply in_rev, in_firstn_l, filter_In in Hp; exact Hp.
Qed.

Lemma listPosts_sound_witness :
  In (mkPost 2 "f"%string "friends"%string 0) (posts (mkDB [mkPost 1 "w"%string "friends"%string 0; mkPost 2 "f"%string "friends"%string 0;
                                             mkPost 3 "w"%string "public"%string 4]
                                            [(3%nat, "u"%string)] [("u"%string, "f"%string)])) /\
  post_visible "u"%string (mkDB [mkPost 1 "w"%string "friends"%string 0; mkPost 2 "f"%string "friends"%string 0; mkPost 3 "w"%string "public"%string 4]
                         [(3%nat, "u"%string)] [("u"%string, "f"%string)]) (mkPost 2 "f"%string "friends"%string 0)
  = true /\
  (false = true <-> In (p_id (mkPost 2 "f"%string "friends"%string 0), "u"%string) [(3%nat, "u"%string)]).
Proof.
  apply (proj2 (listPosts_sound "u"%string (-5) None
           (mkDB [mkPost 1 "w"%string "friends"%string 0; mkPost 2 "f"%string "friends"%string 0; mkPost 3 "w"%string "public"%string 4]
                 [(3%nat, "u"%string)] [("u"%string, "f"%string)]))).
  vm_compute; right; left; reflexivity.
Defined.

(** X18 (FeedService.listPosts with a cursor): with the posts stored as
    [A ++ x :: B] and [x] visible and unique by id, the newest-first feed
    is [B]'s visible posts, then [x], then [A]'s. For a non-negative
    [limitCount], the page whose cursor is [x] (the [nextCursor] the
    controller hands out when [x] ends a page) lists [A]'s visible posts
    newest first, that is exactly what follows [x] in the feed. For a
    negative [limitCount] it goes back instead: it lists the
    [|limitCount|] visible posts of [B] closest to [x], the ones just
    before [x] in the feed, newest first. *)
Theorem listPosts_cursor_continues u lim db A x B :
  posts db = A ++ x :: B -> ~ In (p_id x) (map p_id A) -> post_visible u db x = true ->
  rev (filter (post_visible u db) (posts db))
  = rev (filter (post_visible u db) B) ++ x :: rev (filter (post_visible u db) A) /\
  (0 <= lim ->
   listPosts u lim (Some (p_id x)) db
   = map (fun p => (p, existsb (like_eqb (p_id p, u)) (likes db)))
         (firstn (Z.to_nat lim) (rev (filter (post_visible u db) A)))) /\
  (lim < 0 ->
   listPosts u lim (Some (p_id x)) db
   = map (fun p => (p, existsb (like_eqb (p_id p, u)) (likes db)))
         (rev (firstn (Z.to_nat (- lim)) (filter (post_visible u db) B)))).
Proof.
  intros Hp Hn Hv. split; [|split].
  - rewrite Hp, filter_app; simpl; rewrite Hv, rev_app_distr; simpl.
    rewrite <- app_assoc; reflexivity.
  - intros Hl. unfold listPosts; cbv zeta.
    rewrite (proj2 (Z.leb_le 0 lim) Hl), Hp, (through_cursor_app (p_id x) A x B Hn eq_refl).
    cbn [option_map]. rewrite filter_app; simpl; rewrite Hv, rev_app_distr; reflexivity.
  - intros Hl. unfold listPosts; cbv zeta.
    rewrite (proj2 (Z.leb_gt 0 lim) Hl), Hp, (from_cursor_app (p_id x) A x B Hn eq_refl).
    cbn [option_map filter]. rewrite Hv; reflexivity.
Qed.

Lemma listPosts_cursor_continues_witness :
  listPosts "u"%string 5 (Some 2%nat)
    (mkDB [mkPost 1 "w"%string "public"%string 0; mkPost 2 "w"%string "public"%string 0;
           mkPost 3 "z"%string "friends"%string 0; mkPost 4 "w"%string "public"%string 0] [] [])
  = [(mkPost 1 "w"%string "public"%string 0, false)] /\
  listPosts "u"%string (-5) (Some 2%nat)
    (mkDB [mkPost 1 "w"%string "public"%string 0; mkPost 2 "w"%string "public"%string 0;
           mkPost 3 "z"%string "friends"%string 0; mkPost 4 "w"%string "public"%string 0] [] [])
  = [(mkPost 4 "w"%string "public"%string 0, false)].
Proof.
  destruct (listPosts_cursor_continues "u"%string (-5)
           (mkDB [mkPost 1 "w"%string "public"%string 0; mkPost 2 "w"%string "public"%string 0;
                  mkPost 3 "z"%string "friends"%string 0; mkPost 4 "w"%string "public"%string 0] [] [])
           [mkPost 1 "w"%string "public"%string 0] (mkPost 2 "w"%string "public"%string 0)
           [mkPost 3 "z"%string "friends"%string 0; mkPost 4 "w"%string "public"%string 0]
           eq_refl ltac:(simpl; intros [H|[]]; discriminate) eq_refl) as [_ [_ Hneg]].
  destruct (listPosts_cursor_continues "u"%string 5
           (mkDB [mkPost 1 "w"%string "public"%string 0; mkPost 2 "w"%string "public"%string 0;
                  mkPost 3 "z"%string "friends"%string 0; mkPost 4 "w"%string "public"%string 0] [] [])
           [mkPost 1 "w"%string "public"%string 0] (mkPost 2 "w"%string "public"%string 0)
           [mkPost 3 "z"%string "friends"%string 0; mkPost 4 "w"%string "public"%string 0]
           eq_refl ltac:(simpl; intros [H|[]]; discriminate) eq_refl) as [_ [Hpos _]].
  split.
  - etransitivity; [exact (Hpos ltac:(lia))|]; vm_compute; reflexivity.
  - etransitivity; [exact (Hneg ltac:(lia))|]; vm_compute; reflexivity.
Defined.

(** X19 (controllers toggleFeedLike, addFeedComment): on a post the caller
    cannot access (absent, or friends-only by someone else), liking and
    commenting answer 404 "Post not found" and change nothing. *)
Theorem feed_post_not_found u postId cs cdb :
  getAccessiblePost postId u (feed cdb) = None ->
  toggleFeedLike (Some u) postId (feed cdb)
  = (RError 404 "NOT_FOUND"%string "Post not found"%string, feed cdb) /\
  (forall t, t <> ""%string ->
   addFeedComment cs (Some u) postId (JString t) cdb
   = (RError 404 "NOT_FOUND"%string "Post not found"%string, cdb)).
Proof.
  intros H. split.
  - unfold toggleFeedLike, toggleLike, bind, get. rewrite H; reflexivity.
  - intros t Ht. apply String.eqb_neq in Ht.
    unfold addFeedComment, addComment, bind, get. rewrite Ht, H; reflexivity.
Qed.

Lemma feed_post_not_found_witness :
  toggleFeedLike (Some "u"%string) 1 (feed (mkCDB (mkDB [mkPost 1 "w"%string "friends"%string 0] [] []) [] [] 0))
  = (RError 404 "NOT_FOUND"%string "Post not found"%string, feed (mkCDB (mkDB [mkPost 1 "w"%string "friends"%string 0] [] []) [] [] 0)) /\
  (forall t, t <> ""%string ->
   addFeedComment 201 (Some "u"%string) 1 (JString t) (mkCDB (mkDB [mkPost 1 "w"%string "friends"%string 0] [] []) [] [] 0)
   = (RError 404 "NOT_FOUND"%string "Post not found"%string, mkCDB (mkDB [mkPost 1 "w"%string "friends"%string 0] [] []) [] [] 0)).
Proof.
  apply feed_post_not_found. reflexivity.
Defined.




(** X21 (controller addFeedComment): the text is checked before it is
    trimmed, so a non-empty text of white space alone passes the check and
    the comment is stored with the empty text. *)
Theorem addFeedComment_blank_text cs u postId t cdb p :
  t <> ""%string -> Catalog.trim t = ""%string ->
  getAccessiblePost postId u (feed cdb) = Some p ->
  addFeedComment cs (Some u) postId (JString t) cdb
  = (RSuccess cs (mkComment (c_next_id cdb) postId u ""%string),
     mkCDB (feed cdb) (comments cdb ++ [mkComment (c_next_id cdb) postId u ""%string])
           (update_where (fun e => Nat.eqb (fst e) postId) (fun e => (fst e, snd e + 1))
                         (commentsCount cdb))
           (S (c_next_id cdb))).
Proof.
  intros Hne Htr Hp. apply String.eqb_neq in Hne.
  unfold addFeedComment, addComment, bind, get, put, ret. rewrite Hne, Htr, Hp. reflexivity.
Qed.

Lemma addFeedComment_blank_text_witness :
  addFeedComment 201 (Some "u"%string) 1 (JString "   "%string)
    (mkCDB (mkDB [mkPost 1 "w"%string "public"%string 0] [] []) [] [(1%nat, 0)] 0)
  = (RSuccess 201 (mkComment 0 1 "u"%string ""%string),
     mkCDB (mkDB [mkPost 1 "w"%string "public"%string 0] [] []) [mkComment 0 1 "u"%string ""%string] [(1%nat, 1)] 1).
Proof.
  apply (addFeedComment_blank_text 201 "u"%string 1 "   "%string
           (mkCDB (mkDB [mkPost 1 "w"%string "public"%string 0] [] []) [] [(1%nat, 0)] 0)
           (mkPost 1 "w"%string "public"%string 0)).
  - discriminate.
  - vm_compute; reflexivity.
  - reflexivity.
Defined.



(** X23 (controller getFeedPosts): the limit is [Math.min(parseInt(limit)
    || 10, 50)]. When the query's limit does not parse to a negative
    number (absent, not a number, 0 or positive), the page lists the
    [feed_limit] newest visible posts, between 1 and 50 of them. A negative
    limit is passed on as a negative [take]: the page lists the
    [|limit|] oldest visible posts, newest first. [nextCursor] is the id
    of the page's last post. *)
Theorem getFeedPosts_limit u limit db :
  ((forall n, limit = Some n -> 0 <= n) ->
   1 <= feed_limit limit <= 50 /\
   getFeedPosts (Some u) limit None db
   = let page := map (fun p => (p, existsb (like_eqb (p_id p, u)) (likes db)))
                     (firstn (Z.to_nat (feed_limit limit)) (rev (filter (post_visible u db) (posts db)))) in
     RSuccess 200 (page, next_cursor page)) /\
  (forall n, limit = Some n -> n < 0 ->
   getFeedPosts (Some u) limit None db
   = let page := map (fun p => (p, existsb (like_eqb (p_id p, u)) (likes db)))
                     (rev (firstn (Z.to_nat (- n)) (filter (post_visible u db) (posts db)))) in
     RSuccess 200 (page, next_cursor page)).
Proof.
  split.
  - intros Hn.
    assert (Hr : 1 <= feed_limit limit <= 50).
    { unfold feed_limit; destruct limit as [n|].
      - specialize (Hn n eq_refl). destruct (Z.eqb_spec n 0); lia.
      - lia. }
    split; [exact Hr|].
    unfold getFeedPosts, listPosts; cbv zeta.
    rewrite (proj2 (Z.leb_le 0 (feed_limit limit)) ltac:(lia)); reflexivity.
  - intros n -> Hn.
    assert (Hf : feed_limit (Some n) = n).
    { unfold feed_limit; destruct (Z.eqb_spec n 0); lia. }
    unfold getFeedPosts, listPosts; cbv zeta.
    rewrite Hf, (proj2 (Z.leb_gt 0 n) Hn); reflexivity.
Qed.

Lemma getFeedPosts_limit_witness :
  getFeedPosts (Some "u"%string) (Some (-1)) None
    (mkDB [mkPost 1 "w"%string "public"%string 0; mkPost 2 "w"%string "public"%string 0] [] [])
  = RSuccess 200 ([(mkPost 1 "w"%string "public"%string 0, false)], Some 1%nat) /\
  getFeedPosts (Some "u"%string) (Some 1) None
    (mkDB [mkPost 1 "w"%string "public"%string 0; mkPost 2 "w"%string "public"%string 0] [] [])
  = RSuccess 200 ([(mkPost 2 "w"%string "public"%string 0, false)], Some 2%nat).
Proof.
  split.
  - rewrite (proj2 (getFeedPosts_limit "u"%string (Some (-1))
              (mkDB [mkPost 1 "w"%string "public"%string 0; mkPost 2 "w"%string "public"%string 0] [] []))
              (-1) eq_refl ltac:(lia)).
    vm_compute; reflexivity.
  - rewrite (proj2 (proj1 (getFeedPosts_limit "u"%string (Some 1)
              (mkDB [mkPost 1 "w"%string "public"%string 0; mkPost 2 "w"%string "public"%string 0] [] []))
              ltac:(intros n Hn; inversion Hn; lia))).
    vm_compute; reflexivity.
Defined.

End FeedProps.
